(** * Replay memory, sampling, action selection and targets of the
      deep reinforcement learning notebooks

    The notebooks contain one delivered class, [ReplayMemory]
    (12-DQN-pytorch), built on [collections.deque], [random.sample],
    [zip] and [torch.tensor]; the other algorithms (greedy action
    selection, Bellman targets, target network synchronisation,
    backward returns) are given as formulas and code fragments in the
    exercise texts.  Around them the notebooks define the random
    environment [RandomEnv] and the interaction loop (7-Gym), the
    recorder [GymRecorder], [running_average] (8-MonteCarlo), and
    [sort_dataset_by_labels] and [validate] (11-Pytorch).  The first
    part embeds the code, the second part states and proves its
    properties. *)

From Stdlib Require Import ZArith QArith Qminmax Qpower Lia Permutation.
From Stdlib Require Import PrimFloat Uint63.
From stdpp Require Import base list gmap strings sorting.

(** ** Python values, exceptions and effects *)

Module Py.

(** The values that the notebooks pass around: scalars, plain
    sequences of numbers, numpy arrays and torch tensors.  Numbers are
    exact rationals; arrays carry their flattened data. *)
Inductive obj : Type :=
| NoneObj
| Bool (b : bool)
| Int (n : Z)
| Float (x : Q)
| Seq (xs : list Q)
| ndarray (xs : list Q)
| Tensor (xs : list Q).

(** [isinstance(o, (torch.Tensor,))] *)
Definition isinstance_Tensor (o : obj) : bool :=
  match o with Tensor _ => true | _ => false end.


(** [Tensor.numpy(force=True)]: detach, move to the CPU, view the
    data as an array.  It is only ever called on tensors. *)
Definition numpy_force (o : obj) : obj :=
  match o with Tensor xs => ndarray xs | _ => o end.

(** An exception is identified by its class and carries a message. *)
Record exc : Type := Exc { exc_class : string; exc_msg : string }.

Inductive result (A : Type) : Type :=
| Ok (a : A)
| Raise (e : exc).
Arguments Ok {A} a.
Arguments Raise {A} e.

Definition raises {A} (cls : string) (r : result A) : Prop :=
  exists msg, r = Raise (Exc cls msg).

(** Statements run on a state [S]; an exception keeps the state
    reached when it was raised. *)
Definition M (S A : Type) : Type := S -> result A * S.

Definition ret {S A} (a : A) : M S A := fun s => (Ok a, s).
Definition raise {S A} (e : exc) : M S A := fun s => (Raise e, s).
Definition bind {S A B} (m : M S A) (k : A -> M S B) : M S B :=
  fun s => match m s with
           | (Ok a, s') => k a s'
           | (Raise e, s') => (Raise e, s')
           end.
Definition lift {S A} (r : result A) : M S A := fun s => (r, s).
Definition fmap {S A B} (f : A -> B) (m : M S A) : M S B :=
  bind m (fun a => ret (f a)).

(** Sequencing of computations that only succeed or raise. *)
Definition and_then {A B} (r : result A) (k : A -> result B) : result B :=
  match r with
  | Ok a => k a
  | Raise e => Raise e
  end.
Definition get {S} : M S S := fun s => (Ok s, s).

End Py.

Notation "'let*' x := m 'in' k" := (Py.bind m (fun x => k))
  (at level 10, x name, m at level 100, k at level 200).
Notation "m ;; k" := (Py.bind m (fun _ => k))
  (at level 100, k at level 200, right associativity).

(** ** collections.deque *)

Module Deque.

Record t (A : Type) : Type := Make { items : list A; maxlen : option nat }.
Arguments Make {A} items maxlen.
Arguments items {A} _.
Arguments maxlen {A} _.

(** [deque([], maxlen=n)]: [None] means unbounded; an integer bound is
    read as a C [ssize_t], which overflows outside [-2^63 .. 2^63 - 1],
    and a negative bound is refused. *)
Definition new {A} (n : option Z) : Py.result (t A) :=
  match n with
  | None => Py.Ok (Make [] None)
  | Some n =>
      if ((n <? - 2 ^ 63) || (2 ^ 63 <=? n))%Z
      then Py.Raise (Py.Exc "OverflowError"
                       "Python int too large to convert to C ssize_t")
      else if (n <? 0)%Z
      then Py.Raise (Py.Exc "ValueError" "maxlen must be non-negative")
      else Py.Ok (Make [] (Some (Z.to_nat n)))
  end.

(** [d.append(x)]: add on the right, then discard one item on the left
    when the bound is exceeded. *)
Definition append {A} (d : t A) (x : A) : t A :=
  let grown := items d ++ [x] in
  match maxlen d with
  | None => Make grown None
  | Some n => if n <? length grown then Make (drop 1 grown) (Some n)
              else Make grown (Some n)
  end.

Definition len {A} (d : t A) : nat := length (items d).

End Deque.

(** ** random *)

Module Random.

(** The generator: a stream of raw draws and the number consumed. *)
Record state : Type := Gen { entropy : nat -> N; cursor : nat }.

Definition advance (g : state) : state :=
  Gen (entropy g) (S (cursor g)).

(** [randbelow(n)], for [n > 0]: an integer in [[0, n)]. *)
Definition randbelow (n : nat) : Py.M state nat :=
  fun g => (Py.Ok (N.to_nat (entropy g (cursor g) mod N.of_nat n)%N),
          advance g).

Definition IndexError : Py.exc :=
  Py.Exc "IndexError" "list index out of range".

(** The first selection loop of [random.sample], for populations of
    at most [setsize] items:
<<
    pool = list(population)
    for i in range(k):
        j = randbelow(n - i)
        result[i] = pool[j]
        pool[j] = pool[n - i - 1]
>>
    [live] is [n - i]; [todo] counts the iterations left. *)
Fixpoint sample_loop {A} (todo : nat) (pool : list A) (live : nat)
  : Py.M state (list A) :=
  match todo with
  | O => Py.ret []
  | S todo' =>
      let* j := randbelow live in
      match pool !! j, pool !! (live - 1) with
      | Some x, Some y =>
          let* rest := sample_loop todo' (<[j := y]> pool) (live - 1) in
          Py.ret (x :: rest)
      | _, _ => Py.raise IndexError
      end
  end.

(** The size up to which [random.sample] copies the population:
<<
    setsize = 21
    if k > 5:
        setsize += 4 ** _ceil(_log(k * 3, 4))
>>
    The exponent is the least [e] with [3 k <= 4^e]; the library
    computes it on floats, which gives the same for every [k] that a
    population in memory allows. *)
Definition setsize (k : nat) : nat :=
  21 + (if 5 <? k then 4 ^ ((Nat.log2_up (k * 3) + 1) / 2) else 0).

(** The inner loop of the second selection loop, cut after [fuel]
    draws:
<<
    j = randbelow(n)
    while j in selected:
        j = randbelow(n)
>>
    [None] when all [fuel] draws fell on selected positions. *)
Fixpoint draw_unselected (fuel n : nat) (selected : gset nat)
  : Py.M state (option nat) :=
  match fuel with
  | O => Py.ret None
  | S fuel' =>
      let* j := randbelow n in
      if bool_decide (j ∈ selected) then draw_unselected fuel' n selected
      else Py.ret (Some j)
  end.

(** The second selection loop of [random.sample], for larger
    populations:
<<
    selected = set()
    for i in range(k):
        j = randbelow(n)
        while j in selected:
            j = randbelow(n)
        selected_add(j)
        result[i] = population[j]
>>
    It does not end on every stream of draws; [fuel] bounds the draws
    of each run of the inner loop, and the result is [None] when one of
    them needs more. *)
Fixpoint sample_set {A} (fuel todo : nat) (population : list A)
    (selected : gset nat) : Py.M state (option (list A)) :=
  match todo with
  | O => Py.ret (Some [])
  | S todo' =>
      let* found := draw_unselected fuel (length population) selected in
      match found with
      | None => Py.ret None
      | Some j =>
          match population !! j with
          | Some x =>
              let* rest :=
                sample_set fuel todo' population ({[ j ]} ∪ selected) in
              Py.ret (cons x <$> rest)
          | None => Py.raise IndexError
          end
      end
  end.

(** [random.sample(population, k)]: the guard [0 <= k <= n], then one
    of the two selection loops, chosen by the size of the population.
    [fuel] is only used by the second loop. *)
Definition sample {A} (fuel : nat) (population : list A) (k : Z)
  : Py.M state (option (list A)) :=
  let n := length population in
  if negb ((0 <=? k)%Z && (k <=? Z.of_nat n)%Z)
  then Py.raise (Py.Exc "ValueError"
                   "Sample larger than population or is negative")
  else if n <=? setsize (Z.to_nat k)
  then Py.fmap Some (sample_loop (Z.to_nat k) population n)
  else sample_set fuel (Z.to_nat k) population ∅.

(** The values below [n] of the [len] draws from number [c] on. *)
Definition draws (n : nat) (g : state) (c len : nat) : list nat :=
  (fun i => N.to_nat (entropy g i mod N.of_nat n)%N) <$> seq c len.

(** Any [fuel] successive draws still to come take at least [k]
    values below [n]: the inner loop then finds an unselected position
    within [fuel] draws as long as fewer than [k] are selected. *)
Definition fair (fuel n k : nat) (g : state) : Prop :=
  forall c, cursor g <= c ->
    k <= size (list_to_set (draws n g c fuel) : gset nat).

(** [rng.choice(a)] on a non-empty sequence: one element, its
    position drawn below [len(a)]. *)
Definition choice {A} (a : list A) : Py.M state A :=
  match a with
  | [] => Py.raise (Py.Exc "ValueError" "a cannot be empty")
  | x :: _ =>
      let* j := randbelow (length a) in
      Py.ret (nth j a x)
  end.

(** A generator for running the definitions on concrete data: draw
    number [i] is [7 * i + 3]. *)
Definition fixed : state := Gen (fun i => N.of_nat (7 * i + 3)) 0.

(** A generator that gives the draws of [l], then its draw number. *)
Definition replay (l : list N) : state :=
  Gen (fun i => nth i l (N.of_nat i)) 0.

(** [rng.random()]: a float in [[0, 1)], 53 random bits over [2^53]. *)
Definition random : Py.M state Q :=
  fun g => (Py.Ok (Z.of_N (entropy g (cursor g) mod 2 ^ 53)%N # 2 ^ 53),
            advance g).

End Random.

(** ** The replay memory *)

(** [Transition = namedtuple('Transition',
    ('state', 'action', 'reward', 'next_state', 'done'))] *)
Record Transition (A : Type) : Type := mkTransition
  { state : A; action : A; reward : A; next_state : A; done : A }.
Arguments mkTransition {A} _ _ _ _ _.
Arguments state {A} _.
Arguments action {A} _.
Arguments reward {A} _.
Arguments next_state {A} _.
Arguments done {A} _.

(** A named tuple is a tuple: its fields in order. *)
Definition as_tuple {A} (t : Transition A) : list A :=
  [state t; action t; reward t; next_state t; done t].

(** [zip] over the unpacked [rows]: the columns of [rows], cut to the
    shortest row; [zip()] without arguments yields nothing. *)
Fixpoint zip_star {A} (rows : list (list A)) : list (list A) :=
  match rows with
  | [] => []
  | r :: rest =>
      match rest with
      | [] => (fun x => [x]) <$> r
      | _ :: _ => zip_with cons r (zip_star rest)
      end
  end.

(** [Transition] over unpacked [args]: exactly five positional
    arguments. *)
Definition Transition_new {A} (args : list A) : Py.result (Transition A) :=
  match args with
  | [s; a; r; s'; d] => Py.Ok (mkTransition s a r s' d)
  | _ => Py.Raise (Py.Exc "TypeError"
                     "Transition.__new__() expects 5 positional arguments")
  end.

(** ** torch.tensor

    The tensor library is an external collaborator.  [torch.tensor(data,
    dtype=dt)] either refuses [data] (ragged shapes, entries that are
    not numbers) or returns a tensor whose entry [j] along the first
    axis is the conversion of [data[j]] to [dt].  The refusal test and
    the conversion of one entry are left to the library. *)

Module Torch.

Inductive dtype : Type := float32 | long | boolean.

Class api : Type := Api
  { cell : Type;
    convert : dtype -> Py.obj -> cell;
    rejects : dtype -> list Py.obj -> option Py.exc }.

Definition tensor `{api} (data : list Py.obj) (dt : dtype)
  : Py.result (list cell) :=
  match rejects dt data with
  | Some e => Py.Raise e
  | None => Py.Ok (convert dt <$> data)
  end.

(** A library instance that keeps entries as they are and refuses
    nothing; used to run the definitions on concrete data. *)
Definition plain : api := Api Py.obj (fun _ x => x) (fun _ _ => None).

(** The shape that the library reads off one entry: scalars have none,
    sequences and arrays their length; a tensor entry is read as a
    scalar and must hold one element; [None] is no number. *)
Definition entry_shape (o : Py.obj) : option (list nat) :=
  match o with
  | Py.NoneObj => None
  | Py.Bool _ | Py.Int _ | Py.Float _ => Some []
  | Py.Seq xs | Py.ndarray xs => Some [length xs]
  | Py.Tensor xs => if length xs =? 1 then Some [] else None
  end.

(** A library instance that keeps entries as they are and refuses the
    data whose entries have no common shape; used to run the
    definitions on data that [torch.tensor] refuses. *)
Definition strict_rejects (dt : dtype) (data : list Py.obj)
  : option Py.exc :=
  match entry_shape <$> data with
  | [] => None
  | sh :: shs =>
      if bool_decide (is_Some sh /\ Forall (fun sh' => sh' = sh) shs)
      then None
      else Some (Py.Exc "ValueError" "entries of different shapes")
  end.

Definition strict : api := Api Py.obj (fun _ x => x) strict_rejects.

End Torch.

Module ReplayMemory.

Record t : Type := Obj { memory : Deque.t (Transition Py.obj) }.

(** What a method can read and change: the object and the generator
    of the [random] module. *)
Record world : Type := World { self : t; rng : Random.state }.

(** [self.memory = deque([], maxlen=capacity)] *)
Definition __init__ (capacity : option Z) : Py.result t :=
  match Deque.new capacity with
  | Py.Ok d => Py.Ok (Obj d)
  | Py.Raise e => Py.Raise e
  end.

(** The transition that [append] builds from its arguments. *)
Definition stored (state action reward next_state done : Py.obj)
  : Transition Py.obj :=
  let state :=
    if Py.isinstance_Tensor state then Py.numpy_force state else state in
  let next_state :=
    if Py.isinstance_Tensor next_state then Py.numpy_force next_state
    else next_state in
  mkTransition state action reward next_state done.

Definition append (state action reward next_state done : Py.obj)
  : Py.M world unit :=
  fun w =>
    let tr := stored state action reward next_state done in
    (Py.Ok tt, World (Obj (Deque.append (memory (self w)) tr)) (rng w)).

Definition __len__ (o : t) : nat := Deque.len (memory o).

(** The object that [__init__] builds for a capacity [n >= 0]. *)
Definition empty (n : nat) : t := Obj (Deque.Make [] (Some n)).

(** A run of successive [append] calls, each given by its five
    arguments. *)
Definition call : Type := Transition Py.obj.

Definition stored_of (c : call) : Transition Py.obj :=
  stored (state c) (action c) (reward c) (next_state c) (done c).

(** Concrete calls for running the definitions: call number [n] of an
    interaction, with a tensor as next state. *)
Definition step_call (n : Z) : call :=
  mkTransition (Py.ndarray [inject_Z n]) (Py.Int (n mod 2))
               (Py.Float 1) (Py.Tensor [inject_Z (n + 1)])
               (Py.Bool false).

Fixpoint appends (cs : list call) : Py.M world unit :=
  match cs with
  | [] => Py.ret tt
  | c :: cs' =>
      append (state c) (action c) (reward c) (next_state c) (done c) ;;
      appends cs'
  end.

Definition with_rng {A} (m : Py.M Random.state A) : Py.M world A :=
  fun w => let (r, g) := m (rng w) in (r, World (self w) g).

(** [sample(batch_size)]; [None] when [random.sample] needs more than
    [fuel] draws for one of its selections. *)
Definition sample `{Torch.api} (fuel : nat) (batch_size : Z)
  : Py.M world (option (Transition (list Torch.cell))) :=
  let* w := Py.get in
  (* Sample the batch *)
  let* selection :=
    with_rng
      (Random.sample fuel (Deque.items (memory (self w))) batch_size) in
  match selection with
  | None => Py.ret None
  | Some transitions =>
      (* Transpose the batch *)
      let* batch :=
        Py.lift (Transition_new (zip_star (as_tuple <$> transitions))) in
      (* Cast to tensors *)
      let* states := Py.lift (Torch.tensor (state batch) Torch.float32) in
      let* actions := Py.lift (Torch.tensor (action batch) Torch.long) in
      let* rewards :=
        Py.lift (Torch.tensor (reward batch) Torch.float32) in
      let* next_states :=
        Py.lift (Torch.tensor (next_state batch) Torch.float32) in
      let* dones := Py.lift (Torch.tensor (done batch) Torch.boolean) in
      Py.ret (Some (mkTransition states actions rewards next_states dones))
  end.

(** What [sample] does with the selected transitions: transpose, then
    cast each field to a tensor. *)
Definition collate `{Torch.api} (transitions : list (Transition Py.obj))
  : Py.result (Transition (list Torch.cell)) :=
  Py.and_then (Transition_new (zip_star (as_tuple <$> transitions)))
    (fun batch =>
  Py.and_then (Torch.tensor (state batch) Torch.float32) (fun states =>
  Py.and_then (Torch.tensor (action batch) Torch.long) (fun actions =>
  Py.and_then (Torch.tensor (reward batch) Torch.float32) (fun rewards =>
  Py.and_then (Torch.tensor (next_state batch) Torch.float32)
    (fun next_states =>
  Py.and_then (Torch.tensor (done batch) Torch.boolean) (fun dones =>
  Py.Ok (mkTransition states actions rewards next_states dones))))))).

(** A buffer of capacity 3 after four appends, for running [sample]. *)
Definition demo : world :=
  snd (appends (step_call <$> [1; 2; 3; 4]%Z) (World (empty 3) Random.fixed)).

(** The batch that holds the conversions of the transitions [ts], field
    by field. *)
Definition batch_of `{Torch.api} (ts : list (Transition Py.obj))
  : Transition (list Torch.cell) :=
  mkTransition (Torch.convert Torch.float32 <$> (state <$> ts))
               (Torch.convert Torch.long <$> (action <$> ts))
               (Torch.convert Torch.float32 <$> (reward <$> ts))
               (Torch.convert Torch.float32 <$> (next_state <$> ts))
               (Torch.convert Torch.boolean <$> (done <$> ts)).

(** Row [j] of a batch: the five field tensors read at position [j]. *)
Definition row {C} (b : Transition (list C)) (j : nat)
  : option (Transition C) :=
  match state b !! j, action b !! j, reward b !! j,
        next_state b !! j, done b !! j with
  | Some s, Some a, Some r, Some s', Some d =>
      Some (mkTransition s a r s' d)
  | _, _, _, _, _ => None
  end.

Definition convert_transition `{Torch.api} (t : Transition Py.obj)
  : Transition Torch.cell :=
  mkTransition (Torch.convert Torch.float32 (state t))
               (Torch.convert Torch.long (action t))
               (Torch.convert Torch.float32 (reward t))
               (Torch.convert Torch.float32 (next_state t))
               (Torch.convert Torch.boolean (done t)).

(** [torch.tensor] accepts the fields of every selection [ts] taken
    from [pop]. *)
Definition tensorisable `{Torch.api} (pop : list (Transition Py.obj)) : Prop :=
  forall ts, ts ⊆ pop ->
    Torch.rejects Torch.float32 (state <$> ts) = None /\
    Torch.rejects Torch.long (action <$> ts) = None /\
    Torch.rejects Torch.float32 (reward <$> ts) = None /\
    Torch.rejects Torch.float32 (next_state <$> ts) = None /\
    Torch.rejects Torch.boolean (done <$> ts) = None.

(** A buffer of 22 transitions, which [random.sample] does not copy
    for a batch of two, with the draws 3, 3, 5 to come. *)
Definition large : world :=
  snd (appends (step_call <$> (Z.of_nat <$> seq 0 22))
               (World (empty 30) (Random.replay [3; 3; 5]%N))).

(** Two transitions whose states have different lengths, and the
    buffer that holds them. *)
Definition ragged_calls : list call :=
  [mkTransition (Py.ndarray [1; 2]%Q) (Py.Int 0) (Py.Float 1)
                (Py.ndarray [1; 3]%Q) (Py.Bool false);
   mkTransition (Py.ndarray [1]%Q) (Py.Int 1) (Py.Float 1)
                (Py.ndarray [2]%Q) (Py.Bool true)].

Definition ragged : world :=
  snd (appends ragged_calls (World (empty 3) Random.fixed)).




End ReplayMemory.

(** ** Action selection *)

Module Agent.

Definition Qltb (x y : Q) : bool := negb (Qle_bool y x).

(** [Tensor.argmax] and [ndarray.argmax]: the index of the first
    maximal value.  [best] and [top] are the index and value retained
    so far, [i] the index of the head of [xs]. *)
Fixpoint argmax_from (best : nat) (top : Q) (i : nat) (xs : list Q) : nat :=
  match xs with
  | [] => best
  | x :: xs' =>
      if Qle_bool x top then argmax_from best top (S i) xs'
      else argmax_from i x (S i) xs'
  end.

Definition argmax (xs : list Q) : Py.result nat :=
  match xs with
  | [] => Py.Raise (Py.Exc "IndexError" "argmax of an empty tensor")
  | x :: xs' => Py.Ok (argmax_from 0 x 1 xs')
  end.

(** [Q.max()] *)
Definition maximum (xs : list Q) : Py.result Q :=
  match xs with
  | [] => Py.Raise (Py.Exc "ValueError" "max of an empty array")
  | x :: xs' => Py.Ok (fold_left Qmax xs' x)
  end.

(** [np.where(Q == top)[0]]: the indices holding [top], in increasing
    order; [i] is the index of the head of [xs]. *)
Fixpoint where_eq_from (i : nat) (xs : list Q) (top : Q) : list nat :=
  match xs with
  | [] => []
  | x :: xs' =>
      if Qeq_bool x top then i :: where_eq_from (S i) xs' top
      else where_eq_from (S i) xs' top
  end.

Definition where_eq (xs : list Q) (top : Q) : list nat :=
  where_eq_from 0 xs top.

(** The greedy action of 12-DQN-pytorch: [Tensor.argmax] then
    [Tensor.item]. *)
Definition greedy_argmax (scores : list Q) : Py.M Random.state nat :=
  Py.lift (argmax scores).

(** [env.action_space.sample()] on a discrete space of [n] actions. *)
Definition action_space_sample (n : nat) : Py.M Random.state nat :=
  Random.randbelow n.

(** Modelled from the spec: the [act] methods of the agents are
    exercise cells left empty.  Following section 4.2, an action drawn
    from the action set with probability [epsilon], otherwise a greedy
    action, drawn among the actions that share the maximal score.  The
    tied actions are collected as the text of 8-MonteCarlo advises,
    [np.where(Q == Q.max())[0]], and one of them is drawn with the
    generator's [choice]. *)
Definition epsilon_greedy (epsilon : Q) (scores : list Q)
  : Py.M Random.state nat :=
  let* u := Random.random in
  if Qltb u epsilon then action_space_sample (length scores)
  else
    let* top := Py.lift (maximum scores) in
    Random.choice (where_eq scores top).

(** The fragment that 8-MonteCarlo gives for epsilon-greedy selection,
    for a given way of reading the greedy action ([argmax] in the
    fragment):
<<
    action = greedy(scores)
    if rng.random() < epsilon:
        action = env.action_space.sample()
>> *)
Definition act (greedy : list Q -> Py.M Random.state nat)
    (epsilon : Q) (scores : list Q) : Py.M Random.state nat :=
  let* action := greedy scores in
  let* u := Random.random in
  if Qltb u epsilon then action_space_sample (length scores)
  else Py.ret action.

(** [i] is a maximal action of [scores]. *)
Definition maximal (scores : list Q) (i : nat) : Prop :=
  exists x, scores !! i = Some x /\ Forall (fun y => (y <= x)%Q) scores.

End Agent.

(** ** Bellman targets of the DQN update *)

Module Bellman.

(** [Tensor.max()] over the action axis of one row of scores. *)
Definition row_max (scores : list Q) : Q :=
  match scores with
  | [] => 0%Q
  | x :: xs => fold_left Qmax xs x
  end.

(** [next_Q_values = target_net(batch.next_state)] reduced to the value
    of the greedy action in each next state. *)
Definition next_best (target_net : list Q -> list Q)
    (next_states : list (list Q)) : list Q :=
  (fun s => row_max (target_net s)) <$> next_states.

(** [Q[batch.dones] = 0.0] *)
Definition mask_dones (dones : list bool) (q : list Q) : list Q :=
  zip_with (fun (d : bool) x => if d then 0%Q else x) dones q.

(** Modelled from the spec: the [update] method of the DQN agent is an
    exercise cell left empty.  Its target vector follows step 3 of the
    update (reward alone on terminal transitions, reward plus discounted
    next value otherwise), computed as the exercise text prescribes: the
    next values of terminal transitions are set to zero, then
    [rewards + gamma * next values]. *)
Definition targets (gamma : Q) (rewards : list Q) (dones : list bool)
    (next_q : list Q) : list Q :=
  zip_with (fun r x => (r + gamma * x)%Q) rewards (mask_dones dones next_q).

End Bellman.

(** ** Value networks and the target network *)

Module NN.

(** Tensor storage: the data of each parameter tensor, by address. *)
Abbreviation store := (gmap nat (list Q)).

(** A network owns named parameter tensors, in registration order. *)
Record module : Type := Net { parameters : list (string * nat) }.

Definition names (net : module) : list string := (parameters net).*1.
Definition addresses (net : module) : list nat := (parameters net).*2.

(** The current parameter values of [net]. *)
Definition values (σ : store) (net : module) : list (list Q) :=
  (fun l => default [] (σ !! l)) <$> addresses net.

(** [net.state_dict()]: each name with the parameter tensor itself, not
    a copy of its data. *)
Definition state_dict (net : module) : gmap string nat :=
  list_to_map (parameters net).

(** The copying pass of [load_state_dict]: every own parameter present
    in [sd] with the same shape receives the data of the given tensor
    in place ([param.copy_(input_param)]); mismatches and missing keys
    are collected, and so is a copy that fails (here: an address
    without storage, which a well-formed store does not have). *)
Fixpoint load_from_state_dict (ps : list (string * nat))
    (sd : gmap string nat) (σ : store) : store * list string :=
  match ps with
  | [] => (σ, [])
  | (name, l) :: ps' =>
      match sd !! name with
      | Some l' =>
          match σ !! l, σ !! l' with
          | Some old, Some new =>
              if length old =? length new
              then load_from_state_dict ps' sd (<[l := new]> σ)
              else let (σ', errs) := load_from_state_dict ps' sd σ in
                   (σ', String.append "size mismatch for " name :: errs)
          | _, _ =>
              let (σ', errs) := load_from_state_dict ps' sd σ in
              (σ', String.append "While copying the parameter named " name
                   :: errs)
          end
      | None =>
          let (σ', errs) := load_from_state_dict ps' sd σ in
          (σ', String.append "Missing key(s) in state_dict: " name :: errs)
      end
  end.

(** [net.load_state_dict(sd)] with the default [strict=True]. *)
Definition load_state_dict (net : module) (sd : gmap string nat)
  : Py.M store unit :=
  fun σ =>
    let (σ', errs) := load_from_state_dict (parameters net) sd σ in
    let unexpected :=
      if bool_decide (dom sd ⊆ list_to_set (names net)) then []
      else ["Unexpected key(s) in state_dict"] in
    match unexpected ++ errs with
    | [] => (Py.Ok tt, σ')
    | _ :: _ =>
        (Py.Raise (Py.Exc "RuntimeError" "Error(s) in loading state_dict"),
         σ')
    end.

(** An optimizer step writes new data into the parameter tensors of
    [net], in place. *)
Definition write (net : module) (vals : list (list Q)) (σ : store) : store :=
  foldr (fun (p : nat * list Q) σ => <[p.1 := p.2]> σ) σ
        (zip (addresses net) vals).

Inductive stmt : Type :=
| Update (t : nat)
| Sync.

Section Training.

(** The estimator is a pure function of its parameter values; the
    optimizer computes the next values of the online parameters from
    the step number and the values of both networks. *)
Variable forward : list (list Q) -> list Q -> list Q.
Variable optimizer : nat -> list (list Q) -> list (list Q) -> list (list Q).
Variables net target_net : module.
Variable T_target : nat.

Definition predict (σ : store) (m : module) (s : list Q) : list Q :=
  forward (values σ m) s.

(** [target_net.load_state_dict(net.state_dict())] *)
Definition sync : Py.M store unit :=
  load_state_dict target_net (state_dict net).

(** One optimizer step of the update: the parameters of the online
    network, and only these, are overwritten in place. *)
Definition update (t : nat) : Py.M store unit :=
  fun σ =>
    (Py.Ok tt,
     write net (optimizer t (values σ net) (values σ target_net)) σ).

Definition exec (c : stmt) : Py.M store unit :=
  match c with
  | Update t => update t
  | Sync => sync
  end.

Fixpoint run (p : list stmt) : Py.M store unit :=
  match p with
  | [] => Py.ret tt
  | c :: p' => exec c ;; run p'
  end.

(** Modelled from the spec: the training loop of the DQN agent is an
    exercise cell left empty.  Following the reminder of the algorithm
    and step 5 of the update, the constructor makes both networks equal,
    then every step updates the online network and every [T_target]
    steps the target network is overwritten by a copy of it. *)
Fixpoint loop (n t : nat) : list stmt :=
  match n with
  | O => []
  | S n' =>
      Update t ::
      (if (S t) mod T_target =? 0 then [Sync] else []) ++ loop n' (S t)
  end.

Definition program (n : nat) : list stmt := Sync :: loop n 0.

End Training.

(** Two networks of one architecture in separate storage: same names,
    every tensor allocated, same shapes, no address shared. *)
Record congruent (σ : store) (net target_net : module) : Prop :=
  { same_names : names target_net = names net;
    names_nodup : NoDup (names net);
    separate : NoDup (addresses net ++ addresses target_net);
    allocated :
      Forall (fun l => is_Some (σ !! l))
             (addresses net ++ addresses target_net);
    same_shapes :
      length <$> values σ target_net = length <$> values σ net }.

(** The optimizer writes tensors of the shapes it was given. *)
Definition keeps_shapes
    (optimizer : nat -> list (list Q) -> list (list Q) -> list (list Q))
  : Prop :=
  forall t θ θ', length <$> optimizer t θ θ' = length <$> θ.

(** Two small networks of one architecture and an optimizer, for
    running the definitions on concrete data. *)
Definition demo_net : module := Net [("fc.weight", 0); ("fc.bias", 1)].
Definition demo_target : module := Net [("fc.weight", 2); ("fc.bias", 3)].
Definition demo_store : store :=
  <[0 := [1; 2]%Q]> (<[1 := [3]%Q]> (<[2 := [0; 0]%Q]> (<[3 := [0]%Q]> ∅))).
Definition demo_optimizer (t : nat) (θ θ' : list (list Q))
  : list (list Q) :=
  (fun w : list Q => (fun x => x + 1)%Q <$> w) <$> θ.
Definition demo_forward (θ : list (list Q)) (s : list Q) : list Q :=
  concat θ ++ s.

End NN.

(** ** Returns of an episode *)

Module MonteCarlo.

(** Modelled from the spec: the [update] method of the Monte-Carlo
    agent is an exercise cell left empty.  The returns are computed as
    the exercise text prescribes, iterating backwards over the rewards
    of the episode from a return of 0 for the terminal state:
<<
    return_state = 0.0
    for reward in reversed(rewards):
        return_state = reward + gamma * return_state
>>
    and keeping the return of each step, first step first. *)
Definition backward_returns (gamma : Q) (rewards : list Q) : list Q :=
  snd (fold_left
         (fun (acc : Q * list Q) r =>
            let R := (r + gamma * fst acc)%Q in (R, R :: snd acc))
         (rev rewards) (0%Q, [])).

(** The same loop on binary64 floats, the numbers Python computes
    with. *)
Definition backward_returns64 (gamma : float) (rewards : list float)
  : list float :=
  snd (fold_left
         (fun (acc : float * list float) r =>
            let R := (r + gamma * fst acc)%float in (R, R :: snd acc))
         (rev rewards) (0%float, [])).

(** The naive computation that the exercise text shows first, for
    step [t] of an episode of [T] steps; [reward] is the reward of
    step [t], and the rewards of the steps [k] are read but not used:
<<
    state, action, reward = episode[t]
    return_state = 0.0
    for k in range(t, T): # rewards coming after t
        next_state, next_action, next_reward = episode[k]
        return_state += gamma**k * reward
>> *)
Definition naive_return (gamma : Q) (rewards : list Q) (t : nat)
  : Py.result Q :=
  match rewards !! t with
  | None => Py.Raise Random.IndexError
  | Some reward =>
      Py.Ok (fold_left
               (fun return_state k =>
                  (return_state + gamma ^ Z.of_nat k * reward)%Q)
               (seq t (length rewards - t)) 0%Q)
  end.

(** [R_t]: the return from step [t]; the terminal state [T] and
    anything beyond it has return 0. *)
Definition return_at (gamma : Q) (rewards : list Q) (t : nat) : Q :=
  nth t (backward_returns gamma rewards) 0%Q.

End MonteCarlo.

(** ** Environments and the interaction loop *)

Module Gym.

(** [gym.spaces.Discrete(n)]: the integers below [n], with the
    generator that [sample] draws from. *)
Record Discrete : Type := Space { n : Z; np_random : Random.state }.

(** The sizes that the constructor of [Discrete] refuses and the
    exception it raises for each are the library's own, and the
    notebook installs whichever release is current: [Discrete_check]
    stands for that check, [None] for an accepted size. *)
Class api : Type := { Discrete_check : Z -> option Py.exc }.

Definition Discrete_new `{api} (n : Z) (g : Random.state)
  : Py.result Discrete :=
  match Discrete_check n with
  | Some e => Py.Raise e
  | None => Py.Ok (Space n g)
  end.

(** A check for running the definitions: a size that is not positive
    fails an assertion, a size that does not fit the 64-bit integers of
    the space overflows. *)
Definition checked : api :=
  {| Discrete_check n :=
       if (n <=? 0)%Z
       then Some (Py.Exc "AssertionError" "n (counts) have to be positive")
       else if (2 ^ 63 <=? n)%Z
       then Some (Py.Exc "OverflowError"
                    "Python int too large to convert to C long")
       else None |}.

(** [space.sample()] *)
Definition sample : Py.M Discrete Z :=
  fun d => let (r, g) := Random.randbelow (Z.to_nat (n d)) (np_random d) in
           (Py.and_then r (fun j => Py.Ok (Z.of_nat j)), Space (n d) g).

(** What the interaction loop uses of an environment held in a
    world [W], with observations in [Obs]: [env.reset()],
    [env.step(action)] giving the next state, the reward and the two
    end flags, and [env.action_space.sample()]. *)
Class Env (W Obs : Type) : Type :=
  { reset : Py.M W Obs;
    step : Z -> Py.M W (Obs * Q * bool * bool);
    action_space_sample : Py.M W Z }.

(** One episode with a random agent:
<<
    state, info = env.reset()
    done = False
    return_episode = 0
    while not done:
        action = env.action_space.sample()
        next_state, reward, terminal, truncated, info = env.step(action)
        done = terminal or truncated
        return_episode += reward
        state = next_state
>>
    The loop runs for at most [fuel] iterations; it gives [None] when
    they do not suffice, and the last state with the return
    otherwise. *)
Fixpoint while_not_done `{Env W Obs} (fuel : nat) (state : Obs)
    (return_episode : Q) : Py.M W (option (Obs * Q)) :=
  match fuel with
  | O => Py.ret None
  | S fuel' =>
      (* Select an action randomly *)
      let* action := action_space_sample in
      (* Sample a single transition *)
      let* transition := step action in
      let '(next_state, reward, terminal, truncated) := transition in
      (* End of the episode *)
      let done := terminal || truncated in
      (* Update undiscounted return *)
      let return_episode := (return_episode + reward)%Q in
      (* Go in the next state *)
      let state := next_state in
      if done then Py.ret (Some (state, return_episode))
      else while_not_done fuel' state return_episode
  end.

Definition episode `{Env W Obs} (fuel : nat)
  : Py.M W (option (Obs * Q)) :=
  let* state := reset in
  while_not_done fuel state 0%Q.

End Gym.

(** The random environment of 7-Gym. *)
Module RandomEnv.

Record t : Type := Obj
  { nb_states : Z;
    nb_actions : Z;
    max_episode_steps : Z;
    render_mode : string;
    observation_space : Gym.Discrete;
    action_space : Gym.Discrete;
    current_step : Z;
    state : Z }.

(** The environment and the global generator of [np.random]. *)
Record world : Type := World { self : t; np_random : Random.state }.

Definition set_current_step (c : Z) : Py.M world unit :=
  fun w =>
    let e := self w in
    (Py.Ok tt,
     World (Obj (nb_states e) (nb_actions e) (max_episode_steps e)
                (render_mode e) (observation_space e) (action_space e)
                c (state e))
           (np_random w)).

(** [self.state = self.observation_space.sample()] *)
Definition sample_state : Py.M world unit :=
  fun w =>
    let e := self w in
    let (r, space) := Gym.sample (observation_space e) in
    match r with
    | Py.Ok s =>
        (Py.Ok tt,
         World (Obj (nb_states e) (nb_actions e) (max_episode_steps e)
                    (render_mode e) space (action_space e)
                    (current_step e) s)
               (np_random w))
    | Py.Raise x =>
        (Py.Raise x,
         World (Obj (nb_states e) (nb_actions e) (max_episode_steps e)
                    (render_mode e) space (action_space e)
                    (current_step e) (state e))
               (np_random w))
    end.

(** [self.action_space.sample()] *)
Definition action_space_sample : Py.M world Z :=
  fun w =>
    let e := self w in
    let (r, space) := Gym.sample (action_space e) in
    (r,
     World (Obj (nb_states e) (nb_actions e) (max_episode_steps e)
                (render_mode e) (observation_space e) space
                (current_step e) (state e))
           (np_random w)).

(** [np.random.uniform(0, 1, 1)[0]] *)
Definition uniform : Py.M world Q :=
  fun w => let (r, g) := Random.random (np_random w) in (r, World (self w) g).

Definition reset : Py.M world Z :=
  (* Re-initialize time *)
  set_current_step 0;;
  (* Sample one state randomly *)
  sample_state;;
  let* w := Py.get in
  Py.ret (state (self w)).

Definition ZeroDivisionError : Py.exc :=
  Py.Exc "ZeroDivisionError" "integer division or modulo by zero".

(** [step] does not read [action]. *)
Definition step (action : Z) : Py.M world (Z * Q * bool * bool) :=
  (* Random transition to another state *)
  sample_state;;
  (* Random reward *)
  let* reward := uniform in
  let terminal := false in
  let* w := Py.get in
  set_current_step (current_step (self w) + 1);;
  let* w := Py.get in
  let e := self w in
  if (max_episode_steps e =? 0)%Z then Py.raise ZeroDivisionError
  else
    let truncated := (current_step e mod max_episode_steps e =? 0)%Z in
    Py.ret (state e, reward, terminal, truncated).

(** The constructor, given the generators of the two spaces. *)
Definition __init__ `{L : Gym.api} (nb_states nb_actions max_episode_steps : Z)
    (render_mode : string) (g_obs g_act : Random.state)
  : Py.M Random.state t :=
  let* observation_space := Py.lift (Gym.Discrete_new nb_states g_obs) in
  let* action_space := Py.lift (Gym.Discrete_new nb_actions g_act) in
  fun g =>
    let e := Obj nb_states nb_actions max_episode_steps render_mode
                 observation_space action_space 0 0 in
    (* Reset *)
    let (r, w) := reset (World e g) in
    (Py.and_then r (fun _ => Py.Ok (self w)), np_random w).

#[global] Instance env : Gym.Env world Z :=
  {| Gym.reset := reset;
     Gym.step := step;
     Gym.action_space_sample := action_space_sample |}.

(** An environment for running the definitions: 4 states, 2 actions,
    episodes of 3 steps. *)
Definition demo : world :=
  World (Obj 4 2 3 "ansi" (Gym.Space 4 Random.fixed)
             (Gym.Space 2 Random.fixed) 0 0)
        Random.fixed.

(** The same with episodes of no step. *)
Definition broken : world :=
  World (Obj 4 2 0 "ansi" (Gym.Space 4 Random.fixed)
             (Gym.Space 2 Random.fixed) 0 0)
        Random.fixed.

End RandomEnv.

(** ** The recorder of episodes *)

(** The part of the file system that [make_video] touches. *)
Module OS.

(** A path is the list of its components from the root. *)
Definition path : Type := list string.

(** A file name as the program gives it: components from the root or
    from the working directory, none of them empty, [.] or [..]. *)
Inductive filename : Type :=
| Absolute (parts : path)
| Relative (parts : path).

(** The directories besides the root, and the files with their
    contents. *)
Record fs (C : Type) : Type :=
  FS { cwd : path; dirs : gset path; files : gmap path C }.
Arguments FS {C} cwd dirs files.
Arguments cwd {C} _.
Arguments dirs {C} _.
Arguments files {C} _.

(** [os.path.abspath(filename)] *)
Definition abspath {C} (o : fs C) (f : filename) : path :=
  match f with
  | Absolute parts => parts
  | Relative parts => cwd o ++ parts
  end.

(** [os.path.dirname(p)] of an absolute path; the root is its own
    directory. *)
Definition dirname (p : path) : path := removelast p.

Definition isdir {C} (o : fs C) (p : path) : bool :=
  bool_decide (p = [] \/ p ∈ dirs o).

Definition isfile {C} (o : fs C) (p : path) : bool :=
  bool_decide (is_Some (files o !! p)).

(** [os.path.exists(p)] *)
Definition path_exists {C} (o : fs C) (p : path) : bool :=
  isdir o p || isfile o p.

Definition FileExistsError : Py.exc :=
  Py.Exc "FileExistsError" "File exists".
Definition FileNotFoundError : Py.exc :=
  Py.Exc "FileNotFoundError" "No such file or directory".
Definition NotADirectoryError : Py.exc :=
  Py.Exc "NotADirectoryError" "Not a directory".
Definition IsADirectoryError : Py.exc :=
  Py.Exc "IsADirectoryError" "Is a directory".

(** [os.mkdir(p)] creates one directory, inside an existing one. *)
Definition mkdir {C} (p : path) : Py.M (fs C) unit :=
  fun o =>
    if path_exists o p then (Py.Raise FileExistsError, o)
    else if isdir o (dirname p)
    then (Py.Ok tt, FS (cwd o) ({[ p ]} ∪ dirs o) (files o))
    else if isfile o (dirname p) then (Py.Raise NotADirectoryError, o)
    else (Py.Raise FileNotFoundError, o).

(** Why the file [p] cannot be created or replaced, if it cannot. *)
Definition open_error {C} (o : fs C) (p : path) : option Py.exc :=
  if isdir o p then Some IsADirectoryError
  else if isdir o (dirname p) then None
  else if isfile o (dirname p) then Some NotADirectoryError
  else Some FileNotFoundError.

(** The file [p] created or replaced, with the content [c]. *)
Definition put {C} (p : path) (c : C) (o : fs C) : fs C :=
  FS (cwd o) (dirs o) (<[ p := c ]> (files o)).

End OS.

(** [GymRecorder], the wrapper over moviepy that the notebooks define
    in their first cells.  Frames are of a type [F] with a shape, the
    contents of gif files of a type [G].  The library writes the file
    while it encodes the clip: [encode] gives, for a clip, a frame
    rate and a loop count, what has been written to the file when the
    encoder stops ([None] when it stops before the file is created)
    and the exception that stopped it, if any.  [unopened] is what the
    library does, raising or returning, when the file cannot be
    opened for writing. *)
Module GymRecorder.

Section Recorder.

Context {F G : Type}.
Variable shape : F -> list nat.

(** [ImageSequenceClip]: the frames and the frame rate. *)
Record clip_t : Type := Clip { sequence : list F; fps : Z }.

Variable encode : clip_t -> Z -> Z -> option G * option Py.exc.
Variable unopened : Py.exc -> Py.result unit.

(** The recorder: the metadata of its environment, the frames
    recorded, and the last clip made. *)
Record t : Type :=
  Obj { metadata : gmap string Z; _frames : list F; clip : option clip_t }.

Record world : Type := World { self : t; os : OS.fs G }.

Definition __init__ (env_metadata : gmap string Z) : t :=
  Obj env_metadata [] None.

(** [record(frames)], to be called at the end of an episode:
<<
    for frame in frames:
        self._frames.append(np.array(frame))
>> *)
Definition record (frames : list F) : Py.M world unit :=
  fun w =>
    let r := self w in
    (Py.Ok tt,
     World (Obj (metadata r)
                (fold_left (fun acc frame => acc ++ [frame]) frames
                           (_frames r))
                (clip r))
           (os w)).

Definition with_os {A} (m : Py.M (OS.fs G) A) : Py.M world A :=
  fun w => let (r, o) := m (os w) in (r, World (self w) o).

(** [self.env.metadata[key]] *)
Definition env_metadata (key : string) : Py.M world Z :=
  fun w =>
    match metadata (self w) !! key with
    | Some v => (Py.Ok v, w)
    | None => (Py.Raise (Py.Exc "KeyError" key), w)
    end.

(** The constructor of [ImageSequenceClip] on a list of arrays: it
    reads the first image, compares the shapes of all images with its
    shape, and divides by the frame rate. *)
Definition ImageSequenceClip (sequence : list F) (fps : Z)
  : Py.result clip_t :=
  match sequence with
  | [] => Py.Raise Random.IndexError
  | first :: _ =>
      if negb (forallb (fun image =>
                          bool_decide (shape image = shape first))
                       sequence)
      then Py.Raise
             (Py.Exc "Exception"
                "Moviepy: ImageSequenceClip requires all images to be the same size")
      else if (fps =? 0)%Z
      then Py.Raise (Py.Exc "ZeroDivisionError" "float division by zero")
      else Py.Ok (Clip sequence fps)
  end.

(** What [write_gif] does to the file system, for the absolute path
    of the file: nothing when the file cannot be opened; otherwise the
    file holds what the encoder has written, also when the encoder
    stops on an exception, which is then raised. *)
Definition write_file (c : clip_t) (p : OS.path) (fps loop : Z)
  : Py.M (OS.fs G) unit :=
  fun o =>
    match OS.open_error o p with
    | Some e => (unopened e, o)
    | None =>
        let (written, stopped) := encode c fps loop in
        (match stopped with
         | Some e => Py.Raise e
         | None => Py.Ok tt
         end,
         match written with
         | Some content => OS.put p content o
         | None => o
         end)
    end.

(** [clip.write_gif(filename, fps=fps, loop=loop)] *)
Definition write_gif (c : clip_t) (filename : OS.filename) (fps loop : Z)
  : Py.M world unit :=
  with_os (fun o => write_file c (OS.abspath o filename) fps loop o).

Definition set_clip (c : clip_t) : Py.M world unit :=
  fun w =>
    (Py.Ok tt,
     World (Obj (metadata (self w)) (_frames (self w)) (Some c)) (os w)).

Definition set_frames (frames : list F) : Py.M world unit :=
  fun w =>
    (Py.Ok tt, World (Obj (metadata (self w)) frames (clip (self w))) (os w)).

(** [make_video(filename)]; the copies of the class differ in the
    loop count given to [write_gif] only, 0 or 1. *)
Definition make_video_loop (loop : Z) (filename : OS.filename)
  : Py.M world unit :=
  let* w := Py.get in
  let directory := OS.dirname (OS.abspath (os w) filename) in
  (if negb (OS.path_exists (os w) directory)
   then with_os (OS.mkdir directory)
   else Py.ret tt);;
  let* w := Py.get in
  let frames := _frames (self w) in
  let* fps := env_metadata "render_fps" in
  let* c := Py.lift (ImageSequenceClip frames fps) in
  set_clip c;;
  let* fps := env_metadata "render_fps" in
  write_gif c filename fps loop;;
  set_frames [].

Definition make_video : OS.filename -> Py.M world unit :=
  make_video_loop 0.

End Recorder.

(** A recorder for running the definitions: the frames are numbered
    and of one shape, the encoder writes the frames, the frame rate and
    the loop count and does not fail, the library returns in silence
    when the file cannot be opened; three frames are recorded, and the
    working directory [/home] is the only directory. *)
Definition demo_shape (frame : nat) : list nat := [400; 600; 3].

Definition demo_encode (c : @clip_t nat) (fps loop : Z)
  : option (list nat * Z * Z) * option Py.exc :=
  (Some (sequence c, fps, loop), None).

Definition demo_unopened (e : Py.exc) : Py.result unit := Py.Ok tt.

(** An encoder that stops on the second frame, the first one
    written. *)
Definition demo_encode_stops (c : @clip_t nat) (fps loop : Z)
  : option (list nat * Z * Z) * option Py.exc :=
  (Some (take 1 (sequence c), fps, loop),
   Some (Py.Exc "ValueError" "image has the wrong mode")).

Definition demo_os : OS.fs (list nat * Z * Z) :=
  OS.FS ["home"] {[ ["home"] ]} ∅.

Definition demo : @world nat (list nat * Z * Z) :=
  World (Obj {[ "render_fps" := 50%Z ]} [1; 2; 3] None) demo_os.

(** The same before any frame is recorded. *)
Definition demo_unrecorded : @world nat (list nat * Z * Z) :=
  World (__init__ {[ "render_fps" := 50%Z ]}) demo_os.

End GymRecorder.

(** ** Smoothing of the returns *)

Module Numpy.

Definition ValueError (msg : string) : Py.exc := Py.Exc "ValueError" msg.

(** [np.ones(N) / N] *)
Definition ones_over (N : Z) : Py.result (list Q) :=
  if (N <? 0)%Z then Py.Raise (ValueError "negative dimensions are not allowed")
  else Py.Ok (replicate (Z.to_nat N) (1 / inject_Z N)%Q).

(** An array read at any position, with zeros around it. *)
Definition padded (a : list Q) (i : Z) : Q :=
  if (i <? 0)%Z then 0%Q else nth (Z.to_nat i) a 0%Q.

(** [correlate(a, v, 'same')] for [len(v) <= len(a)]: entry [k] is
    the product of [v] with the window of [a] that starts [len(v) // 2]
    places before [k]. *)
Definition correlate_same (a v : list Q) : list Q :=
  let n_left := Z.of_nat (length v / 2) in
  map (fun k =>
         fold_left Qplus
           (imap (fun j vj =>
                    (padded a (Z.of_nat k + Z.of_nat j - n_left) * vj)%Q) v)
           0%Q)
      (seq 0 (length a)).

(** [np.convolve(a, v, mode='same')]:
<<
    if (len(v) > len(a)):
        a, v = v, a
    if len(a) == 0:
        raise ValueError('a cannot be empty')
    if len(v) == 0:
        raise ValueError('v cannot be empty')
    return multiarray.correlate(a, v[::-1], mode)
>> *)
Definition convolve_same (a v : list Q) : Py.result (list Q) :=
  let '(a, v) := if (length a <? length v)%nat then (v, a) else (a, v) in
  if (length a =? 0)%nat then Py.Raise (ValueError "a cannot be empty")
  else if (length v =? 0)%nat then Py.Raise (ValueError "v cannot be empty")
  else Py.Ok (correlate_same a (rev v)).

End Numpy.

(** [running_average(x, N)] of 8-MonteCarlo. *)
Definition running_average (x : list Q) (N : Z) : Py.result (list Q) :=
  Py.and_then (Numpy.ones_over N) (fun kernel =>
  Numpy.convolve_same x kernel).

(** ** Datasets, minibatches and metrics (11-Pytorch) *)

Module Data.

(** Running [f] over a list in order, up to its first exception. *)
Fixpoint for_each {A B} (f : A -> Py.result B) (l : list A)
  : Py.result (list B) :=
  match l with
  | [] => Py.Ok []
  | x :: l' =>
      Py.and_then (f x) (fun y =>
      Py.and_then (for_each f l') (fun ys => Py.Ok (y :: ys)))
  end.

(** The order of [np.argsort]: positions compared by their targets. *)
Definition by_target : relation (nat * Z) :=
  fun a b => (a.2 <= b.2)%Z.

#[global] Instance by_target_dec : RelDecision by_target :=
  fun a b => Z_le_dec a.2 b.2.

(** [np.argsort(targets)]: the positions in the order of their
    targets.  The default sort of numpy leaves the order of positions
    with equal targets open; here it is that of a merge sort. *)
Definition argsort (targets : list Z) : list nat :=
  (merge_sort by_target (zip (seq 0 (length targets)) targets)).*1.

Section Dataset.

Context {X : Type}.

(** [Subset(dataset, indices)] of a dataset of samples with their
    targets: item [idx] is [dataset[indices[idx]]]. *)
Record subset : Type :=
  Subset { dataset : list (X * Z); indices : list nat }.

Definition Subset_len (s : subset) : nat := length (indices s).

Definition Subset_getitem (s : subset) (idx : nat) : Py.result (X * Z) :=
  match indices s !! idx with
  | None => Py.Raise Random.IndexError
  | Some i =>
      match dataset s !! i with
      | None => Py.Raise Random.IndexError
      | Some sample => Py.Ok sample
      end
  end.

(** [sort_dataset_by_labels(dataset)] *)
Definition sort_dataset_by_labels (dataset : list (X * Z)) : subset :=
  let sorted_indices := argsort dataset.*2 in
  let sorted_dataset := Subset dataset sorted_indices in
  sorted_dataset.

(** The batch sampler of a data loader that keeps the last batch:
<<
    batch = []
    for idx in self.sampler:
        batch.append(idx)
        if len(batch) == self.batch_size:
            yield batch
            batch = []
    if len(batch) > 0 and not self.drop_last:
        yield batch
>> *)
Fixpoint batch_sampler (batch_size : nat) (batch : list nat)
    (sampler : list nat) : list (list nat) :=
  match sampler with
  | [] => if (0 <? length batch)%nat then [batch] else []
  | idx :: sampler' =>
      let batch := batch ++ [idx] in
      if (length batch =? batch_size)%nat
      then batch :: batch_sampler batch_size [] sampler'
      else batch_sampler batch_size batch sampler'
  end.

(** The minibatches of one pass over
    [DataLoader(dataset, batch_size=batch_size, shuffle=False)]. *)
Definition DataLoader (s : subset) (batch_size : Z)
  : Py.result (list (list (X * Z))) :=
  if (batch_size <=? 0)%Z
  then Py.Raise (Py.Exc "ValueError"
                   "batch_size should be a positive integer value")
  else for_each (for_each (Subset_getitem s))
         (batch_sampler (Z.to_nat batch_size) [] (seq 0 (Subset_len s))).

End Dataset.

End Data.

(** The metrics of [validate], for a model in evaluation mode that
    maps each sample of a minibatch to its row of scores, and a loss
    function on the scores and targets of a minibatch, already read
    with [.item()]. *)
Module Metrics.

Definition ZeroDivisionError : Py.exc :=
  Py.Exc "ZeroDivisionError" "division by zero".

(** [pred.eq(target.view_as(pred)).sum().item()] *)
Definition count_eq (pred : list nat) (target : list Z) : nat :=
  length (filter (fun pt : nat * Z => Z.of_nat pt.1 = pt.2) (zip pred target)).

(** A size as a binary64 number, as Python converts an integer that
    meets a float; sizes stay far below [2^53], where the conversion
    is exact. *)
Definition float_of_nat (n : nat) : float :=
  PrimFloat.of_uint63 (Uint63.of_Z (Z.of_nat n)).

Section Validate.

Context {X : Type}.
Variable model : X -> list Q.

(** [loss_function(output, target).item()]: the loss of a minibatch, a
    Python float. *)
Variable loss_function : list (list Q) -> list Z -> float.

(** A data loader: its dataset, and the minibatches that one pass
    yields. *)
Record loader : Type :=
  Loader { dataset : list (X * Z); batches : list (list (X * Z)) }.

(** The loop over the minibatches, the loss added up on binary64
    numbers:
<<
    for data, target in test_loader:
        output = model(data)
        test_loss += loss_function(output, target).item() * data.size(0)
        pred = output.argmax(dim=1, keepdim=True)
        total += target.size(0)
        correct += pred.eq(target.view_as(pred)).sum().item()
>> *)
Fixpoint minibatches (todo : list (list (X * Z))) (test_loss : float)
    (correct total : nat) : Py.result (float * nat * nat) :=
  match todo with
  | [] => Py.Ok (test_loss, correct, total)
  | batch :: todo' =>
      let data := batch.*1 in
      let target := batch.*2 in
      (* Make the forward pass *)
      let output := model <$> data in
      (* Compute the loss function on the minibatch *)
      let test_loss :=
        (test_loss
         + loss_function output target * float_of_nat (length data))%float in
      (* Compute metrics *)
      Py.and_then (Data.for_each Agent.argmax output) (fun pred =>
      let total := total + length target in
      let correct := correct + count_eq pred target in
      minibatches todo' test_loss correct total)
  end.

(** [validate(model, device, test_loader, loss_function)]; the
    accuracy is the quotient of two integers, kept exact here. *)
Definition validate (test_loader : loader) : Py.result (float * Q) :=
  Py.and_then (minibatches (batches test_loader) 0%float 0 0) (fun metrics =>
  let '(test_loss, correct, total) := metrics in
  if (length (dataset test_loader) =? 0)%nat then Py.Raise ZeroDivisionError
  else
    let test_loss :=
      (test_loss / float_of_nat (length (dataset test_loader)))%float in
    if (total =? 0)%nat then Py.Raise ZeroDivisionError
    else
      let accuracy :=
        (100 * inject_Z (Z.of_nat correct) / inject_Z (Z.of_nat total))%Q in
      Py.Ok (test_loss, accuracy)).

End Validate.

(** A model, a loss and loaders for running the definitions: two
    scores for a sample; the loss of a minibatch is the mean of the
    losses of its samples, 1 for a sample of class 0 and [2^-53] for a
    sample of another class. *)
Definition demo_model (x : Q) : list Q := [x; 1 - x]%Q.

Definition demo_loss (output : list (list Q)) (target : list Z) : float :=
  (fold_left (fun acc (t : Z) =>
                acc + (if (t =? 0)%Z then 1 else 0x1p-53))%float
             target 0
   / float_of_nat (length target))%float.

(** Three samples in minibatches of two. *)
Definition demo_loader : @loader Q :=
  Loader [(0.9, 0%Z); (0.2, 1%Z); (0.4, 0%Z)]%Q
         [[(0.9, 0%Z); (0.2, 1%Z)]; [(0.4, 0%Z)]]%Q.

(** Three samples in minibatches of one, in the order of the dataset
    and with the first minibatch moved to the end. *)
Definition demo_by_one : @loader Q :=
  Loader [(0.9, 0%Z); (0.2, 1%Z); (0.3, 1%Z)]%Q
         [[(0.9, 0%Z)]; [(0.2, 1%Z)]; [(0.3, 1%Z)]]%Q.

Definition demo_reordered : @loader Q :=
  Loader [(0.9, 0%Z); (0.2, 1%Z); (0.3, 1%Z)]%Q
         [[(0.2, 1%Z)]; [(0.3, 1%Z)]; [(0.9, 0%Z)]]%Q.

End Metrics.


(** * Properties *)

(** ** The bounded deque *)

Lemma deque_append_maxlen {A} (d : Deque.t A) (x : A) :
  Deque.maxlen (Deque.append d x) = Deque.maxlen d.
Proof.
  unfold Deque.append. destruct (Deque.maxlen d) as [n|]; [|done].
  by destruct (n <? _).
Qed.

Lemma deque_append_items {A} (d : Deque.t A) (x : A) (n : nat) :
  Deque.maxlen d = Some n ->
  length (Deque.items d) <= n ->
  Deque.items (Deque.append d x) =
    drop (length (Deque.items d) + 1 - n) (Deque.items d ++ [x]).
Proof.
  intros Hn Hle. unfold Deque.append. rewrite Hn.
  destruct (Nat.ltb_spec n (length (Deque.items d ++ [x]))) as [Hlt|Hge];
    rewrite length_app in *; simpl in *.
  - replace (length (Deque.items d) + 1 - n) with 1 by lia. done.
  - replace (length (Deque.items d) + 1 - n) with 0 by lia. done.
Qed.

Lemma deque_foldl_append {A} (xs : list A) :
  forall (d : Deque.t A) (n : nat),
    Deque.maxlen d = Some n ->
    length (Deque.items d) <= n ->
    Deque.maxlen (foldl Deque.append d xs) = Some n /\
    Deque.items (foldl Deque.append d xs) =
      drop (length (Deque.items d ++ xs) - n) (Deque.items d ++ xs).
Proof.
  induction xs as [|x xs IH]; intros d n Hn Hle; simpl.
  - split; [done|]. rewrite app_nil_r.
    by replace (length (Deque.items d) - n) with 0 by lia.
  - pose proof (deque_append_items d x n Hn Hle) as Hit.
    assert (Hlen : length (Deque.items (Deque.append d x)) <= n).
    { rewrite Hit, length_drop, length_app. simpl. lia. }
    destruct (IH (Deque.append d x) n) as [Hm Hitems]; [|done|].
    { by rewrite deque_append_maxlen. }
    split; [done|]. rewrite Hitems, Hit.
    destruct (decide (length (Deque.items d) + 1 <= n)) as [Hs|Hs].
    + replace (length (Deque.items d) + 1 - n) with 0 by lia.
      rewrite drop_0, <- app_assoc. done.
    + replace (length (Deque.items d) + 1 - n) with 1 by lia.
      assert (Hfull : length (Deque.items d) = n) by lia.
      rewrite !length_app, length_drop, length_app. simpl.
      replace (length (Deque.items d) + 1 - 1 + length xs - n)
        with (length xs) by lia.
      replace (length (Deque.items d) + S (length xs) - n)
        with (1 + length xs) by lia.
      rewrite <- drop_drop.
      replace (Deque.items d ++ x :: xs)
        with ((Deque.items d ++ [x]) ++ xs) by (by rewrite <- app_assoc).
      rewrite (drop_app_le (Deque.items d ++ [x]) xs 1); [done|].
      rewrite length_app. simpl. lia.
Qed.

(** ** [ReplayMemory.append] *)

Lemma init_empty (N : Z) :
  (0 <= N < 2 ^ 63)%Z ->
  ReplayMemory.__init__ (Some N) = Py.Ok (ReplayMemory.empty (Z.to_nat N)).
Proof.
  intros HN. unfold ReplayMemory.__init__, Deque.new.
  destruct (Z.ltb_spec N (- 2 ^ 63)); [lia|].
  destruct (Z.leb_spec (2 ^ 63) N); [lia|].
  destruct (Z.ltb_spec N 0); [lia|done].
Qed.

Lemma init_overflow (N : Z) :
  (N < - 2 ^ 63 \/ 2 ^ 63 <= N)%Z ->
  ReplayMemory.__init__ (Some N)
  = Py.Raise (Py.Exc "OverflowError"
                "Python int too large to convert to C ssize_t").
Proof.
  intros HN. unfold ReplayMemory.__init__, Deque.new.
  destruct (Z.ltb_spec N (- 2 ^ 63)); [done|].
  destruct (Z.leb_spec (2 ^ 63) N); [done|lia].
Qed.

Lemma appends_run (cs : list ReplayMemory.call) :
  forall w,
    ReplayMemory.appends cs w =
      (Py.Ok tt,
       ReplayMemory.World
         (ReplayMemory.Obj
            (foldl Deque.append (ReplayMemory.memory (ReplayMemory.self w))
                   (ReplayMemory.stored_of <$> cs)))
         (ReplayMemory.rng w)).
Proof.
  induction cs as [|c cs IH]; intros [[m] g]; simpl; [done|].
  unfold Py.bind, ReplayMemory.append. simpl. by rewrite IH.
Qed.

(** C1.  A capacity [N >= 1] gives a buffer exactly when it is below
    [2^63] (the constructor raises [OverflowError] for the others, so
    that no buffer of such a capacity exists).  In every run of
    [append] calls on the buffer each call succeeds; after the [i]-th
    call the buffer holds [min i N] transitions, and they are the last
    [min i N] appended ones in insertion order: each holds the action,
    reward and done flag of its call as passed, and its state and next
    state as passed, a torch tensor being held as the numpy array of
    its data. *)
Theorem append_fifo (N : Z) (cs : list ReplayMemory.call)
    (g : Random.state) :
  (1 <= N)%Z ->
  ((2 ^ 63 <= N)%Z ->
   Py.raises "OverflowError" (ReplayMemory.__init__ (Some N))) /\
  ((N < 2 ^ 63)%Z ->
   exists m0,
     ReplayMemory.__init__ (Some N) = Py.Ok m0 /\
     forall i, i <= length cs ->
       exists w,
         ReplayMemory.appends (take i cs) (ReplayMemory.World m0 g)
           = (Py.Ok tt, w) /\
         ReplayMemory.__len__ (ReplayMemory.self w) = i `min` Z.to_nat N /\
         Forall2
           (fun (c : ReplayMemory.call) (t : Transition Py.obj) =>
              action t = action c /\ reward t = reward c /\
              done t = done c /\
              (forall xs, state c = Py.Tensor xs ->
                          state t = Py.ndarray xs) /\
              (Py.isinstance_Tensor (state c) = false ->
               state t = state c) /\
              (forall xs, next_state c = Py.Tensor xs ->
                          next_state t = Py.ndarray xs) /\
              (Py.isinstance_Tensor (next_state c) = false ->
               next_state t = next_state c))
           (drop (i - Z.to_nat N) (take i cs))
           (Deque.items (ReplayMemory.memory (ReplayMemory.self w)))).
Proof.
  intros HN. split.
  { intros Hbig. rewrite init_overflow by lia. by eexists. }
  intros Hsmall. exists (ReplayMemory.empty (Z.to_nat N)).
  split; [apply init_empty; lia|]. intros i Hi.
  eexists. split; [apply appends_run|]. simpl.
  destruct (deque_foldl_append (ReplayMemory.stored_of <$> take i cs)
              (Deque.Make [] (Some (Z.to_nat N))) (Z.to_nat N))
    as [_ Hitems]; [done|simpl; lia|].
  simpl in Hitems. rewrite length_fmap, length_take in Hitems.
  replace (i `min` length cs) with i in Hitems by lia.
  split.
  - unfold ReplayMemory.__len__, Deque.len. simpl. rewrite Hitems.
    rewrite length_drop, length_fmap, length_take. lia.
  - rewrite Hitems, <- fmap_drop. apply Forall2_fmap_r, Forall_Forall2_diag.
    apply Forall_forall. intros [s a r s' d] _.
    unfold ReplayMemory.stored_of, ReplayMemory.stored. simpl.
    repeat split; try (by intros xs ->); by intros ->.
Qed.

Lemma append_fifo_witness :
  (1 <= 3)%Z /\ (3 < 2 ^ 63)%Z /\
  exists m0,
    ReplayMemory.__init__ (Some 3%Z) = Py.Ok m0 /\
    forall i, i <= length (ReplayMemory.step_call <$> [1; 2; 3; 4]%Z) ->
      exists w,
        ReplayMemory.appends
          (take i (ReplayMemory.step_call <$> [1; 2; 3; 4]%Z))
          (ReplayMemory.World m0 Random.fixed)
          = (Py.Ok tt, w) /\
        ReplayMemory.__len__ (ReplayMemory.self w) = i `min` Z.to_nat 3 /\
        Forall2
          (fun (c : ReplayMemory.call) (t : Transition Py.obj) =>
             action t = action c /\ reward t = reward c /\
             done t = done c /\
             (forall xs, state c = Py.Tensor xs ->
                         state t = Py.ndarray xs) /\
             (Py.isinstance_Tensor (state c) = false ->
              state t = state c) /\
             (forall xs, next_state c = Py.Tensor xs ->
                         next_state t = Py.ndarray xs) /\
             (Py.isinstance_Tensor (next_state c) = false ->
              next_state t = next_state c))
          (drop (i - Z.to_nat 3)
                (take i (ReplayMemory.step_call <$> [1; 2; 3; 4]%Z)))
          (Deque.items (ReplayMemory.memory (ReplayMemory.self w))).
Proof.
  assert (H1 : (1 <= 3)%Z) by lia.
  assert (H2 : (3 < 2 ^ 63)%Z) by lia.
  split; [exact H1|]. split; [exact H2|].
  exact (proj2 (append_fifo 3 (ReplayMemory.step_call <$> [1; 2; 3; 4]%Z)
                  Random.fixed H1) H2).
Defined.

(** The scenario of the specification: capacity 3, four appends; the
    first transition is evicted and the other three remain in order. *)
Example append_four_into_three :
  let A := ReplayMemory.step_call 1 in
  let B := ReplayMemory.step_call 2 in
  let C := ReplayMemory.step_call 3 in
  let D := ReplayMemory.step_call 4 in
  exists w,
    ReplayMemory.appends [A; B; C; D]
      (ReplayMemory.World (ReplayMemory.empty 3) Random.fixed)
      = (Py.Ok tt, w) /\
    Deque.items (ReplayMemory.memory (ReplayMemory.self w)) =
      [mkTransition (Py.ndarray [2]%Q) (Py.Int 0) (Py.Float 1)
                    (Py.ndarray [3]%Q) (Py.Bool false);
       mkTransition (Py.ndarray [3]%Q) (Py.Int 1) (Py.Float 1)
                    (Py.ndarray [4]%Q) (Py.Bool false);
       mkTransition (Py.ndarray [4]%Q) (Py.Int 0) (Py.Float 1)
                    (Py.ndarray [5]%Q) (Py.Bool false)].
Proof. eexists. split; reflexivity. Qed.






(** ** [random.sample] *)

Lemma randbelow_lt (n : nat) (g : Random.state) :
  0 < n ->
  exists j, j < n /\ Random.randbelow n g = (Py.Ok j, Random.advance g).
Proof.
  intros Hn. eexists. split; [|reflexivity].
  assert (H : (Random.entropy g (Random.cursor g) mod N.of_nat n
               < N.of_nat n)%N) by (apply N.mod_lt; lia).
  lia.
Qed.

(** Overwriting a slot with a value moves that value, up to order. *)
Lemma insert_swap_Permutation {A} (l : list A) :
  forall j x y, l !! j = Some x -> x :: <[j := y]> l ≡ₚ y :: l.
Proof.
  induction l as [|a l IH]; intros [|j] x y Hj; simpl in *; try done.
  - injection Hj as ->. apply perm_swap.
  - rewrite (perm_swap a x), (IH j x y Hj). apply perm_swap.
Qed.

(** One iteration of the selection loop: the selected item and the
    live part of the new pool make up the live part of the old pool. *)
Lemma vacancy_Permutation {A} (pool : list A) (live j : nat) (x y : A) :
  j < live ->
  pool !! j = Some x ->
  pool !! (live - 1) = Some y ->
  x :: take (live - 1) (<[j := y]> pool) ≡ₚ take live pool.
Proof.
  intros Hj Hx Hy. destruct live as [|l]; [lia|].
  replace (S l - 1) with l in * by lia.
  rewrite (take_S_r pool l y Hy).
  destruct (decide (j = l)) as [->|Hne].
  - rewrite take_insert_ge by lia.
    assert (x = y) by congruence. subst y. apply Permutation_cons_append.
  - rewrite take_insert_lt by lia.
    rewrite insert_swap_Permutation.
    + apply Permutation_cons_append.
    + rewrite lookup_take_lt by lia. done.
Qed.

Lemma sample_loop_Permutation {A} (todo : nat) :
  forall (pool : list A) (live : nat) (g : Random.state),
    todo <= live -> live <= length pool ->
    exists res rem,
      Random.sample_loop todo pool live g =
        (Py.Ok res,
         Random.Gen (Random.entropy g) (Random.cursor g + todo)) /\
      length res = todo /\
      res ++ rem ≡ₚ take live pool.
Proof.
  induction todo as [|todo IH]; intros pool live g Htodo Hlive.
  - exists [], (take live pool). simpl. unfold Py.ret.
    rewrite Nat.add_0_r. by destruct g.
  - destruct (randbelow_lt live g) as (j & Hj & Hrb); [lia|].
    destruct (lookup_lt_is_Some_2 pool j) as [x Hx]; [lia|].
    destruct (lookup_lt_is_Some_2 pool (live - 1)) as [y Hy]; [lia|].
    destruct (IH (<[j := y]> pool) (live - 1) (Random.advance g))
      as (res & rem & Hrun & Hlen & Hperm); [lia|rewrite length_insert; lia|].
    exists (x :: res), rem. simpl. unfold Py.bind at 1. rewrite Hrb, Hx, Hy.
    unfold Py.bind. rewrite Hrun. unfold Py.ret. simpl.
    replace (Random.cursor g + S todo) with (S (Random.cursor g + todo))
      by lia.
    split; [done|]. split; [by rewrite Hlen|].
    rewrite Hperm. by apply vacancy_Permutation.
Qed.

(** The loop does not look at the items it moves. *)
Lemma sample_loop_fmap {A B} (f : A -> B) (todo : nat) :
  forall (pool : list A) (live : nat) (g : Random.state),
    Random.sample_loop todo (f <$> pool) live g =
      Py.fmap (fmap f) (Random.sample_loop todo pool live) g.
Proof.
  induction todo as [|todo IH]; intros pool live g; [done|].
  simpl. unfold Py.fmap, Py.bind at 1 3 4. simpl.
  rewrite !list_lookup_fmap.
  destruct (pool !! _) as [x|]; simpl; [|done].
  destruct (pool !! (live - 1)) as [y|]; simpl; [|done].
  rewrite <- list_fmap_insert. unfold Py.bind at 1 2.
  rewrite IH. unfold Py.fmap, Py.bind.
  by destruct (Random.sample_loop todo _ _ _) as [[r|e] g'].
Qed.

(** The population with the position of each item. *)
Lemma indexed_lookup {A} (pop : list A) (i : nat) (x : A) :
  (i, x) ∈ zip (seq 0 (length pop)) pop -> pop !! i = Some x.
Proof.
  intros Hin. apply list_elem_of_lookup in Hin as [j Hj].
  apply lookup_zip_Some in Hj as [Hi Hx].
  apply lookup_seq in Hi as [-> _]. done.
Qed.

(** The exponent of [setsize] is large enough. *)
Lemma le_setsize (k : nat) : k <= Random.setsize k.
Proof.
  unfold Random.setsize. destruct (Nat.ltb_spec 5 k) as [Hk|Hk]; [|lia].
  set (a := k * 3). set (e := (Nat.log2_up a + 1) / 2).
  assert (Ha : a <= 2 ^ Nat.log2_up a) by (apply Nat.log2_up_spec; lia).
  assert (He : Nat.log2_up a <= 2 * e).
  { pose proof (Nat.div_mod_eq (Nat.log2_up a + 1) 2) as Hdm.
    pose proof (Nat.mod_upper_bound (Nat.log2_up a + 1) 2 ltac:(lia)).
    fold e in Hdm. lia. }
  assert (H4 : 2 ^ Nat.log2_up a <= 4 ^ e).
  { change 4 with (2 ^ 2). rewrite <- Nat.pow_mul_r.
    apply Nat.pow_le_mono_r; lia. }
  lia.
Qed.

(** The first loop: [random.sample(pop, k)] on a population of at most
    [setsize] items returns the items at [k] pairwise distinct
    positions of [pop], consumes [k] draws, and returns a rearrangement
    of all of [pop] when [k = len(pop)]. *)
Lemma random_sample_pool {A} (fuel : nat) (pop : list A) (k : Z)
    (g : Random.state) :
  (0 <= k <= Z.of_nat (length pop))%Z ->
  length pop <= Random.setsize (Z.to_nat k) ->
  exists picks : list (nat * A),
    Random.sample fuel pop k g =
      (Py.Ok (Some picks.*2),
       Random.Gen (Random.entropy g) (Random.cursor g + Z.to_nat k)) /\
    length picks = Z.to_nat k /\
    NoDup picks.*1 /\
    Forall (fun p => pop !! p.1 = Some p.2) picks /\
    (Z.to_nat k = length pop -> picks.*2 ≡ₚ pop).
Proof.
  intros Hk Hsmall. set (n := length pop). set (ipop := zip (seq 0 n) pop).
  assert (Hfst : ipop.*1 = seq 0 n)
    by (apply fst_zip; rewrite length_seq; lia).
  assert (Hsnd : ipop.*2 = pop)
    by (apply snd_zip; rewrite length_seq; lia).
  assert (Hlen : length ipop = n).
  { rewrite <- (length_fmap fst ipop), Hfst. apply length_seq. }
  destruct (sample_loop_Permutation (Z.to_nat k) ipop n g)
    as (picks & rem & Hrun & Hlp & Hperm); [lia|lia|].
  rewrite take_ge in Hperm by lia.
  exists picks. split; [|split; [done|split; [|split]]].
  - unfold Random.sample. fold n.
    destruct (Z.leb_spec 0 k); [|lia].
    destruct (Z.leb_spec k (Z.of_nat n)); [|lia]. simpl.
    destruct (Nat.leb_spec n (Random.setsize (Z.to_nat k))); [|lia].
    unfold Py.fmap at 1. unfold Py.bind at 1.
    rewrite <- Hsnd at 1. rewrite sample_loop_fmap.
    unfold Py.fmap, Py.bind. by rewrite Hrun.
  - assert (Hnd : NoDup (picks.*1 ++ rem.*1)).
    { rewrite <- fmap_app, Hperm, Hfst. apply NoDup_seq. }
    by apply NoDup_app in Hnd as [? _].
  - apply Forall_forall. intros [i x] Hin. simpl.
    apply indexed_lookup. fold n. fold ipop. rewrite <- Hperm.
    apply elem_of_app. by left.
  - intros Hall.
    assert (Hrem : rem = []).
    { apply Permutation_length in Hperm. rewrite length_app in Hperm.
      apply nil_length_inv. lia. }
    subst rem. rewrite app_nil_r in Hperm.
    rewrite <- Hsnd. by apply fmap_Permutation.
Qed.

(** The inner loop of the second loop: it stops at the first draw that
    is not selected, or gives up after [fuel] selected ones. *)
Lemma draw_unselected_spec (fuel n : nat) (selected : gset nat) :
  forall g : Random.state,
    0 < n ->
    exists c',
      Random.cursor g <= c' /\
      ((Random.draw_unselected fuel n selected g
        = (Py.Ok None, Random.Gen (Random.entropy g) c') /\
        Forall (fun j => j ∈ selected)
               (Random.draws n g (Random.cursor g) fuel)) \/
       exists j,
         Random.draw_unselected fuel n selected g
         = (Py.Ok (Some j), Random.Gen (Random.entropy g) c') /\
         j < n /\ j ∉ selected).
Proof.
  induction fuel as [|fuel IH]; intros g Hn.
  { exists (Random.cursor g). split; [done|]. left. split; [|constructor].
    by destruct g. }
  destruct (randbelow_lt n g Hn) as (j & Hj & Hrb).
  cbn [Random.draw_unselected]. unfold Py.bind. rewrite Hrb.
  assert (Hhead : N.to_nat (Random.entropy g (Random.cursor g)
                            mod N.of_nat n) = j).
  { unfold Random.randbelow in Hrb. by injection Hrb. }
  destruct (decide (j ∈ selected)) as [Hin|Hout].
  - rewrite bool_decide_true by done.
    destruct (IH (Random.advance g) Hn) as (c' & Hc' & Hcase).
    cbn [Random.advance Random.cursor Random.entropy] in *.
    exists c'. split; [lia|].
    destruct Hcase as [[Hrun Hall]|(j' & Hrun & Hj' & Hout')].
    + left. split; [done|]. unfold Random.draws in *. cbn [seq fmap list_fmap].
      constructor; [by rewrite Hhead|exact Hall].
    + right. by exists j'.
  - rewrite bool_decide_false by done.
    exists (S (Random.cursor g)). split; [lia|]. right. by exists j.
Qed.

(** Fairness is kept along the stream. *)
Lemma fair_later (fuel n k : nat) (g : Random.state) (c : nat) :
  Random.fair fuel n k g -> Random.cursor g <= c ->
  Random.fair fuel n k (Random.Gen (Random.entropy g) c).
Proof.
  intros Hfair Hc c' Hc'. cbn in Hc'.
  specialize (Hfair c' ltac:(lia)). done.
Qed.

Lemma draw_unselected_fair (fuel n k : nat) (selected : gset nat)
    (g : Random.state) :
  0 < n -> Random.fair fuel n k g -> size selected < k ->
  exists j c',
    Random.draw_unselected fuel n selected g
    = (Py.Ok (Some j), Random.Gen (Random.entropy g) c') /\
    Random.cursor g <= c' /\ j < n /\ j ∉ selected.
Proof.
  intros Hn Hfair Hsize.
  destruct (draw_unselected_spec fuel n selected g Hn) as (c' & Hc' & Hcase).
  destruct Hcase as [[_ Hall]|(j & Hrun & Hj & Hout)]; [|by exists j, c'].
  exfalso. specialize (Hfair (Random.cursor g) ltac:(lia)).
  assert (Hsub : (list_to_set (Random.draws n g (Random.cursor g) fuel)
                  : gset nat) ⊆ selected).
  { intros j Hj. apply elem_of_list_to_set in Hj.
    rewrite Forall_forall in Hall. by apply Hall. }
  apply subseteq_size in Hsub. lia.
Qed.

(** One iteration of the second loop. *)
Lemma sample_set_step {A} (fuel todo : nat) (pop : list A)
    (selected : gset nat) (g : Random.state) :
  Random.sample_set fuel (S todo) pop selected g =
    let (r, g1) := Random.draw_unselected fuel (length pop) selected g in
    match r with
    | Py.Ok (Some j) =>
        match pop !! j with
        | Some x =>
            let (rest, g2) :=
              Random.sample_set fuel todo pop ({[j]} ∪ selected) g1 in
            (Py.and_then rest (fun ts => Py.Ok (cons x <$> ts)), g2)
        | None => (Py.Raise Random.IndexError, g1)
        end
    | Py.Ok None => (Py.Ok None, g1)
    | Py.Raise e => (Py.Raise e, g1)
    end.
Proof.
  cbn [Random.sample_set]. unfold Py.bind, Py.ret, Py.raise.
  destruct (Random.draw_unselected _ _ _ _) as [[[j|]|e] g1]; try done.
  destruct (pop !! j); [|done].
  by destruct (Random.sample_set _ _ _ _ _) as [[ts|e] g2].
Qed.

(** The second loop: whatever the draws, it gives up or returns the
    items at pairwise distinct positions that were not selected
    before. *)
Lemma sample_set_spec {A} (fuel : nat) (pop : list A) (todo : nat) :
  forall (selected : gset nat) (g : Random.state),
    0 < length pop ->
    exists c',
      Random.cursor g <= c' /\
      (Random.sample_set fuel todo pop selected g
       = (Py.Ok None, Random.Gen (Random.entropy g) c') \/
       exists picks : list (nat * A),
         Random.sample_set fuel todo pop selected g
         = (Py.Ok (Some picks.*2), Random.Gen (Random.entropy g) c') /\
         length picks = todo /\
         NoDup picks.*1 /\
         Forall (fun p => (p.1 ∉ selected) /\ pop !! p.1 = Some p.2) picks).
Proof.
  induction todo as [|todo IH]; intros selected g Hn.
  { exists (Random.cursor g). split; [done|]. right. exists [].
    split; [by destruct g|]. split; [done|]. split; constructor. }
  rewrite sample_set_step.
  destruct (draw_unselected_spec fuel (length pop) selected g Hn)
    as (c1 & Hc1 & [[-> _]|(j & -> & Hj & Hout)]).
  { exists c1. split; [done|]. by left. }
  destruct (lookup_lt_is_Some_2 pop j Hj) as [x Hx]. rewrite Hx.
  destruct (IH ({[j]} ∪ selected) (Random.Gen (Random.entropy g) c1) Hn)
    as (c2 & Hc2 & Hcase).
  cbn [Random.cursor Random.entropy] in *.
  exists c2. split; [lia|].
  destruct Hcase as [->|(picks & -> & Hlen & Hnd & Hall)]; [by left|].
  right. exists ((j, x) :: picks). split; [reflexivity|].
  split; [by rewrite <- Hlen|]. split.
  - cbn. constructor; [|done]. intros Hin.
    apply list_elem_of_fmap in Hin as (p & Hp1 & Hp).
    rewrite Forall_forall in Hall. destruct (Hall p Hp) as [Hnew _].
    apply Hnew. rewrite <- Hp1. apply elem_of_union. left.
    by apply elem_of_singleton.
  - constructor; [done|]. eapply Forall_impl; [exact Hall|].
    intros p [Hnew Hp]. split; [|done]. intros Hin. apply Hnew.
    apply elem_of_union. by right.
Qed.

(** With fair draws the second loop returns. *)
Lemma sample_set_fair {A} (fuel : nat) (pop : list A) (k todo : nat) :
  forall (selected : gset nat) (g : Random.state),
    0 < length pop ->
    Random.fair fuel (length pop) k g ->
    size selected + todo <= k ->
    exists r g',
      Random.sample_set fuel todo pop selected g = (Py.Ok (Some r), g').
Proof.
  induction todo as [|todo IH]; intros selected g Hn Hfair Hsize.
  { by eexists _, _. }
  rewrite sample_set_step.
  destruct (draw_unselected_fair fuel (length pop) k selected g)
    as (j & c' & -> & Hc' & Hj & Hout); [done|done|lia|].
  destruct (lookup_lt_is_Some_2 pop j Hj) as [x Hx]. rewrite Hx.
  destruct (IH ({[j]} ∪ selected) (Random.Gen (Random.entropy g) c'))
    as (r & g' & Hrun); [done|by apply fair_later| |].
  { rewrite size_union, size_singleton; [lia|].
    by apply disjoint_singleton_l. }
  rewrite Hrun. by eexists _, _.
Qed.

(** [random.sample(pop, k)] with [0 <= k <= len(pop)] gives up, in the
    second loop, or returns the items at [k] pairwise distinct
    positions of [pop]; it returns with the first loop and with fair
    draws. *)
Lemma random_sample_spec {A} (fuel : nat) (pop : list A) (k : Z)
    (g : Random.state) :
  (0 <= k <= Z.of_nat (length pop))%Z ->
  exists r g',
    Random.sample fuel pop k g = (Py.Ok r, g') /\
    match r with
    | None => Random.setsize (Z.to_nat k) < length pop
    | Some ts =>
        exists picks : list (nat * A),
          ts = picks.*2 /\
          length picks = Z.to_nat k /\
          NoDup picks.*1 /\
          Forall (fun p => pop !! p.1 = Some p.2) picks /\
          (Z.to_nat k = length pop -> picks.*2 ≡ₚ pop)
    end /\
    (length pop <= Random.setsize (Z.to_nat k) \/
     Random.fair fuel (length pop) (Z.to_nat k) g ->
     r <> None).
Proof.
  intros Hk.
  destruct (decide (length pop <= Random.setsize (Z.to_nat k)))
    as [Hsmall|Hlarge].
  { destruct (random_sample_pool fuel pop k g Hk Hsmall)
      as (picks & Hrun & Hrest).
    eexists _, _. split; [exact Hrun|]. split; [by exists picks|done]. }
  assert (Hn : 0 < length pop) by lia.
  assert (Hrun : Random.sample fuel pop k g
                 = Random.sample_set fuel (Z.to_nat k) pop ∅ g).
  { unfold Random.sample.
    destruct (Z.leb_spec 0 k); [|lia].
    destruct (Z.leb_spec k (Z.of_nat (length pop))); [|lia]. simpl.
    by destruct (Nat.leb_spec (length pop) (Random.setsize (Z.to_nat k)));
      [lia|]. }
  rewrite Hrun.
  destruct (sample_set_spec fuel pop (Z.to_nat k) ∅ g Hn)
    as (c' & _ & [Hnone|(picks & Hsome & Hlen & Hnd & Hall)]).
  - eexists _, _. split; [exact Hnone|]. split; [lia|].
    intros [Hsmall|Hfair]; [lia|].
    destruct (sample_set_fair fuel pop (Z.to_nat k) (Z.to_nat k) ∅ g)
      as (r & g' & Hret); [done|done|by rewrite size_empty|].
    rewrite Hret in Hnone. discriminate Hnone.
  - eexists _, _. split; [exact Hsome|]. split; [|done].
    exists picks. repeat split; try done.
    + eapply Forall_impl; [exact Hall|]. by intros p [_ Hp].
    + intros Hall'. pose proof (le_setsize (Z.to_nat k)). lia.
Qed.

(** ** [ReplayMemory.sample] *)

Lemma zip_star_tuples {A} (ts : list (Transition A)) :
  ts <> [] ->
  zip_star (as_tuple <$> ts) =
    [state <$> ts; action <$> ts; reward <$> ts; next_state <$> ts;
     done <$> ts].
Proof.
  induction ts as [|t ts IH]; intros Hne; [done|].
  destruct ts as [|t' ts]; [done|].
  change (zip_star (as_tuple <$> t :: t' :: ts))
    with (zip_with cons (as_tuple t) (zip_star (as_tuple <$> t' :: ts))).
  by rewrite IH.
Qed.

Section Sampling.

Context `{T : Torch.api}.

(** What [sample] makes of the outcome of [random.sample]. *)
Local Abbreviation collated r :=
  (Py.and_then r (fun selection : option (list (Transition Py.obj)) =>
     match selection with
     | None => Py.Ok None
     | Some ts => Py.and_then (ReplayMemory.collate ts)
                    (fun b => Py.Ok (Some b))
     end)).

Lemma sample_collate (fuel : nat) (k : Z) (w : ReplayMemory.world) :
  ReplayMemory.sample fuel k w =
    let (r, g') :=
      Random.sample fuel
        (Deque.items (ReplayMemory.memory (ReplayMemory.self w))) k
        (ReplayMemory.rng w) in
    (collated r, ReplayMemory.World (ReplayMemory.self w) g').
Proof.
  unfold ReplayMemory.sample, ReplayMemory.with_rng, Py.get.
  unfold Py.bind at 1 2. simpl.
  destruct (Random.sample _ _ _ _) as [[[ts|]|e] g']; simpl; [|done|done].
  unfold ReplayMemory.collate, Py.bind, Py.lift, Py.ret, Py.and_then.
  repeat match goal with
         | |- context [match ?r with Py.Ok _ => _ | Py.Raise _ => _ end] =>
             destruct r; try done
         end.
Qed.

Lemma collate_nil :
  ReplayMemory.collate [] =
    Py.Raise (Py.Exc "TypeError"
                "Transition.__new__() expects 5 positional arguments").
Proof. reflexivity. Qed.

Lemma collate_accepted (ts : list (Transition Py.obj)) :
  ts <> [] ->
  Torch.rejects Torch.float32 (state <$> ts) = None ->
  Torch.rejects Torch.long (action <$> ts) = None ->
  Torch.rejects Torch.float32 (reward <$> ts) = None ->
  Torch.rejects Torch.float32 (next_state <$> ts) = None ->
  Torch.rejects Torch.boolean (done <$> ts) = None ->
  ReplayMemory.collate ts = Py.Ok (ReplayMemory.batch_of ts).
Proof.
  intros Hne H1 H2 H3 H4 H5. unfold ReplayMemory.collate.
  rewrite zip_star_tuples by done. simpl. unfold Torch.tensor.
  by rewrite H1, H2, H3, H4, H5.
Qed.

Lemma collate_returns (ts : list (Transition Py.obj))
    (b : Transition (list Torch.cell)) :
  ReplayMemory.collate ts = Py.Ok b ->
  ts <> [] /\ b = ReplayMemory.batch_of ts.
Proof.
  destruct ts as [|t ts]; [by rewrite collate_nil|].
  intros Hb. split; [done|]. revert Hb. unfold ReplayMemory.collate.
  rewrite zip_star_tuples by done. simpl. unfold Torch.tensor.
  repeat match goal with
         | |- context [match ?r with Some _ => _ | None => _ end] =>
             destruct r; simpl; try done
         end.
  by intros [= <-].
Qed.

(** Row [j] of the batch of [ts] is the conversion of [ts[j]]. *)
Lemma row_batch_of (ts : list (Transition Py.obj)) (j : nat) :
  ReplayMemory.row (ReplayMemory.batch_of ts) j =
    ReplayMemory.convert_transition <$> ts !! j.
Proof.
  unfold ReplayMemory.row, ReplayMemory.batch_of. simpl.
  rewrite !list_lookup_fmap. by destruct (ts !! j).
Qed.

Lemma sample_out_of_range (fuel : nat) (w : ReplayMemory.world) (k : Z) :
  ~ (0 <= k <= Z.of_nat (ReplayMemory.__len__ (ReplayMemory.self w)))%Z ->
  ReplayMemory.sample fuel k w =
    (Py.Raise (Py.Exc "ValueError"
                 "Sample larger than population or is negative"), w).
Proof.
  intros Hk. rewrite sample_collate. unfold Random.sample.
  unfold ReplayMemory.__len__, Deque.len in Hk.
  destruct (Z.leb_spec 0 k), (Z.leb_spec k (Z.of_nat (length
    (Deque.items (ReplayMemory.memory (ReplayMemory.self w))))));
    simpl; try lia; by destruct w.
Qed.

(** [sample(k)] with [0 <= k <= m] gives up, in the second loop of
    [random.sample], or collates the transitions found at [k] pairwise
    distinct positions of the buffer; it does the latter with the
    first loop and with fair draws. *)
Lemma sample_selects (fuel : nat) (w : ReplayMemory.world) (k : Z) :
  let pop := Deque.items (ReplayMemory.memory (ReplayMemory.self w)) in
  (0 <= k <= Z.of_nat (length pop))%Z ->
  exists g',
    (ReplayMemory.sample fuel k w
     = (Py.Ok None, ReplayMemory.World (ReplayMemory.self w) g') /\
     Random.setsize (Z.to_nat k) < length pop /\
     ~ Random.fair fuel (length pop) (Z.to_nat k) (ReplayMemory.rng w)) \/
    exists picks : list (nat * Transition Py.obj),
      ReplayMemory.sample fuel k w =
        (Py.and_then (ReplayMemory.collate picks.*2)
                     (fun b => Py.Ok (Some b)),
         ReplayMemory.World (ReplayMemory.self w) g') /\
      length picks = Z.to_nat k /\
      NoDup picks.*1 /\
      Forall (fun p => pop !! p.1 = Some p.2) picks /\
      (Z.to_nat k = length pop -> picks.*2 ≡ₚ pop).
Proof.
  intros pop Hk.
  destruct (random_sample_spec fuel pop k (ReplayMemory.rng w) Hk)
    as (r & g' & Hrun & Hr & Hret).
  exists g'. rewrite sample_collate. fold pop. rewrite Hrun.
  destruct r as [ts|].
  - right. destruct Hr as (picks & -> & Hrest). by exists picks.
  - left. split; [done|]. split; [done|].
    intros Hfair. apply Hret; [by right|done].
Qed.

(** Whatever the outcome, [sample] leaves the object as it was. *)
Lemma sample_leaves_buffer (fuel : nat) (w : ReplayMemory.world) (k : Z) :
  ReplayMemory.self (snd (ReplayMemory.sample fuel k w))
  = ReplayMemory.self w.
Proof.
  rewrite sample_collate. by destruct (Random.sample _ _ _ _).
Qed.

End Sampling.

Lemma picks_subseteq {A} (pop : list A) (picks : list (nat * A)) :
  Forall (fun p => pop !! p.1 = Some p.2) picks -> picks.*2 ⊆ pop.
Proof.
  intros Hp x Hx. apply list_elem_of_fmap in Hx as ([i y] & -> & Hin).
  rewrite Forall_forall in Hp. apply Hp in Hin.
  by apply list_elem_of_lookup_2 in Hin.
Qed.

(** C3, as the code has it.  A request for more transitions than the
    buffer holds raises [ValueError], the exception of
    [random.sample]; nothing is returned, and the buffer and the
    generator are as before the call. *)
Theorem sample_too_large_raises `{T : Torch.api} (fuel : nat)
    (w : ReplayMemory.world) (k : Z) :
  (Z.of_nat (ReplayMemory.__len__ (ReplayMemory.self w)) < k)%Z ->
  ReplayMemory.sample fuel k w =
    (Py.Raise (Py.Exc "ValueError"
                 "Sample larger than population or is negative"), w).
Proof. intros Hk. apply sample_out_of_range. lia. Qed.

Lemma sample_too_large_raises_witness :
  (Z.of_nat (ReplayMemory.__len__ (ReplayMemory.self ReplayMemory.demo))
     < 4)%Z /\
  @ReplayMemory.sample Torch.plain 0 4 ReplayMemory.demo =
    (Py.Raise (Py.Exc "ValueError"
                 "Sample larger than population or is negative"),
     ReplayMemory.demo).
Proof.
  assert (H : (Z.of_nat (ReplayMemory.__len__
                           (ReplayMemory.self ReplayMemory.demo)) < 4)%Z)
    by (vm_compute; reflexivity).
  split; [exact H|].
  exact (@sample_too_large_raises Torch.plain 0 ReplayMemory.demo 4 H).
Defined.

(** C3 as stated fails: the exception raised for an oversized request
    is not of class [InsufficientDataError]. *)
Lemma sample_too_large_not_InsufficientDataError :
  let w := ReplayMemory.World (ReplayMemory.empty 3) Random.fixed in
  (Z.of_nat (ReplayMemory.__len__ (ReplayMemory.self w)) < 1)%Z /\
  forall fuel,
    ~ Py.raises "InsufficientDataError"
        (fst (@ReplayMemory.sample Torch.plain fuel 1 w)).
Proof.
  split; [vm_compute; reflexivity|].
  intros fuel [msg Hmsg].
  rewrite (@sample_out_of_range Torch.plain) in Hmsg.
  - discriminate Hmsg.
  - vm_compute. intros [_ Hle]. by apply Hle.
Qed.

(** C4, as the code has it.  For [1 <= k <= m], on a buffer whose
    stored fields [torch.tensor] accepts, [sample(k)] never raises and
    never returns anything but the field tensors of the transitions
    found at [k] pairwise distinct positions of the buffer; the object
    is the same before and after the call.  It returns such a batch
    whenever [random.sample] copies the buffer (at most [setsize]
    transitions), and otherwise as soon as the draws are fair: the
    library then redraws a position until it finds one that is not
    selected, which every stream of draws that keeps taking [k]
    positions allows. *)
Theorem sample_distinct_entries `{T : Torch.api} (fuel : nat)
    (w : ReplayMemory.world) (k : Z) :
  let pop := Deque.items (ReplayMemory.memory (ReplayMemory.self w)) in
  let distinct_entries r :=
    exists (positions : list nat) (picked : list (Transition Py.obj)),
      r = Py.Ok (Some (ReplayMemory.batch_of picked)) /\
      length positions = Z.to_nat k /\
      NoDup positions /\
      Forall2 (fun i t => pop !! i = Some t) positions picked in
  (1 <= k <= Z.of_nat (ReplayMemory.__len__ (ReplayMemory.self w)))%Z ->
  ReplayMemory.tensorisable pop ->
  exists r w',
    ReplayMemory.sample fuel k w = (r, w') /\
    ReplayMemory.self w' = ReplayMemory.self w /\
    (r = Py.Ok None \/ distinct_entries r) /\
    (length pop <= Random.setsize (Z.to_nat k) \/
     Random.fair fuel (length pop) (Z.to_nat k) (ReplayMemory.rng w) ->
     distinct_entries r).
Proof.
  intros pop distinct_entries Hk Hok.
  destruct (sample_selects fuel w k) as (g' & Hcase).
  { unfold ReplayMemory.__len__, Deque.len in Hk. lia. }
  fold pop in Hcase.
  destruct Hcase as [(Hrun & Hlarge & Hunfair)
                    |(picks & Hrun & Hlen & Hnd & Hin & _)].
  { eexists _, _. split; [exact Hrun|]. split; [done|]. split; [by left|].
    intros [Hsmall|Hfair]; [lia|done]. }
  destruct (Hok picks.*2) as (H1 & H2 & H3 & H4 & H5).
  { by apply picks_subseteq. }
  rewrite collate_accepted in Hrun; try done.
  2:{ intros Hnil. apply fmap_nil_inv in Hnil. subst picks.
      simpl in Hlen. lia. }
  assert (Hgood : distinct_entries
                    (Py.Ok (Some (ReplayMemory.batch_of picks.*2)))).
  { exists picks.*1, picks.*2. split; [done|].
    split; [by rewrite length_fmap|]. split; [done|].
    apply Forall2_fmap, Forall_Forall2_diag. done. }
  eexists _, _. split; [exact Hrun|]. split; [done|].
  split; [by right|done].
Qed.

Lemma plain_tensorisable (pop : list (Transition Py.obj)) :
  @ReplayMemory.tensorisable Torch.plain pop.
Proof. intros ts _. by repeat split. Qed.

(** The generator of [ReplayMemory.large] is fair for batches of two
    out of 22 transitions: two successive draws never agree forever. *)
Lemma replay_fair : Random.fair 3 22 2 (Random.replay [3; 3; 5]%N).
Proof.
  assert (Htwo : forall (x y : nat) (l : list nat),
             x <> y -> 2 <= size (list_to_set (x :: y :: l) : gset nat)).
  { intros x y l Hxy.
    assert (Hsub : ({[x]} ∪ {[y]} : gset nat) ⊆ list_to_set (x :: y :: l)).
    { intros z Hz. apply elem_of_list_to_set.
      apply elem_of_union in Hz as [Hz|Hz]; apply elem_of_singleton in Hz;
        subst z; [apply list_elem_of_here|].
      apply list_elem_of_further, list_elem_of_here. }
    apply subseteq_size in Hsub.
    rewrite size_union, !size_singleton in Hsub; [lia|].
    apply disjoint_singleton_l. by rewrite elem_of_singleton. }
  intros c _. unfold Random.draws. cbn [seq fmap list_fmap].
  destruct c as [|[|[|c]]].
  - change (2 <= size (list_to_set [3; 3; 5] : gset nat)).
    replace (list_to_set [3; 3; 5] : gset nat)
      with (list_to_set [3; 5; 3] : gset nat) by (by vm_compute).
    by apply Htwo.
  - by apply Htwo.
  - by apply Htwo.
  - apply Htwo. cbn [Random.replay Random.entropy].
    rewrite !nth_overflow by (cbn; lia).
    change (N.of_nat 22) with 22%N. set (i := S (S (S c))).
    assert (N.of_nat (S i) = (N.of_nat i + 1)%N) as -> by lia.
    generalize (N.of_nat i). intros a Heq. apply N2Nat.inj in Heq.
    pose proof (N.Div0.div_mod a 22) as Ha.
    pose proof (N.Div0.div_mod (a + 1) 22) as Ha1.
    rewrite <- Heq in Ha1. revert Ha Ha1.
    generalize (a / 22)%N ((a + 1) / 22)%N (a mod 22)%N. lia.
Qed.

Lemma sample_distinct_entries_witness :
  let w := ReplayMemory.large in
  let pop := Deque.items (ReplayMemory.memory (ReplayMemory.self w)) in
  (1 <= 2 <= Z.of_nat (ReplayMemory.__len__ (ReplayMemory.self w)))%Z /\
  @ReplayMemory.tensorisable Torch.plain pop /\
  Random.fair 3 (length pop) (Z.to_nat 2) (ReplayMemory.rng w) /\
  exists (positions : list nat) (picked : list (Transition Py.obj)),
    fst (@ReplayMemory.sample Torch.plain 3 2 w)
    = Py.Ok (Some (@ReplayMemory.batch_of Torch.plain picked)) /\
    length positions = Z.to_nat 2 /\
    NoDup positions /\
    Forall2 (fun i t => pop !! i = Some t) positions picked.
Proof.
  intros w pop.
  assert (Hk : (1 <= 2 <= Z.of_nat (ReplayMemory.__len__
                                      (ReplayMemory.self w)))%Z)
    by (vm_compute; split; discriminate).
  assert (Hfair : Random.fair 3 (length pop) (Z.to_nat 2)
                    (ReplayMemory.rng w)) by exact replay_fair.
  split; [exact Hk|]. split; [apply plain_tensorisable|].
  split; [exact Hfair|].
  destruct (@sample_distinct_entries Torch.plain 3 w 2 Hk
              (plain_tensorisable pop))
    as (r & w' & Hrun & _ & _ & Hret).
  rewrite Hrun. apply Hret. by right.
Defined.

(** On that buffer the draws 3, 3, 5 select the positions 3 and 5: the
    second draw falls on the selected position and is redrawn. *)
Example sample_redraws :
  exists w',
    @ReplayMemory.sample Torch.plain 3 2 ReplayMemory.large
    = (Py.Ok (Some (@ReplayMemory.batch_of Torch.plain
                      (ReplayMemory.stored_of <$>
                         [ReplayMemory.step_call 3;
                          ReplayMemory.step_call 5]))), w') /\
    Random.cursor (ReplayMemory.rng w') = 3.
Proof. eexists. split; vm_compute; reflexivity. Qed.

(** C4 as stated fails for [k <= 0]: an empty batch makes the
    transposition produce no columns, so building the named tuple
    raises [TypeError]; a negative size is refused by [random.sample]. *)
Lemma sample_nonpositive_raises :
  let w := ReplayMemory.demo in
  let m := Z.of_nat (ReplayMemory.__len__ (ReplayMemory.self w)) in
  ((0 <= m)%Z /\
   Py.raises "TypeError" (fst (@ReplayMemory.sample Torch.plain 0 0 w))) /\
  ((-1 <= m)%Z /\
   Py.raises "ValueError"
     (fst (@ReplayMemory.sample Torch.plain 0 (-1) w))).
Proof.
  split; (split; [vm_compute; discriminate|]); eexists; vm_compute;
    reflexivity.
Qed.

(** X8.  At the boundary [k = m] with [m >= 1], on a buffer whose
    stored fields [torch.tensor] accepts, [sample(m)] succeeds, the
    batch holds a rearrangement of the whole buffer, every stored
    transition once, and the object is left as it was. *)
Lemma sample_whole_buffer `{T : Torch.api} (fuel : nat)
    (w : ReplayMemory.world) :
  let pop := Deque.items (ReplayMemory.memory (ReplayMemory.self w)) in
  1 <= length pop ->
  ReplayMemory.tensorisable pop ->
  exists (picked : list (Transition Py.obj)) w',
    ReplayMemory.sample fuel (Z.of_nat (length pop)) w =
      (Py.Ok (Some (ReplayMemory.batch_of picked)), w') /\
    picked ≡ₚ pop /\
    ReplayMemory.self w' = ReplayMemory.self w.
Proof.
  intros pop Hm Hok.
  destruct (sample_selects fuel w (Z.of_nat (length pop)))
    as (g' & [(_ & Hlarge & _)|(picks & Hrun & Hlen & _ & Hin & Hperm)]);
    [fold pop; lia| |].
  { fold pop in Hlarge. rewrite Nat2Z.id in Hlarge.
    pose proof (le_setsize (length pop)). lia. }
  fold pop in Hin, Hperm.
  destruct (Hok picks.*2) as (H1 & H2 & H3 & H4 & H5).
  { by apply picks_subseteq. }
  exists picks.*2. eexists. split; [|split].
  - rewrite Hrun, collate_accepted; try done.
    intros Hnil. apply fmap_nil_inv in Hnil. subst picks. simpl in Hlen. lia.
  - apply Hperm. lia.
  - done.
Qed.

(** C9 at the size [m = 0].  On an empty buffer [sample(0)] meets the
    precondition [k <= m], yet it raises [TypeError]: the transposition
    of no transitions has no columns, and [Transition] is called
    without arguments. *)
Theorem sample_empty_buffer_raises `{T : Torch.api} (fuel : nat)
    (n : nat) (g : Random.state) :
  let w := ReplayMemory.World (ReplayMemory.empty n) g in
  ReplayMemory.__len__ (ReplayMemory.self w) = 0 /\
  ReplayMemory.sample fuel 0 w =
    (Py.Raise (Py.Exc "TypeError"
                 "Transition.__new__() expects 5 positional arguments"), w).
Proof.
  split; [done|]. rewrite sample_collate. simpl.
  unfold Random.sample, Py.fmap, Py.bind, Py.ret. simpl. by destruct g.
Qed.

(** C10.  Whenever [sample(k)] returns a batch, reading its five field
    tensors at one position [j < k] gives the conversions of the five
    fields of a single transition stored in the buffer. *)
Theorem sample_rows_aligned `{T : Torch.api} (fuel : nat)
    (w w' : ReplayMemory.world) (k : Z)
    (batch : Transition (list Torch.cell)) :
  ReplayMemory.sample fuel k w = (Py.Ok (Some batch), w') ->
  forall j, (Z.of_nat j < k)%Z ->
    exists t,
      t ∈ Deque.items (ReplayMemory.memory (ReplayMemory.self w)) /\
      ReplayMemory.row batch j = Some (ReplayMemory.convert_transition t).
Proof.
  intros Hrun j Hj.
  set (pop := Deque.items (ReplayMemory.memory (ReplayMemory.self w))).
  destruct (decide (0 <= k <= Z.of_nat (length pop))%Z) as [Hk|Hk].
  - destruct (sample_selects fuel w k Hk)
      as (g' & [(Hs & _)|(picks & Hs & Hlen & _ & Hin & _)]).
    { rewrite Hs in Hrun. discriminate Hrun. }
    fold pop in Hin. rewrite Hs in Hrun.
    destruct (ReplayMemory.collate picks.*2) as [b|e] eqn:Hc;
      [|discriminate Hrun].
    injection Hrun as <- _.
    apply collate_returns in Hc as [_ ->].
    destruct (lookup_lt_is_Some_2 picks.*2 j) as [t Ht].
    { rewrite length_fmap. lia. }
    exists t. split.
    + apply (picks_subseteq pop picks Hin).
      by apply list_elem_of_lookup_2 in Ht.
    + by rewrite row_batch_of, Ht.
  - rewrite sample_out_of_range in Hrun; [done|].
    unfold ReplayMemory.__len__, Deque.len. by fold pop.
Qed.

Lemma sample_rows_aligned_witness :
  let w := ReplayMemory.demo in
  let r := @ReplayMemory.sample Torch.plain 0 2 w in
  exists batch,
    r = (Py.Ok (Some batch), snd r) /\
    (Z.of_nat 1 < 2)%Z /\
    exists t,
      t ∈ Deque.items (ReplayMemory.memory (ReplayMemory.self w)) /\
      ReplayMemory.row batch 1 =
        Some (@ReplayMemory.convert_transition Torch.plain t).
Proof.
  intros w r.
  assert (Hr : r = (Py.Ok (Some (@ReplayMemory.batch_of Torch.plain
                                   (ReplayMemory.stored_of <$>
                                      [ReplayMemory.step_call 2;
                                       ReplayMemory.step_call 4]))),
                    snd r))
    by (vm_compute; reflexivity).
  assert (Hj : (Z.of_nat 1 < 2)%Z) by (vm_compute; reflexivity).
  eexists. split; [exact Hr|]. split; [exact Hj|].
  exact (@sample_rows_aligned Torch.plain 0 w (snd r) 2 _ Hr 1 Hj).
Defined.

(** ** Greedy action selection *)

(** [argmax_from] returns the first position of the greatest value of
    the values seen so far ([pre]) followed by [xs]. *)
Lemma argmax_from_first (xs : list Q) :
  forall (pre : list Q) (best : nat) (top : Q),
    pre !! best = Some top ->
    Forall (fun y => (y <= top)%Q) pre ->
    (forall b y, b < best -> pre !! b = Some y -> (y < top)%Q) ->
    exists v,
      (pre ++ xs) !! Agent.argmax_from best top (length pre) xs = Some v /\
      Forall (fun y => (y <= v)%Q) (pre ++ xs) /\
      (forall b y, b < Agent.argmax_from best top (length pre) xs ->
                   (pre ++ xs) !! b = Some y -> (y < v)%Q).
Proof.
  induction xs as [|x xs IH]; intros pre best top Hb Hle Hlt; simpl.
  - exists top. rewrite app_nil_r. done.
  - replace (pre ++ x :: xs) with ((pre ++ [x]) ++ xs)
      by (by rewrite <- app_assoc).
    replace (S (length pre)) with (length (pre ++ [x]))
      by (rewrite length_app; simpl; lia).
    destruct (Qle_bool x top) eqn:Hx.
    + apply Qle_bool_iff in Hx. apply IH.
      * by apply lookup_app_l_Some.
      * apply Forall_app. split; [done|by constructor].
      * intros b y Hbb Hy. apply (Hlt b y Hbb).
        apply lookup_lt_Some in Hb.
        by rewrite lookup_app_l in Hy by lia.
    + assert (Hx' : (top < x)%Q).
      { apply Qnot_le_lt. intros H. apply Qle_bool_iff in H. congruence. }
      apply IH.
      * rewrite lookup_app_r by lia.
        by replace (length pre - length pre) with 0 by lia.
      * apply Forall_app. split.
        -- eapply Forall_impl; [exact Hle|]. intros y Hy. simpl in Hy.
           apply Qlt_le_weak. by eapply Qle_lt_trans.
        -- constructor; [apply Qle_refl|constructor].
      * intros b y Hbb Hy. rewrite lookup_app_l in Hy by lia.
        rewrite Forall_forall in Hle.
        eapply Qle_lt_trans; [|exact Hx'].
        apply Hle. by apply list_elem_of_lookup_2 in Hy.
Qed.

(** [argmax] returns a maximal position, and no maximal position comes
    before it. *)
Lemma argmax_least_maximal (scores : list Q) (j : nat) :
  Agent.maximal scores j ->
  exists a,
    Agent.argmax scores = Py.Ok a /\ Agent.maximal scores a /\ a <= j.
Proof.
  intros (vj & Hj & Hmax). destruct scores as [|x xs]; [done|].
  destruct (argmax_from_first xs [x] 0 x) as (v & Hv & Hle & Hfirst).
  { done. } { constructor; [apply Qle_refl|constructor]. } { lia. }
  simpl in Hv, Hle, Hfirst. eexists. split; [reflexivity|].
  split; [by exists v|].
  apply Nat.nlt_ge. intros Hlt.
  specialize (Hfirst j vj Hlt Hj).
  rewrite Forall_forall in Hmax.
  apply list_elem_of_lookup_2 in Hv. apply Hmax in Hv.
  by apply Qlt_not_le in Hfirst.
Qed.

Lemma random_not_below_zero (g : Random.state) (epsilon : Q) :
  (epsilon <= 0)%Q ->
  exists u, Random.random g = (Py.Ok u, Random.advance g) /\
            Agent.Qltb u epsilon = false.
Proof.
  intros He. eexists. split; [reflexivity|].
  unfold Agent.Qltb. apply negb_false_iff, Qle_bool_iff.
  eapply Qle_trans; [exact He|].
  unfold Qle. cbn [Qnum Qden]. rewrite Z.mul_0_l, Z.mul_1_r.
  apply N2Z.is_nonneg.
Qed.

(** The selection that draws among the tied maximal actions. *)

Lemma Qmax_cases (x y : Q) :
  (Qmax x y = x \/ Qmax x y = y) /\ (x <= Qmax x y)%Q /\ (y <= Qmax x y)%Q.
Proof.
  split; [|split; [apply Q.le_max_l|apply Q.le_max_r]].
  unfold Qmax, GenericMinMax.gmax. destruct (x ?= y)%Q; auto.
Qed.

Lemma fold_Qmax_spec (xs : list Q) :
  forall x,
    fold_left Qmax xs x ∈ x :: xs /\
    Forall (fun y => (y <= fold_left Qmax xs x)%Q) (x :: xs).
Proof.
  induction xs as [|y xs IH]; intros x; simpl.
  - split; [by left|]. constructor; [apply Qle_refl|constructor].
  - destruct (IH (Qmax x y)) as [Hin Hle].
    destruct (Qmax_cases x y) as (Hc & Hx & Hy).
    apply Forall_cons in Hle as [Hm Hle]. split.
    + apply elem_of_cons in Hin as [Hin|Hin].
      * rewrite Hin. destruct Hc as [->| ->]; [by left|right; by left].
      * right. by right.
    + repeat constructor; try done; by eapply Qle_trans.
Qed.

Lemma where_eq_from_spec (xs : list Q) (top : Q) :
  forall i j,
    j ∈ Agent.where_eq_from i xs top <->
    exists x, i <= j /\ xs !! (j - i) = Some x /\ Qeq_bool x top = true.
Proof.
  induction xs as [|x xs IH]; intros i j; simpl.
  - split; [by intros ?%elem_of_nil|by intros (? & _ & ? & _)].
  - assert (Htl : j ∈ Agent.where_eq_from (S i) xs top <->
                  exists y, i < j /\ (x :: xs) !! (j - i) = Some y /\
                            Qeq_bool y top = true).
    { rewrite IH. split; intros (y & Hij & Hy & Heq); exists y.
      - split; [lia|]. split; [|done].
        by replace (j - i) with (S (j - S i)) by lia.
      - split; [lia|]. split; [|done].
        by replace (j - i) with (S (j - S i)) in Hy by lia. }
    destruct (Qeq_bool x top) eqn:Hx.
    + rewrite elem_of_cons, Htl. split.
      * intros [->|(y & Hij & Hy & Heq)].
        -- exists x. rewrite Nat.sub_diag. done.
        -- exists y. split; [lia|done].
      * intros (y & Hij & Hy & Heq).
        destruct (decide (j = i)) as [->|Hne]; [by left|].
        right. exists y. split; [lia|done].
    + rewrite Htl. split.
      * intros (y & Hij & Hy & Heq). exists y. split; [lia|done].
      * intros (y & Hij & Hy & Heq).
        destruct (decide (j = i)) as [->|Hne].
        -- rewrite Nat.sub_diag in Hy. simpl in Hy. congruence.
        -- exists y. split; [lia|done].
Qed.

(** The positions selected by [np.where(Q == Q.max())] are the maximal
    actions. *)
Lemma where_eq_maximal (scores : list Q) (top : Q) (j : nat) :
  Agent.maximum scores = Py.Ok top ->
  j ∈ Agent.where_eq scores top <-> Agent.maximal scores j.
Proof.
  intros Htop. destruct scores as [|x xs]; [done|].
  injection Htop as <-.
  destruct (fold_Qmax_spec xs x) as [Hin Hle].
  unfold Agent.where_eq. rewrite where_eq_from_spec, Nat.sub_0_r. split.
  - intros (y & _ & Hy & Heq). exists y. split; [done|].
    apply Qeq_bool_iff in Heq. eapply Forall_impl; [exact Hle|].
    intros z Hz. simpl in Hz. by rewrite Heq.
  - intros (y & Hy & Hmax). exists y. split; [lia|]. split; [done|].
    apply Qeq_bool_iff, Qle_antisym.
    + rewrite Forall_forall in Hle. apply Hle.
      by apply list_elem_of_lookup_2 in Hy.
    + rewrite Forall_forall in Hmax. by apply Hmax.
Qed.

Lemma where_eq_from_NoDup (xs : list Q) (top : Q) :
  forall i, NoDup (Agent.where_eq_from i xs top).
Proof.
  induction xs as [|x xs IH]; intros i; simpl; [constructor|].
  destruct (Qeq_bool x top); [|apply IH].
  constructor; [|apply IH].
  rewrite where_eq_from_spec. intros (y & Hle & _). lia.
Qed.

(** The score at a position selected by [np.where(Q == top)] is
    [top]. *)
Lemma where_eq_score (scores : list Q) (top : Q) (a : nat) :
  a ∈ Agent.where_eq scores top ->
  exists x, scores !! a = Some x /\ (x == top)%Q.
Proof.
  unfold Agent.where_eq. rewrite where_eq_from_spec, Nat.sub_0_r.
  intros (x & _ & Hx & Heq). exists x. split; [done|].
  by apply Qeq_bool_iff.
Qed.

(** Without exploration the selection makes two draws, the second one
    for the position among the tied actions. *)
Lemma epsilon_greedy_exploits (scores : list Q) (top : Q)
    (g : Random.state) :
  Agent.maximum scores = Py.Ok top ->
  Agent.epsilon_greedy 0 scores g =
    Random.choice (Agent.where_eq scores top) (Random.advance g).
Proof.
  intros Htop.
  destruct (random_not_below_zero g 0) as (u & Hu & Hlt); [apply Qle_refl|].
  unfold Agent.epsilon_greedy, Py.bind at 1. rewrite Hu, Hlt.
  unfold Py.bind at 1, Py.lift. by rewrite Htop.
Qed.

Lemma choice_lookup {A} (a : list A) (g : Random.state) :
  a <> [] ->
  exists r x,
    Random.randbelow (length a) g = (Py.Ok r, Random.advance g) /\
    a !! r = Some x /\
    Random.choice a g = (Py.Ok x, Random.advance g).
Proof.
  intros Hne. destruct a as [|x0 a']; [done|].
  destruct (randbelow_lt (length (x0 :: a')) g) as (r & Hr & Hdraw);
    [simpl; lia|].
  destruct (lookup_lt_is_Some_2 (x0 :: a') r Hr) as [x Hx].
  exists r, x. split; [done|]. split; [done|].
  unfold Random.choice, Py.bind, Py.ret. rewrite Hdraw.
  by rewrite (nth_lookup_Some _ _ _ _ Hx).
Qed.

(** C5.  Without exploration ([epsilon = 0]) the selection returns one
    of the actions tied at the maximal score, each with the same
    chance.  There is a list [tied] holding each maximal action of
    [scores] once and no other action; for every state of the
    generator the action returned is the element of [tied] at the
    position that the generator draws below the length of [tied], and
    its score equals the maximum of the scores.  Each tied action thus
    answers exactly one value of a draw that is uniform below the
    number of tied actions, and each of them is returned for some
    state of the generator, so the first one is not the only
    outcome. *)
Theorem epsilon_greedy_uniform_over_ties (scores : list Q) :
  scores <> [] ->
  exists (tied : list nat) (top : Q),
    Agent.maximum scores = Py.Ok top /\
    NoDup tied /\
    (forall a, a ∈ tied <-> Agent.maximal scores a) /\
    (forall g : Random.state,
       exists r a x,
         Random.randbelow (length tied) (Random.advance g) =
           (Py.Ok r, Random.advance (Random.advance g)) /\
         tied !! r = Some a /\
         Agent.epsilon_greedy 0 scores g =
           (Py.Ok a, Random.advance (Random.advance g)) /\
         scores !! a = Some x /\ (x == top)%Q) /\
    (forall r a, tied !! r = Some a ->
       exists g, fst (Agent.epsilon_greedy 0 scores g) = Py.Ok a).
Proof.
  intros Hne.
  assert (Htop : exists top, Agent.maximum scores = Py.Ok top)
    by (destruct scores; [done|by eexists]).
  destruct Htop as [top Htop].
  assert (Htied : Agent.where_eq scores top <> []).
  { destruct scores as [|x xs]; [done|]. injection Htop as <-.
    destruct (fold_Qmax_spec xs x) as [Hin Hle].
    apply list_elem_of_lookup in Hin as [j Hj].
    assert (Hmax : Agent.maximal (x :: xs) j) by (by eexists).
    apply (where_eq_maximal (x :: xs) _ j eq_refl) in Hmax.
    intros Hnil. rewrite Hnil in Hmax. by apply elem_of_nil in Hmax. }
  exists (Agent.where_eq scores top), top.
  split; [done|]. split; [apply where_eq_from_NoDup|].
  split; [intros a; by apply where_eq_maximal|]. split.
  - intros g.
    destruct (choice_lookup (Agent.where_eq scores top) (Random.advance g)
                Htied) as (r & a & Hdraw & Hr & Hchoice).
    destruct (where_eq_score scores top a) as (x & Hx & Heq);
      [by eapply list_elem_of_lookup_2|].
    exists r, a, x. split; [done|]. split; [done|].
    split; [|done]. by rewrite (epsilon_greedy_exploits scores top).
  - intros r a Hr.
    exists (Random.Gen (fun _ => N.of_nat r) 0).
    rewrite (epsilon_greedy_exploits scores top) by done.
    pose proof (lookup_lt_Some _ _ _ Hr) as Hlt.
    destruct (Agent.where_eq scores top) as [|t0 rest] eqn:Hw; [done|].
    unfold Random.choice, Py.bind, Py.ret, Random.randbelow.
    cbn [Random.entropy Random.cursor Random.advance].
    replace (N.to_nat (N.of_nat r mod N.of_nat (length (t0 :: rest))))
      with r by (rewrite N.mod_small; lia).
    cbn [fst]. by rewrite (nth_lookup_Some _ _ _ _ Hr).
Qed.

Lemma epsilon_greedy_uniform_over_ties_witness :
  exists (tied : list nat) (top : Q),
    Agent.maximum [1; 3; 3]%Q = Py.Ok top /\
    NoDup tied /\
    (forall a, a ∈ tied <-> Agent.maximal [1; 3; 3]%Q a) /\
    (forall g : Random.state,
       exists r a x,
         Random.randbelow (length tied) (Random.advance g) =
           (Py.Ok r, Random.advance (Random.advance g)) /\
         tied !! r = Some a /\
         Agent.epsilon_greedy 0 [1; 3; 3]%Q g =
           (Py.Ok a, Random.advance (Random.advance g)) /\
         [1; 3; 3]%Q !! a = Some x /\ (x == top)%Q) /\
    (forall r a, tied !! r = Some a ->
       exists g, fst (Agent.epsilon_greedy 0 [1; 3; 3]%Q g) = Py.Ok a).
Proof.
  apply (epsilon_greedy_uniform_over_ties [1; 3; 3]%Q). discriminate.
Defined.

(** Two actions tied at the maximum: the draw decides between them. *)
Example epsilon_greedy_tied_scenario :
  fst (Agent.epsilon_greedy 0 [1; 3; 3]%Q (Random.replay [7; 0]%N))
    = Py.Ok 1 /\
  fst (Agent.epsilon_greedy 0 [1; 3; 3]%Q (Random.replay [7; 1]%N))
    = Py.Ok 2.
Proof. split; reflexivity. Qed.

(** ** Bellman targets *)

Lemma targets_lookup (gamma : Q) (rewards next_q : list Q)
    (dones : list bool) (k : nat) (r q : Q) (d : bool) :
  rewards !! k = Some r -> dones !! k = Some d -> next_q !! k = Some q ->
  Bellman.targets gamma rewards dones next_q !! k =
    Some (r + gamma * (if d then 0 else q))%Q.
Proof.
  intros Hr Hd Hq. unfold Bellman.targets, Bellman.mask_dones.
  rewrite !lookup_zip_with, Hr, Hd, Hq. done.
Qed.

(** C2.  For transition [k] of a minibatch the target is the reward
    when [done[k]] holds, whatever the discount and the output of the
    target estimator; when [done[k]] does not hold it is the reward
    plus the discounted greatest next value, hence the reward for a
    discount of 0 and reward plus greatest next value for a discount
    of 1. *)
Theorem bellman_target_cases (target_net : list Q -> list Q) (gamma : Q)
    (rewards : list Q) (dones : list bool) (next_states : list (list Q))
    (k : nat) (r : Q) (d : bool) (s : list Q) :
  rewards !! k = Some r -> dones !! k = Some d ->
  next_states !! k = Some s ->
  exists t,
    Bellman.targets gamma rewards dones
      (Bellman.next_best target_net next_states) !! k = Some t /\
    (d = true -> t == r)%Q /\
    (d = false -> gamma == 0 -> t == r)%Q /\
    (d = false -> t == r + gamma * Bellman.row_max (target_net s))%Q /\
    (d = false -> gamma == 1 -> t == r + Bellman.row_max (target_net s))%Q.
Proof.
  intros Hr Hd Hs. eexists. split.
  - apply targets_lookup; [done|done|].
    unfold Bellman.next_best. by rewrite list_lookup_fmap, Hs.
  - repeat split; intros ->; try intros ->; ring.
Qed.

Lemma bellman_target_cases_witness :
  let target_net := fun _ : list Q => [1; 2]%Q in
  [1; 1]%Q !! 1 = Some 1%Q /\ [false; true] !! 1 = Some true /\
  [[0]; [0]]%Q !! 1 = Some [0]%Q /\
  exists t,
    Bellman.targets 0.99 [1; 1]%Q [false; true]
      (Bellman.next_best target_net [[0]; [0]]%Q) !! 1 = Some t /\
    (t == 1)%Q.
Proof.
  intros target_net.
  split; [reflexivity|]. split; [reflexivity|]. split; [reflexivity|].
  destruct (bellman_target_cases target_net 0.99 [1; 1]%Q [false; true]
              [[0]; [0]]%Q 1 1%Q true [0]%Q eq_refl eq_refl eq_refl)
    as (t & Ht & Hdone & _).
  exists t. split; [exact Ht|]. exact (Hdone eq_refl).
Defined.

(** The masked computation agrees with the case distinction of the
    specification. *)
Lemma targets_by_cases (gamma : Q) (rewards next_q : list Q)
    (dones : list bool) :
  Forall2 Qeq
    (Bellman.targets gamma rewards dones next_q)
    (zip_with (fun r (dq : bool * Q) =>
                 if dq.1 then r else r + gamma * dq.2)%Q
              rewards (zip dones next_q)).
Proof.
  unfold Bellman.targets, Bellman.mask_dones.
  revert dones next_q.
  induction rewards as [|r rewards IH]; intros [|d dones] [|q next_q];
    simpl; try constructor; [|apply IH].
  destruct d; simpl; ring.
Qed.

(** ** Returns *)

Lemma returns_fold_head (gamma : Q) (rs : list Q) :
  forall acc : Q * list Q,
    fst acc = hd 0%Q (snd acc) ->
    let acc' :=
      fold_left (fun (acc : Q * list Q) r =>
                   let R := (r + gamma * fst acc)%Q in (R, R :: snd acc))
                rs acc in
    fst acc' = hd 0%Q (snd acc').
Proof.
  induction rs as [|r rs IH]; intros acc Hacc; simpl; [done|].
  by apply IH.
Qed.

Lemma backward_returns_cons (gamma r : Q) (rs : list Q) :
  MonteCarlo.backward_returns gamma (r :: rs) =
    (r + gamma * MonteCarlo.return_at gamma rs 0)%Q
      :: MonteCarlo.backward_returns gamma rs.
Proof.
  unfold MonteCarlo.return_at, MonteCarlo.backward_returns. simpl.
  rewrite fold_left_app. simpl.
  pose proof (returns_fold_head gamma (rev rs) (0%Q, []) eq_refl) as Hhd.
  simpl in Hhd. rewrite Hhd. by destruct (snd _).
Qed.

Lemma return_at_cons (gamma r : Q) (rs : list Q) (t : nat) :
  MonteCarlo.return_at gamma (r :: rs) (S t) = MonteCarlo.return_at gamma rs t.
Proof. unfold MonteCarlo.return_at. by rewrite backward_returns_cons. Qed.

Lemma backward_returns_length (gamma : Q) (rs : list Q) :
  length (MonteCarlo.backward_returns gamma rs) = length rs.
Proof.
  induction rs as [|r rs IH]; [done|].
  rewrite backward_returns_cons. simpl. by rewrite IH.
Qed.

(** C7.  The returns computed backwards satisfy
    [R_t = r_(t+1) + gamma * R_(t+1)] at every step [t] of the episode,
    [r_(t+1)] being the reward of step [t], with return 0 for the
    terminal state; for a discount of 0.9 and the rewards [1, 1, 1]
    they are 2.71, 1.9 and 1. *)
Theorem backward_returns_recurrence :
  (forall gamma rewards t r,
      rewards !! t = Some r ->
      MonteCarlo.return_at gamma rewards t =
        (r + gamma * MonteCarlo.return_at gamma rewards (S t))%Q) /\
  (forall gamma rewards,
      MonteCarlo.return_at gamma rewards (length rewards) = 0%Q) /\
  (forall gamma rewards,
      length (MonteCarlo.backward_returns gamma rewards) = length rewards) /\
  Forall2 Qeq (MonteCarlo.backward_returns 0.9 [1; 1; 1]%Q)
              [2.71; 1.9; 1.0]%Q.
Proof.
  split; [|split; [|split]].
  - intros gamma rewards. induction rewards as [|r0 rs IH]; intros t r Ht.
    + done.
    + destruct t as [|t].
      * injection Ht as ->. rewrite return_at_cons.
        unfold MonteCarlo.return_at at 1.
        by rewrite backward_returns_cons.
      * rewrite !return_at_cons. by apply IH.
  - intros gamma rewards. unfold MonteCarlo.return_at.
    apply nth_overflow. by rewrite backward_returns_length.
  - apply backward_returns_length.
  - repeat constructor.
Qed.

Lemma backward_returns_recurrence_witness :
  [1; 1; 1]%Q !! 0 = Some 1%Q /\
  MonteCarlo.return_at 0.9 [1; 1; 1]%Q 0 =
    (1 + 0.9 * MonteCarlo.return_at 0.9 [1; 1; 1]%Q 1)%Q.
Proof.
  split; [reflexivity|].
  exact (proj1 backward_returns_recurrence 0.9%Q [1; 1; 1]%Q 0 1%Q eq_refl).
Defined.

Set Warnings "-inexact-float".

(** In binary64 arithmetic the three returns of the scenario are the
    floats written 2.71, 1.9 and 1.0. *)
Example backward_returns64_scenario :
  MonteCarlo.backward_returns64 0.9 [1; 1; 1]%float = [2.71; 1.9; 1]%float.
Proof. vm_compute. reflexivity. Qed.

(** ** Target network synchronisation *)

Lemma values_lookup (σ σ' : NN.store) (m : NN.module) :
  (forall l, l ∈ NN.addresses m -> σ' !! l = σ !! l) ->
  NN.values σ' m = NN.values σ m.
Proof.
  intros Hsame. unfold NN.values. apply list_fmap_ext.
  intros i l Hl. rewrite Hsame; [done|]. by eapply list_elem_of_lookup_2.
Qed.

(** The copying pass over parameters [ps] that find their source in
    [qs]: every tensor of [ps] receives the data of its source, and
    nothing else is written. *)
Lemma load_copies (sd : gmap string nat) (ps : list (string * nat)) :
  forall (qs : list (string * nat)) (σ : NN.store),
    Forall2 (fun p q => sd !! p.1 = Some q.2) ps qs ->
    NoDup ps.*2 ->
    (forall l, l ∈ ps.*2 -> l ∉ qs.*2) ->
    Forall2 (fun p q => exists old new,
               σ !! p.2 = Some old /\ σ !! q.2 = Some new /\
               length old = length new) ps qs ->
    exists σ',
      NN.load_from_state_dict ps sd σ = (σ', []) /\
      (forall l, l ∉ ps.*2 -> σ' !! l = σ !! l) /\
      Forall2 (fun p q => σ' !! p.2 = σ !! q.2) ps qs.
Proof.
  induction ps as [|[name l] ps IH]; intros qs σ Hsd Hnd Hsep Hshape.
  - apply Forall2_nil_inv_l in Hsd as ->. exists σ. by repeat split.
  - apply Forall2_cons_inv_l in Hsd as ([name' l'] & qs' & Hhd & Hsd & ->).
    apply Forall2_cons in Hshape
      as [(old & new & Hold & Hnew & Hlen) Hshape].
    simpl in *. apply NoDup_cons in Hnd as [Hl Hnd].
    assert (Hl' : forall q, q ∈ qs'.*2 -> q <> l).
    { intros q Hq ->. apply (Hsep l); [by left|by right]. }
    destruct (IH qs' (<[l := new]> σ)) as (σ' & Hrun & Hout & Hcopy);
      [done|done| | |].
    { intros a Ha Hq. apply (Hsep a); by right. }
    { apply Forall2_same_length_lookup. split.
      { by eapply Forall2_length. }
      intros i [n1 l1] [n2 l2] Hi1 Hi2.
      destruct (Forall2_lookup_lr _ _ _ _ _ _ Hshape Hi1 Hi2)
        as (o & n & Ho & Hn & Hon).
      simpl in *. exists o, n.
      rewrite !lookup_insert_ne; [done| |].
      - apply not_eq_sym, Hl'. apply list_elem_of_fmap. exists (n2, l2).
        split; [done|]. by eapply list_elem_of_lookup_2.
      - intros <-. apply Hl. apply list_elem_of_fmap. exists (n1, l).
        split; [done|]. by eapply list_elem_of_lookup_2. }
    exists σ'. rewrite Hhd, Hold, Hnew.
    rewrite (proj2 (Nat.eqb_eq _ _) Hlen). split; [done|]. split.
    + intros a Ha. apply not_elem_of_cons in Ha as [Hne Ha].
      rewrite Hout by done. by rewrite lookup_insert_ne.
    + constructor; simpl.
      * rewrite Hout by done. by rewrite lookup_insert_eq.
      * apply Forall2_same_length_lookup. split.
        { by eapply Forall2_length. }
        intros i [n1 l1] [n2 l2] Hi1 Hi2.
        rewrite (Forall2_lookup_lr _ _ _ _ _ _ Hcopy Hi1 Hi2). simpl.
        apply lookup_insert_ne, not_eq_sym, Hl'.
        apply list_elem_of_fmap. exists (n2, l2).
        split; [done|]. by eapply list_elem_of_lookup_2.
Qed.

Lemma state_dict_lookup (net target_net : NN.module) :
  NoDup (NN.names net) ->
  NN.names target_net = NN.names net ->
  Forall2 (fun p q => NN.state_dict net !! p.1 = Some q.2)
          (NN.parameters target_net) (NN.parameters net).
Proof.
  intros Hnd Hnames. apply Forall2_same_length_lookup. split.
  - apply (f_equal length) in Hnames. unfold NN.names in Hnames.
    by rewrite !length_fmap in Hnames.
  - intros i [n1 l1] [n2 l2] Hi1 Hi2. simpl.
    assert (n1 = n2) as ->.
    { apply (f_equal (fun ns => ns !! i)) in Hnames. unfold NN.names in Hnames.
      rewrite !list_lookup_fmap, Hi1, Hi2 in Hnames. simpl in Hnames.
      congruence. }
    apply elem_of_list_to_map_1; [done|]. by eapply list_elem_of_lookup_2.
Qed.

Lemma sync_copies (net target_net : NN.module) (σ : NN.store) :
  NN.congruent σ net target_net ->
  exists σ',
    NN.sync net target_net σ = (Py.Ok tt, σ') /\
    NN.values σ' target_net = NN.values σ net /\
    NN.values σ' net = NN.values σ net /\
    NN.congruent σ' net target_net.
Proof.
  intros [Hnames Hnd Hsep Halloc Hshape].
  pose proof (state_dict_lookup net target_net Hnd Hnames) as Hsd.
  apply NoDup_app in Hsep as Hparts. destruct Hparts as (Hn & Hdisj & Ht).
  rewrite Forall_app in Halloc. destruct Halloc as [Han Hat].
  rewrite Forall_forall in Han, Hat.
  destruct (load_copies (NN.state_dict net) (NN.parameters target_net)
              (NN.parameters net) σ) as (σ' & Hrun & Hout & Hcopy);
    [done|done| | |].
  { intros l Hl Hl'. by apply (Hdisj l). }
  { apply Forall2_same_length_lookup. split; [by eapply Forall2_length|].
    intros i [n1 l1] [n2 l2] Hi1 Hi2. simpl.
    destruct (Hat l1) as [old Hold].
    { apply list_elem_of_fmap. exists (n1, l1).
      split; [done|]. by eapply list_elem_of_lookup_2. }
    destruct (Han l2) as [new Hnew].
    { apply list_elem_of_fmap. exists (n2, l2).
      split; [done|]. by eapply list_elem_of_lookup_2. }
    exists old, new. split; [done|]. split; [done|].
    apply (f_equal (fun ls => ls !! i)) in Hshape.
    unfold NN.values, NN.addresses in Hshape.
    rewrite !list_lookup_fmap, Hi1, Hi2 in Hshape. simpl in Hshape.
    rewrite Hold, Hnew in Hshape. simpl in Hshape. congruence. }
  assert (Hvt : NN.values σ' target_net = NN.values σ net).
  { unfold NN.values, NN.addresses. rewrite <- !list_fmap_compose.
    apply list_eq_Forall2, Forall2_fmap.
    eapply Forall2_impl; [exact Hcopy|]. intros p q Hpq. simpl.
    by rewrite Hpq. }
  assert (Hvn : NN.values σ' net = NN.values σ net).
  { apply values_lookup. intros l Hl. apply Hout. by apply Hdisj. }
  exists σ'. split; [|split; [done|split; [done|]]].
  - unfold NN.sync, NN.load_state_dict. rewrite Hrun.
    rewrite bool_decide_true; [done|].
    unfold NN.state_dict. rewrite dom_list_to_map_L. fold (NN.names net).
    by rewrite Hnames.
  - split; [done|done|done| |by rewrite Hvt, Hvn].
    apply Forall_app. split; apply Forall_forall; intros l Hl.
    + rewrite Hout by (by apply Hdisj). by apply Han.
    + apply list_elem_of_fmap in Hl as ([n1 l1] & -> & Hin).
      apply list_elem_of_lookup in Hin as [i Hi1].
      destruct (Forall2_lookup_l _ _ _ _ _ Hcopy Hi1)
        as ([n2 l2] & Hi2 & Heq).
      simpl in *. rewrite Heq. apply Han.
      apply list_elem_of_fmap. exists (n2, l2).
      split; [done|]. by eapply list_elem_of_lookup_2.
Qed.

Lemma write_outside (addrs : list nat) :
  forall (vals : list (list Q)) (σ : NN.store) (l : nat),
    l ∉ addrs ->
    foldr (fun (p : nat * list Q) σ => <[p.1 := p.2]> σ) σ
          (zip addrs vals) !! l = σ !! l.
Proof.
  induction addrs as [|a addrs IH]; intros [|v vals] σ l Hl; simpl;
    try done.
  apply not_elem_of_cons in Hl as [Hne Hl].
  rewrite lookup_insert_ne by done. by apply IH.
Qed.

Lemma write_is_Some (addrs : list nat) :
  forall (vals : list (list Q)) (σ : NN.store) (l : nat),
    is_Some (σ !! l) ->
    is_Some (foldr (fun (p : nat * list Q) σ => <[p.1 := p.2]> σ) σ
                   (zip addrs vals) !! l).
Proof.
  induction addrs as [|a addrs IH]; intros [|v vals] σ l Hl; simpl;
    try done.
  destruct (decide (a = l)) as [->|Hne].
  - rewrite lookup_insert_eq. by eexists.
  - rewrite lookup_insert_ne by done. by apply IH.
Qed.

Lemma write_values (addrs : list nat) :
  forall (vals : list (list Q)) (σ : NN.store),
    NoDup addrs -> length vals = length addrs ->
    (fun l => default [] (foldr (fun (p : nat * list Q) σ =>
                                   <[p.1 := p.2]> σ) σ
                                (zip addrs vals) !! l)) <$> addrs = vals.
Proof.
  induction addrs as [|a addrs IH]; intros [|v vals] σ Hnd Hlen; simpl in *;
    try done.
  apply NoDup_cons in Hnd as [Ha Hnd].
  rewrite lookup_insert_eq. simpl. f_equal.
  etransitivity; [|apply (IH vals σ Hnd); lia].
  apply list_fmap_ext. intros i l Hl.
  rewrite lookup_insert_ne; [done|].
  intros ->. apply Ha. by eapply list_elem_of_lookup_2.
Qed.

Lemma update_keeps_target
    (optimizer : nat -> list (list Q) -> list (list Q) -> list (list Q))
    (net target_net : NN.module) (t : nat) (σ : NN.store) :
  NN.keeps_shapes optimizer ->
  NN.congruent σ net target_net ->
  exists σ',
    NN.update optimizer net target_net t σ = (Py.Ok tt, σ') /\
    NN.values σ' target_net = NN.values σ target_net /\
    NN.congruent σ' net target_net.
Proof.
  intros Hopt [Hnames Hnd Hsep Halloc Hshape].
  eexists. split; [reflexivity|].
  set (vals := optimizer t (NN.values σ net) (NN.values σ target_net)).
  apply NoDup_app in Hsep as Hparts. destruct Hparts as (Hn & Hdisj & Ht).
  assert (Hvt : NN.values (NN.write net vals σ) target_net
                = NN.values σ target_net).
  { apply values_lookup. intros l Hl. apply write_outside.
    intros Hl'. by apply (Hdisj l). }
  assert (Hvn : NN.values (NN.write net vals σ) net = vals).
  { apply write_values; [done|].
    pose proof (Hopt t (NN.values σ net) (NN.values σ target_net)) as Hs.
    apply (f_equal length) in Hs. rewrite !length_fmap in Hs.
    fold vals in Hs. rewrite Hs. unfold NN.values. by rewrite length_fmap. }
  split; [done|]. split; [done|done|done| |].
  - eapply Forall_impl; [exact Halloc|]. intros l Hl. by apply write_is_Some.
  - rewrite Hvt, Hvn, Hshape. unfold vals. by rewrite Hopt.
Qed.

Section TrainingLoop.

Variable optimizer : nat -> list (list Q) -> list (list Q) -> list (list Q).
Variables net target_net : NN.module.

Hypothesis optimizer_shapes : NN.keeps_shapes optimizer.

Local Abbreviation run := (NN.run optimizer net target_net).

Lemma run_app (p q : list NN.stmt) (σ : NN.store) :
  run (p ++ q) σ =
    match run p σ with
    | (Py.Ok _, σ') => run q σ'
    | (Py.Raise e, σ') => (Py.Raise e, σ')
    end.
Proof.
  revert σ. induction p as [|c p IH]; intros σ; simpl; [done|].
  unfold Py.bind. destruct (NN.exec _ _ _ c σ) as [[[]|e] σ1]; [|done].
  apply IH.
Qed.

(** After the constructor's synchronisation and any further updates and
    synchronisations, the target parameters are those the online
    network had after the constructor or after some later statement. *)
Lemma run_snapshot (σ0 : NN.store) (p : list NN.stmt) :
  NN.congruent σ0 net target_net ->
  exists σ,
    run (NN.Sync :: p) σ0 = (Py.Ok tt, σ) /\
    NN.congruent σ net target_net /\
    (exists j σj,
        j <= length p /\
        run (NN.Sync :: take j p) σ0 = (Py.Ok tt, σj) /\
        NN.values σ target_net = NN.values σj net) /\
    (last (NN.Sync :: p) = Some NN.Sync ->
     NN.values σ target_net = NN.values σ net).
Proof.
  intros H0. induction p as [|c p IH] using rev_ind.
  - destruct (sync_copies net target_net σ0 H0) as (σ & Hs & Ht & Hn & Hc).
    assert (Hrun : run [NN.Sync] σ0 = (Py.Ok tt, σ)).
    { simpl. unfold Py.bind. by rewrite Hs. }
    exists σ. split; [done|]. split; [done|]. split.
    + exists 0, σ. split; [done|]. split; [done|]. by rewrite Ht, Hn.
    + intros _. by rewrite Ht, Hn.
  - destruct IH as (σ & Hrun & Hc & (j & σj & Hj & Hrunj & Hsnap) & _).
    change (NN.Sync :: p ++ [c]) with ((NN.Sync :: p) ++ [c]).
    destruct c as [t|].
    + destruct (update_keeps_target optimizer net target_net t σ
                  optimizer_shapes Hc) as (σ' & Hu & Ht & Hc').
      exists σ'. split; [|split; [done|split]].
      * rewrite run_app, Hrun. simpl. unfold Py.bind. by rewrite Hu.
      * exists j, σj. rewrite length_app. split; [lia|].
        rewrite take_app_le by lia. split; [done|]. by rewrite Ht.
      * by rewrite last_snoc.
    + destruct (sync_copies net target_net σ Hc) as (σ' & Hs & Ht & Hn & Hc').
      assert (Hrun' : run ((NN.Sync :: p) ++ [NN.Sync]) σ0 = (Py.Ok tt, σ')).
      { rewrite run_app, Hrun. simpl. unfold Py.bind. by rewrite Hs. }
      exists σ'. split; [done|]. split; [done|]. split.
      * exists (length (p ++ [NN.Sync])), σ'. split; [done|].
        rewrite firstn_all. split; [done|]. by rewrite Ht, Hn.
      * intros _. by rewrite Ht, Hn.
Qed.

End TrainingLoop.

(** C6.  At every point of the training loop, that is after the first
    [i >= 1] statements of the program (the constructor's
    synchronisation, then updates with a synchronisation every
    [T_target] steps), the run has raised nothing and the target
    parameters are exactly the parameters the online network had at
    one of these points up to [i]; at a point that directly follows a
    synchronisation, target and online estimator compute the same
    output on every state. *)
Theorem target_is_snapshot (forward : list (list Q) -> list Q -> list Q)
    (optimizer : nat -> list (list Q) -> list (list Q) -> list (list Q))
    (net target_net : NN.module) (T_target : nat) (σ0 : NN.store)
    (n i : nat) :
  NN.keeps_shapes optimizer ->
  NN.congruent σ0 net target_net ->
  1 <= i ->
  let point := fun i =>
    NN.run optimizer net target_net (take i (NN.program T_target n)) σ0 in
  exists σ,
    point i = (Py.Ok tt, σ) /\
    (exists j σj,
        1 <= j <= i /\ point j = (Py.Ok tt, σj) /\
        NN.values σ target_net = NN.values σj net) /\
    (last (take i (NN.program T_target n)) = Some NN.Sync ->
     forall s,
       NN.predict forward σ target_net s = NN.predict forward σ net s).
Proof.
  intros Hopt H0 Hi point. destruct i as [|i]; [lia|].
  unfold point, NN.program. simpl.
  set (p := take i (NN.loop T_target n 0)).
  destruct (run_snapshot optimizer net target_net Hopt σ0 p H0)
    as (σ & Hrun & _ & (j & σj & Hj & Hrunj & Hsnap) & Hlast).
  exists σ. split; [done|]. split.
  - exists (S j), σj.
    assert (Hp : length p <= i) by (unfold p; rewrite length_take; lia).
    split; [lia|]. split; [|done]. simpl.
    unfold p in Hrunj. rewrite take_take in Hrunj.
    by replace (j `min` i) with j in Hrunj by lia.
  - intros Hl s. unfold NN.predict. by rewrite Hlast.
Qed.

Lemma demo_optimizer_shapes : NN.keeps_shapes NN.demo_optimizer.
Proof.
  intros t θ θ'. unfold NN.demo_optimizer. rewrite <- list_fmap_compose.
  apply list_fmap_ext. intros i w _. simpl. by rewrite length_fmap.
Qed.

Lemma demo_congruent :
  NN.congruent NN.demo_store NN.demo_net NN.demo_target.
Proof.
  split.
  - reflexivity.
  - by apply (bool_decide_unpack _).
  - by apply (bool_decide_unpack _).
  - repeat constructor; by eexists.
  - reflexivity.
Qed.

Lemma target_is_snapshot_witness :
  let point := fun i =>
    NN.run NN.demo_optimizer NN.demo_net NN.demo_target
           (take i (NN.program 2 3)) NN.demo_store in
  NN.keeps_shapes NN.demo_optimizer /\
  NN.congruent NN.demo_store NN.demo_net NN.demo_target /\
  1 <= 4 /\
  last (take 4 (NN.program 2 3)) = Some NN.Sync /\
  exists σ,
    point 4 = (Py.Ok tt, σ) /\
    (exists j σj,
        1 <= j <= 4 /\ point j = (Py.Ok tt, σj) /\
        NN.values σ NN.demo_target = NN.values σj NN.demo_net) /\
    forall s, NN.predict NN.demo_forward σ NN.demo_target s
              = NN.predict NN.demo_forward σ NN.demo_net s.
Proof.
  intros point.
  assert (Hi : 1 <= 4) by lia.
  assert (Hl : last (take 4 (NN.program 2 3)) = Some NN.Sync)
    by reflexivity.
  split; [exact demo_optimizer_shapes|]. split; [exact demo_congruent|].
  split; [exact Hi|]. split; [exact Hl|].
  destruct (target_is_snapshot NN.demo_forward NN.demo_optimizer NN.demo_net
              NN.demo_target 2 NN.demo_store 3 4
              demo_optimizer_shapes demo_congruent Hi)
    as (σ & Hrun & Hsnap & Hsync).
  exists σ. split; [exact Hrun|]. split; [exact Hsnap|]. exact (Hsync Hl).
Defined.

(** * Further properties of the code *)

(** ** The replay memory at the edges of its capacity *)


(** X1.  A replay memory of capacity 0 is built without error and
    stays empty whatever is appended, so that every request for a
    batch of [k >= 1] transitions raises [ValueError]. *)
Theorem zero_capacity_never_samples `{T : Torch.api} (fuel : nat)
    (cs : list ReplayMemory.call) (g : Random.state) (k : Z) :
  (1 <= k)%Z ->
  ReplayMemory.__init__ (Some 0%Z) = Py.Ok (ReplayMemory.empty 0) /\
  exists w,
    ReplayMemory.appends cs (ReplayMemory.World (ReplayMemory.empty 0) g)
      = (Py.Ok tt, w) /\
    ReplayMemory.__len__ (ReplayMemory.self w) = 0 /\
    ReplayMemory.sample fuel k w =
      (Py.Raise (Py.Exc "ValueError"
                   "Sample larger than population or is negative"), w).
Proof.
  intros Hk. split; [done|]. eexists. split; [apply appends_run|].
  destruct (deque_foldl_append (ReplayMemory.stored_of <$> cs)
              (Deque.Make [] (Some 0)) 0) as [_ Hitems]; [done|done|].
  simpl in *. rewrite Nat.sub_0_r, drop_all in Hitems.
  assert (Hlen : ReplayMemory.__len__
                   (ReplayMemory.Obj
                      (foldl Deque.append (Deque.Make [] (Some 0))
                             (ReplayMemory.stored_of <$> cs))) = 0).
  { unfold ReplayMemory.__len__, Deque.len. simpl. by rewrite Hitems. }
  split; [done|]. apply sample_out_of_range. simpl. rewrite Hlen. lia.
Qed.

Lemma zero_capacity_never_samples_witness :
  (1 <= 1)%Z /\
  ReplayMemory.__init__ (Some 0%Z) = Py.Ok (ReplayMemory.empty 0) /\
  exists w,
    ReplayMemory.appends (ReplayMemory.step_call <$> [1; 2]%Z)
      (ReplayMemory.World (ReplayMemory.empty 0) Random.fixed)
      = (Py.Ok tt, w) /\
    ReplayMemory.__len__ (ReplayMemory.self w) = 0 /\
    @ReplayMemory.sample Torch.plain 0 1 w =
      (Py.Raise (Py.Exc "ValueError"
                   "Sample larger than population or is negative"), w).
Proof.
  assert (Hk : (1 <= 1)%Z) by lia.
  split; [exact Hk|].
  exact (@zero_capacity_never_samples Torch.plain 0
           (ReplayMemory.step_call <$> [1; 2]%Z) Random.fixed 1 Hk).
Defined.


(** X3.  The constructor returns an empty memory for [None] and for
    an integer capacity from 0 to [2^63 - 1]; it raises [ValueError]
    exactly for the negative capacities down to [-2^63], and
    [OverflowError] exactly for the integers outside
    [-2^63 .. 2^63 - 1]. *)
Theorem init_outcomes (capacity : option Z) :
  ((exists m, ReplayMemory.__init__ capacity = Py.Ok m /\
              ReplayMemory.__len__ m = 0) <->
   capacity = None \/
   exists n, capacity = Some n /\ (0 <= n < 2 ^ 63)%Z) /\
  (Py.raises "ValueError" (ReplayMemory.__init__ capacity) <->
   exists n, capacity = Some n /\ (- 2 ^ 63 <= n < 0)%Z) /\
  (Py.raises "OverflowError" (ReplayMemory.__init__ capacity) <->
   exists n, capacity = Some n /\ (n < - 2 ^ 63 \/ 2 ^ 63 <= n)%Z).
Proof.
  unfold ReplayMemory.__init__, Deque.new, Py.raises.
  destruct capacity as [n|].
  - destruct (Z.ltb_spec n (- 2 ^ 63)) as [Hlo|Hlo];
      [|destruct (Z.leb_spec (2 ^ 63) n) as [Hhi|Hhi];
        [|destruct (Z.ltb_spec n 0) as [Hneg|Hneg]]];
      cbn [orb]; (split; [|split]); split;
      try (intros [m [Hm _]]; discriminate Hm);
      try (intros [msg Hmsg]; discriminate Hmsg);
      try (intros [?|(n' & [= <-] & Hn')]; [discriminate|lia]);
      try (intros (n' & [= <-] & Hn'); lia);
      try (intros _; by eexists);
      try (intros _; right; exists n; split; [done|lia]);
      try (intros _; exists n; split; [done|lia]).
  - split; [|split]; split;
      try (intros [msg Hmsg]; discriminate Hmsg);
      try (intros (n & Hn & _); discriminate Hn);
      try (intros _; by left);
      try (intros _; by eexists).
Qed.



(** ** What [sample] and [append] never do *)

(** X5.  Sampling never removes or reorders what is stored: whatever
    [sample] returns or raises, the memory object is the same after
    the call, so sampled transitions stay available; a request refused
    by the guard of [random.sample] leaves the generator untouched as
    well. *)
Theorem sample_never_changes_buffer `{T : Torch.api} (fuel : nat)
    (w : ReplayMemory.world) (k : Z) :
  let m := Z.of_nat (ReplayMemory.__len__ (ReplayMemory.self w)) in
  ReplayMemory.self (snd (ReplayMemory.sample fuel k w))
  = ReplayMemory.self w /\
  ((k < 0 \/ m < k)%Z -> snd (ReplayMemory.sample fuel k w) = w).
Proof.
  intros m. split.
  - apply sample_leaves_buffer.
  - intros Hk. rewrite sample_out_of_range; [done|]. fold m. lia.
Qed.

Lemma collate_raises `{T : Torch.api} (ts : list (Transition Py.obj))
    (e : Py.exc) :
  ts <> [] ->
  ReplayMemory.collate ts = Py.Raise e ->
  exists dt col, length col = length ts /\ Torch.rejects dt col = Some e.
Proof.
  intros Hne. unfold ReplayMemory.collate.
  rewrite zip_star_tuples by done. simpl. unfold Torch.tensor.
  repeat match goal with
         | |- context [match Torch.rejects ?dt ?col with _ => _ end] =>
             let H := fresh "H" in
             destruct (Torch.rejects dt col) eqn:H; simpl;
             [intros [= <-]; exists dt, col; by rewrite length_fmap|]
         end.
  done.
Qed.

(** X6.  For [1 <= k <= m] the only exceptions of [sample(k)] are the
    refusals of [torch.tensor]: when the call raises, the exception is
    the one with which the library refused a column of [k] entries,
    and the memory object is unchanged. *)
Theorem sample_raises_only_refusals `{T : Torch.api} (fuel : nat)
    (w w' : ReplayMemory.world) (k : Z) (e : Py.exc) :
  (1 <= k <= Z.of_nat (ReplayMemory.__len__ (ReplayMemory.self w)))%Z ->
  ReplayMemory.sample fuel k w = (Py.Raise e, w') ->
  ReplayMemory.self w' = ReplayMemory.self w /\
  exists dt col,
    length col = Z.to_nat k /\ Torch.rejects dt col = Some e.
Proof.
  intros Hk Hrun.
  destruct (sample_selects fuel w k)
    as (g' & [(Hs & _)|(picks & Hs & Hlen & _)]).
  { unfold ReplayMemory.__len__, Deque.len in Hk. lia. }
  { rewrite Hs in Hrun. discriminate Hrun. }
  rewrite Hs in Hrun.
  destruct (ReplayMemory.collate picks.*2) as [b|e'] eqn:Hc;
    [discriminate Hrun|].
  injection Hrun as -> <-. split; [done|].
  destruct (collate_raises picks.*2 e) as (dt & col & Hcol & Hrej);
    [|done|].
  - intros Hnil. apply fmap_nil_inv in Hnil. subst picks. simpl in Hlen. lia.
  - exists dt, col. by rewrite Hcol, length_fmap.
Qed.

Lemma sample_raises_only_refusals_witness :
  let w := ReplayMemory.ragged in
  let r := @ReplayMemory.sample Torch.strict 0 2 w in
  let e := Py.Exc "ValueError" "entries of different shapes" in
  (1 <= 2 <= Z.of_nat (ReplayMemory.__len__ (ReplayMemory.self w)))%Z /\
  r = (Py.Raise e, snd r) /\
  ReplayMemory.self (snd r) = ReplayMemory.self w /\
  exists dt col,
    length col = Z.to_nat 2 /\ @Torch.rejects Torch.strict dt col = Some e.
Proof.
  intros w r e.
  assert (Hk : (1 <= 2 <= Z.of_nat (ReplayMemory.__len__
                                      (ReplayMemory.self w)))%Z)
    by (vm_compute; split; discriminate).
  assert (Hr : r = (Py.Raise e, snd r)) by (vm_compute; reflexivity).
  split; [exact Hk|]. split; [exact Hr|].
  exact (@sample_raises_only_refusals Torch.strict 0 w (snd r) 2 e Hk Hr).
Defined.




(** A reward given as a tensor is stored as that tensor. *)
Example append_keeps_tensor_reward :
  exists w t,
    ReplayMemory.append (Py.ndarray [1]%Q) (Py.Int 0) (Py.Tensor [1]%Q)
                        (Py.ndarray [2]%Q) (Py.Bool false)
      (ReplayMemory.World (ReplayMemory.empty 3) Random.fixed)
      = (Py.Ok tt, w) /\
    Deque.items (ReplayMemory.memory (ReplayMemory.self w)) = [t] /\
    reward t = Py.Tensor [1]%Q.
Proof. do 2 eexists. repeat split; reflexivity. Qed.

Lemma sample_whole_buffer_witness :
  let w := ReplayMemory.demo in
  let pop := Deque.items (ReplayMemory.memory (ReplayMemory.self w)) in
  1 <= length pop /\
  @ReplayMemory.tensorisable Torch.plain pop /\
  exists (picked : list (Transition Py.obj)) w',
    @ReplayMemory.sample Torch.plain 0 (Z.of_nat (length pop)) w =
      (Py.Ok (Some (@ReplayMemory.batch_of Torch.plain picked)), w') /\
    picked ≡ₚ pop /\
    ReplayMemory.self w' = ReplayMemory.self w.
Proof.
  intros w pop.
  assert (Hm : 1 <= length pop) by (vm_compute; lia).
  split; [exact Hm|]. split; [apply plain_tensorisable|].
  exact (@sample_whole_buffer Torch.plain 0 w Hm (plain_tensorisable pop)).
Defined.

(** ** Epsilon-greedy selection of 8-MonteCarlo *)

(** X9.  Without exploration the fragment, which reads the greedy
    action with [argmax], returns a maximal action, and among tied
    maximal actions the first whatever the random draws: a maximal
    action that comes after another maximal action is never
    returned. *)
Theorem act_argmax_takes_first (scores : list Q) (g : Random.state)
    (i j : nat) :
  i < j -> Agent.maximal scores i -> Agent.maximal scores j ->
  exists a,
    fst (Agent.act Agent.greedy_argmax 0 scores g) = Py.Ok a /\
    Agent.maximal scores a /\ a <= i /\ a <> j.
Proof.
  intros Hij Hi Hj.
  destruct (argmax_least_maximal scores i Hi) as (a & Ha & Hmax & Hle).
  destruct (random_not_below_zero g 0) as (u & Hu & Hlt); [apply Qle_refl|].
  exists a. split; [|split; [done|lia]].
  unfold Agent.act, Agent.greedy_argmax, Py.bind, Py.lift.
  by rewrite Ha, Hu, Hlt.
Qed.

Lemma act_argmax_takes_first_witness :
  0 < 1 /\ Agent.maximal [0; 0]%Q 0 /\ Agent.maximal [0; 0]%Q 1 /\
  exists a,
    fst (Agent.act Agent.greedy_argmax 0 [0; 0]%Q Random.fixed) = Py.Ok a /\
    Agent.maximal [0; 0]%Q a /\ a <= 0 /\ a <> 1.
Proof.
  assert (H0 : Agent.maximal [0; 0]%Q 0).
  { exists 0%Q. split; [reflexivity|]. repeat constructor; discriminate. }
  assert (H1 : Agent.maximal [0; 0]%Q 1).
  { exists 0%Q. split; [reflexivity|]. repeat constructor; discriminate. }
  assert (Hlt : 0 < 1) by lia.
  split; [exact Hlt|]. split; [exact H0|]. split; [exact H1|].
  exact (act_argmax_takes_first [0; 0]%Q Random.fixed 0 1 Hlt H0 H1).
Defined.

Lemma random_below_one (g : Random.state) (epsilon : Q) :
  (1 <= epsilon)%Q ->
  exists u, Random.random g = (Py.Ok u, Random.advance g) /\
            Agent.Qltb u epsilon = true.
Proof.
  intros He. eexists. split; [reflexivity|].
  unfold Agent.Qltb. apply negb_true_iff.
  destruct (Qle_bool epsilon _) eqn:Hle; [|done].
  apply Qle_bool_iff in Hle. exfalso.
  assert (Hone : (1 <= Z.of_N (Random.entropy g (Random.cursor g)
                                 mod 2 ^ 53)%N # 2 ^ 53)%Q)
    by (by eapply Qle_trans).
  unfold Qle in Hone. cbn [Qnum Qden] in Hone.
  rewrite Z.mul_1_l, Z.mul_1_r in Hone.
  assert (Hlt : (Random.entropy g (Random.cursor g) mod 2 ^ 53
                 < 2 ^ 53)%N) by (by apply N.mod_lt).
  apply N2Z.inj_lt in Hlt. change (Z.of_N (2 ^ 53)) with (Z.pos (2 ^ 53)) in Hlt.
  lia.
Qed.

(** X10.  With [epsilon >= 1] the fragment always explores: on a
    non-empty score vector it returns the action drawn from the action
    space, which lies below the number of actions and does not depend
    on the scores. *)
Theorem act_always_explores (epsilon : Q) (scores : list Q)
    (g : Random.state) :
  (1 <= epsilon)%Q -> scores <> [] ->
  exists a,
    fst (Agent.act Agent.greedy_argmax epsilon scores g) = Py.Ok a /\
    a < length scores /\
    forall scores',
      length scores' = length scores ->
      fst (Agent.act Agent.greedy_argmax epsilon scores' g) = Py.Ok a.
Proof.
  intros He Hne.
  destruct (random_below_one g epsilon He) as (u & Hu & Hlt).
  destruct (randbelow_lt (length scores) (Random.advance g))
    as (a & Ha & Hrb).
  { destruct scores; [done|simpl; lia]. }
  assert (Hact : forall sc, length sc = length scores ->
            fst (Agent.act Agent.greedy_argmax epsilon sc g) = Py.Ok a).
  { intros sc Hsc.
    unfold Agent.act, Agent.greedy_argmax, Agent.action_space_sample,
      Py.bind, Py.lift.
    destruct sc as [|x sc]; [by destruct scores|]. simpl Agent.argmax.
    cbv iota beta. rewrite Hu. cbv iota beta. rewrite Hlt, Hsc, Hrb. done. }
  exists a. split; [by apply Hact|]. split; [done|exact Hact].
Qed.

Lemma act_always_explores_witness :
  (1 <= 1)%Q /\ [0.5; 2]%Q <> [] /\
  exists a,
    fst (Agent.act Agent.greedy_argmax 1 [0.5; 2]%Q Random.fixed) = Py.Ok a /\
    a < length [0.5; 2]%Q /\
    forall scores',
      length scores' = length [0.5; 2]%Q ->
      fst (Agent.act Agent.greedy_argmax 1 scores' Random.fixed) = Py.Ok a.
Proof.
  assert (He : (1 <= 1)%Q) by apply Qle_refl.
  assert (Hne : [0.5; 2]%Q <> []) by discriminate.
  split; [exact He|]. split; [exact Hne|].
  exact (act_always_explores 1 [0.5; 2]%Q Random.fixed He Hne).
Defined.

(** ** The naive computation of returns *)






(** On the rewards 1, 2 the naive value of the second step is the
    reward 2 discounted once, whereas its return is 2. *)
Example naive_return_differs :
  exists v,
    MonteCarlo.naive_return 0.5 [1; 2]%Q 1 = Py.Ok v /\ (v == 1)%Q /\
    (MonteCarlo.return_at 0.5 [1; 2]%Q 1 == 2)%Q.
Proof. eexists. repeat split. Qed.


(** ** The random environment and the interaction loop *)

Lemma unit_interval (x : N) :
  (0 <= Z.of_N (x mod 2 ^ 53) # 2 ^ 53)%Q /\
  (Z.of_N (x mod 2 ^ 53) # 2 ^ 53 < 1)%Q.
Proof.
  unfold Qle, Qlt. cbn [Qnum Qden]. rewrite !Z.mul_1_r, Z.mul_0_l.
  pose proof (N.mod_upper_bound x (2 ^ 53)%N ltac:(done)).
  split; [apply N2Z.is_nonneg|].
  change (Z.pos (2 ^ 53)) with (Z.of_N (2 ^ 53)%N). lia.
Qed.

Lemma below_range (x : N) (n : Z) :
  (0 < n)%Z ->
  (0 <= Z.of_nat (N.to_nat (x mod N.of_nat (Z.to_nat n))) < n)%Z.
Proof.
  intros Hn.
  assert (N.of_nat (Z.to_nat n) <> 0%N) as Hpos by lia.
  pose proof (N.mod_upper_bound x _ Hpos) as Hlt.
  revert Hlt. generalize (x mod N.of_nat (Z.to_nat n))%N. lia.
Qed.

(** A multiple of [m] among [1 .. |m|] is [|m|]. *)
Lemma mod_zero_abs (c m : Z) :
  (m <> 0)%Z -> (0 < c <= Z.abs m)%Z ->
  (c mod m = 0)%Z <-> c = Z.abs m.
Proof.
  intros Hm Hc. rewrite Z.mod_divide by done. split.
  - intros Hd. apply Z.divide_abs_l in Hd.
    apply Z.divide_pos_le in Hd; lia.
  - intros ->. apply Z.divide_abs_r. reflexivity.
Qed.

(** What one step does to an environment whose episode length is not
    zero. *)
Lemma step_effect (a : Z) (w : RandomEnv.world) :
  let e := RandomEnv.self w in
  RandomEnv.max_episode_steps e <> 0%Z ->
  exists s r w',
    RandomEnv.step a w =
      (Py.Ok (s, r, false,
              ((RandomEnv.current_step e + 1)
                 mod RandomEnv.max_episode_steps e =? 0)%Z), w') /\
    RandomEnv.current_step (RandomEnv.self w')
      = (RandomEnv.current_step e + 1)%Z /\
    RandomEnv.max_episode_steps (RandomEnv.self w')
      = RandomEnv.max_episode_steps e /\
    Gym.n (RandomEnv.observation_space (RandomEnv.self w'))
      = Gym.n (RandomEnv.observation_space e) /\
    RandomEnv.state (RandomEnv.self w') = s /\
    (0 <= r)%Q /\ (r < 1)%Q /\
    ((0 < Gym.n (RandomEnv.observation_space e))%Z ->
     (0 <= s < Gym.n (RandomEnv.observation_space e))%Z).
Proof.
  intros e Hm.
  unfold RandomEnv.step, RandomEnv.sample_state, RandomEnv.uniform,
    RandomEnv.set_current_step, Py.bind, Py.get, Py.ret.
  simpl. fold e.
  destruct (Z.eqb_spec (RandomEnv.max_episode_steps e) 0) as [|_]; [done|].
  eexists _, _, _. split; [reflexivity|]. simpl.
  repeat split; try apply unit_interval; by apply below_range.
Qed.

Lemma action_sample_effect (w : RandomEnv.world) :
  let e := RandomEnv.self w in
  exists a w',
    RandomEnv.action_space_sample w = (Py.Ok a, w') /\
    RandomEnv.current_step (RandomEnv.self w') = RandomEnv.current_step e /\
    RandomEnv.max_episode_steps (RandomEnv.self w')
      = RandomEnv.max_episode_steps e /\
    RandomEnv.state (RandomEnv.self w') = RandomEnv.state e /\
    RandomEnv.observation_space (RandomEnv.self w')
      = RandomEnv.observation_space e /\
    RandomEnv.np_random w' = RandomEnv.np_random w.
Proof. intros e. eexists _, _. by split. Qed.

Lemma reset_effect (w : RandomEnv.world) :
  let e := RandomEnv.self w in
  exists s w',
    RandomEnv.reset w = (Py.Ok s, w') /\
    RandomEnv.current_step (RandomEnv.self w') = 0%Z /\
    RandomEnv.max_episode_steps (RandomEnv.self w')
      = RandomEnv.max_episode_steps e /\
    Gym.n (RandomEnv.observation_space (RandomEnv.self w'))
      = Gym.n (RandomEnv.observation_space e) /\
    RandomEnv.state (RandomEnv.self w') = s /\
    ((0 < Gym.n (RandomEnv.observation_space e))%Z ->
     (0 <= s < Gym.n (RandomEnv.observation_space e))%Z).
Proof.
  intros e. eexists _, _. split; [reflexivity|]. simpl.
  repeat split; by apply below_range.
Qed.

(** The loop from step [c] of an episode: it ends at step [|m|], and
    not before. *)
Lemma while_not_done_from (fuel : nat) :
  forall (w : RandomEnv.world) (s0 : Z) (ret0 : Q),
    let m := RandomEnv.max_episode_steps (RandomEnv.self w) in
    let c := RandomEnv.current_step (RandomEnv.self w) in
    (m <> 0)%Z -> (0 <= c < Z.abs m)%Z ->
    (fuel < Z.to_nat (Z.abs m - c) ->
     exists w', Gym.while_not_done fuel s0 ret0 w = (Py.Ok None, w')) /\
    (Z.to_nat (Z.abs m - c) <= fuel ->
     exists s ret w',
       Gym.while_not_done fuel s0 ret0 w = (Py.Ok (Some (s, ret)), w') /\
       RandomEnv.current_step (RandomEnv.self w') = Z.abs m /\
       RandomEnv.state (RandomEnv.self w') = s /\
       (ret0 <= ret)%Q /\ (ret <= ret0 + inject_Z (Z.abs m - c))%Q).
Proof.
  induction fuel as [|fuel IH]; intros w s0 ret0 m c Hm Hc.
  { split; [by eexists|lia]. }
  destruct (action_sample_effect w) as (a & w1 & Ha & Hc1 & Hm1 & _).
  destruct (step_effect a w1)
    as (s & r & w2 & Hstep & Hc2 & Hm2 & _ & Hs & Hr0 & Hr1 & _).
  { by rewrite Hm1. }
  rewrite Hc1, Hm1 in *. fold m c in Hstep, Hc2, Hm2.
  assert (Gym.while_not_done (S fuel) s0 ret0 w =
          if ((c + 1) mod m =? 0)%Z
          then (Py.Ok (Some (s, (ret0 + r)%Q)), w2)
          else Gym.while_not_done fuel s (ret0 + r)%Q w2) as ->.
  { cbn [Gym.while_not_done]. unfold Py.bind at 1.
    change (Gym.action_space_sample w) with (RandomEnv.action_space_sample w).
    rewrite Ha. unfold Py.bind at 1.
    change (Gym.step a w1) with (RandomEnv.step a w1).
    rewrite Hstep. cbn [orb]. by destruct (_ =? _)%Z. }
  destruct (Z.eqb_spec ((c + 1) mod m) 0) as [Hz|Hz].
  - apply mod_zero_abs in Hz; [|done|lia].
    split; [lia|]. intros _. eexists _, _, _. split; [reflexivity|].
    rewrite Hc2. repeat split; try done.
    + rewrite <- (Qplus_0_r ret0) at 1. by apply Qplus_le_r.
    + apply Qplus_le_r. replace (Z.abs m - c)%Z with 1%Z by lia.
      by apply Qlt_le_weak.
  - rewrite mod_zero_abs in Hz by (done || lia).
    destruct (IH w2 s (ret0 + r)%Q) as [IH1 IH2].
    { by rewrite Hm2. } { rewrite Hm2, Hc2. lia. }
    rewrite Hm2, Hc2 in IH1, IH2. split.
    + intros Hf. apply IH1. lia.
    + intros Hf. destruct IH2 as (s' & ret & w' & -> & Hc' & Hs' & Hlo & Hhi);
        [lia|].
      eexists _, _, _. split; [reflexivity|]. repeat split; try done.
      * eapply Qle_trans; [|exact Hlo].
        rewrite <- (Qplus_0_r ret0) at 1. by apply Qplus_le_r.
      * eapply Qle_trans; [exact Hhi|].
        replace (Z.abs m - c)%Z with (1 + (Z.abs m - (c + 1)))%Z by lia.
        rewrite inject_Z_plus, Qplus_assoc.
        apply Qplus_le_l, Qplus_le_r. by apply Qlt_le_weak.
Qed.

(** X12.  A step of the random environment never ends the episode as
    terminal and does not depend on the action; it advances the step
    counter by one, gives a reward in [[0, 1)], and reports a
    truncation exactly when the new step count is a multiple of
    [max_episode_steps]. *)
Theorem step_truncates_on_multiples (a a' : Z) (w : RandomEnv.world) :
  let e := RandomEnv.self w in
  RandomEnv.max_episode_steps e <> 0%Z ->
  exists s r truncated w',
    RandomEnv.step a w = (Py.Ok (s, r, false, truncated), w') /\
    RandomEnv.step a' w = RandomEnv.step a w /\
    RandomEnv.current_step (RandomEnv.self w')
      = (RandomEnv.current_step e + 1)%Z /\
    (truncated = true <->
     (RandomEnv.max_episode_steps e
        | RandomEnv.current_step (RandomEnv.self w'))%Z) /\
    (0 <= r)%Q /\ (r < 1)%Q.
Proof.
  intros e Hm.
  destruct (step_effect a w) as (s & r & w' & Hstep & Hc & _ & _ & _ & Hr0 & Hr1 & _);
    [done|].
  eexists _, _, _, _. split; [exact Hstep|].
  repeat split; try done.
  - rewrite Hc. intros Ht. apply Z.eqb_eq in Ht. by apply Z.mod_divide.
  - rewrite Hc. intros Hd. apply Z.eqb_eq. by apply Z.mod_divide.
Qed.

Lemma step_truncates_on_multiples_witness :
  exists s r truncated w',
    RandomEnv.step 0 RandomEnv.demo = (Py.Ok (s, r, false, truncated), w') /\
    RandomEnv.step 1 RandomEnv.demo = RandomEnv.step 0 RandomEnv.demo /\
    RandomEnv.current_step (RandomEnv.self w')
      = (RandomEnv.current_step (RandomEnv.self RandomEnv.demo) + 1)%Z /\
    (truncated = true <->
     (RandomEnv.max_episode_steps (RandomEnv.self RandomEnv.demo)
        | RandomEnv.current_step (RandomEnv.self w'))%Z) /\
    (0 <= r)%Q /\ (r < 1)%Q.
Proof.
  apply (step_truncates_on_multiples 0 1 RandomEnv.demo). simpl. lia.
Defined.

(** X13.  On the random environment the interaction loop ends every
    episode after exactly [|max_episode_steps|] steps, whatever was
    done with the environment before: fewer iterations do not reach
    the end, and with that many the loop stops with the step counter
    at [|max_episode_steps|] and a return between 0 and the number of
    steps. *)
Theorem episode_takes_max_steps (fuel : nat) (w : RandomEnv.world) :
  let m := RandomEnv.max_episode_steps (RandomEnv.self w) in
  m <> 0%Z ->
  (fuel < Z.to_nat (Z.abs m) ->
   exists w', Gym.episode fuel w = (Py.Ok None, w')) /\
  (Z.to_nat (Z.abs m) <= fuel ->
   exists s ret w',
     Gym.episode fuel w = (Py.Ok (Some (s, ret)), w') /\
     RandomEnv.current_step (RandomEnv.self w') = Z.abs m /\
     RandomEnv.state (RandomEnv.self w') = s /\
     (0 <= ret)%Q /\ (ret <= inject_Z (Z.abs m))%Q).
Proof.
  intros m Hm. unfold Gym.episode, Py.bind.
  change (Gym.reset w) with (RandomEnv.reset w).
  destruct (reset_effect w) as (s0 & w0 & -> & Hc0 & Hm0 & _).
  destruct (while_not_done_from fuel w0 s0 0%Q) as [Hshort Hlong].
  { by rewrite Hm0. } { rewrite Hm0, Hc0. fold m. lia. }
  rewrite Hm0, Hc0, Z.sub_0_r in Hshort, Hlong. fold m in Hshort, Hlong.
  split; [done|]. intros Hf.
  destruct (Hlong Hf) as (s & ret & w' & -> & Hc & Hs & Hlo & Hhi).
  eexists _, _, _. split; [reflexivity|]. repeat split; try done.
  by rewrite Qplus_0_l in Hhi.
Qed.

Lemma episode_takes_max_steps_witness :
  exists s ret w',
    Gym.episode 3 RandomEnv.demo = (Py.Ok (Some (s, ret)), w') /\
    RandomEnv.current_step (RandomEnv.self w') = 3%Z /\
    RandomEnv.state (RandomEnv.self w') = s /\
    (0 <= ret)%Q /\ (ret <= inject_Z 3)%Q.
Proof.
  apply (episode_takes_max_steps 3 RandomEnv.demo); simpl; lia.
Defined.

Lemma step_zero (a : Z) (w : RandomEnv.world) :
  RandomEnv.max_episode_steps (RandomEnv.self w) = 0%Z ->
  exists w',
    RandomEnv.step a w = (Py.Raise RandomEnv.ZeroDivisionError, w') /\
    RandomEnv.current_step (RandomEnv.self w')
      = (RandomEnv.current_step (RandomEnv.self w) + 1)%Z /\
    RandomEnv.state (RandomEnv.self w')
      = Z.of_nat
          (N.to_nat
             (Random.entropy
                (Gym.np_random (RandomEnv.observation_space (RandomEnv.self w)))
                (Random.cursor
                   (Gym.np_random
                      (RandomEnv.observation_space (RandomEnv.self w))))
              mod N.of_nat
                    (Z.to_nat
                       (Gym.n (RandomEnv.observation_space
                                 (RandomEnv.self w)))))).
Proof.
  intros H0.
  unfold RandomEnv.step, RandomEnv.sample_state, RandomEnv.uniform,
    RandomEnv.set_current_step, Py.bind, Py.get, Py.ret.
  simpl. rewrite H0. simpl. by eexists.
Qed.

(** X14.  An environment built with [max_episode_steps = 0] cannot be
    stepped: every step raises [ZeroDivisionError], after the step
    counter was advanced, and so does the first iteration of the
    interaction loop. *)
Theorem zero_max_steps_breaks_step (a : Z) (w : RandomEnv.world) :
  RandomEnv.max_episode_steps (RandomEnv.self w) = 0%Z ->
  (exists w',
      RandomEnv.step a w = (Py.Raise RandomEnv.ZeroDivisionError, w') /\
      RandomEnv.current_step (RandomEnv.self w')
        = (RandomEnv.current_step (RandomEnv.self w) + 1)%Z) /\
  (forall fuel,
      exists r w',
        Gym.episode (S fuel) w = (r, w') /\
        Py.raises "ZeroDivisionError" r /\
        RandomEnv.current_step (RandomEnv.self w') = 1%Z).
Proof.
  intros Hm. split.
  { destruct (step_zero a w Hm) as (w' & ? & ? & _). by exists w'. }
  intros fuel. unfold Gym.episode, Py.bind.
  change (Gym.reset w) with (RandomEnv.reset w).
  destruct (reset_effect w) as (s0 & w0 & -> & Hc0 & Hm0 & _).
  cbn [Gym.while_not_done]. unfold Py.bind at 1.
  change (Gym.action_space_sample w0) with (RandomEnv.action_space_sample w0).
  destruct (action_sample_effect w0) as (a0 & w1 & -> & Hc1 & Hm1 & _).
  unfold Py.bind.
  change (Gym.step a0 w1) with (RandomEnv.step a0 w1).
  destruct (step_zero a0 w1) as (w2 & -> & Hc2 & _); [congruence|].
  eexists _, _. split; [reflexivity|]. split; [by eexists|].
  rewrite Hc2, Hc1, Hc0. done.
Qed.

Lemma zero_max_steps_breaks_step_witness :
  exists r w',
    Gym.episode 1 RandomEnv.broken = (r, w') /\
    Py.raises "ZeroDivisionError" r /\
    RandomEnv.current_step (RandomEnv.self w') = 1%Z.
Proof.
  apply (proj2 (zero_max_steps_breaks_step 0 RandomEnv.broken eq_refl)).
Defined.

(** X15.  The constructor of the random environment checks the two
    sizes as the constructor of [Discrete] does, and nothing else.
    When the library accepts both sizes, the number of states being
    positive, the constructor succeeds for every [max_episode_steps],
    zero and negative ones included, leaving the step counter at 0 and
    the state among the states.  When the library refuses the number
    of states, or accepts it and refuses the number of actions, the
    constructor raises the library's exception.  The global generator
    is not used. *)
Theorem init_checks_sizes_only `{L : Gym.api}
    (nb_states nb_actions max_episode_steps : Z)
    (render_mode : string) (g_obs g_act g : Random.state) :
  let r := RandomEnv.__init__ nb_states nb_actions max_episode_steps
             render_mode g_obs g_act g in
  (Gym.Discrete_check nb_states = None ->
   Gym.Discrete_check nb_actions = None ->
   (0 < nb_states)%Z ->
   exists e,
     r = (Py.Ok e, g) /\
     RandomEnv.nb_states e = nb_states /\
     RandomEnv.nb_actions e = nb_actions /\
     RandomEnv.max_episode_steps e = max_episode_steps /\
     RandomEnv.current_step e = 0%Z /\
     (0 <= RandomEnv.state e < nb_states)%Z) /\
  (forall x, Gym.Discrete_check nb_states = Some x ->
             r = (Py.Raise x, g)) /\
  (forall x, Gym.Discrete_check nb_states = None ->
             Gym.Discrete_check nb_actions = Some x ->
             r = (Py.Raise x, g)).
Proof.
  intros r. subst r.
  unfold RandomEnv.__init__, Gym.Discrete_new, Py.bind, Py.lift.
  split; [|split].
  - intros -> -> Hs. eexists. split; [reflexivity|]. simpl.
    repeat split; try done; by apply below_range.
  - by intros x ->.
  - by intros x -> ->.
Qed.

Lemma init_checks_sizes_only_witness :
  exists e,
    RandomEnv.__init__ (L := Gym.checked) 4 2 0 "ansi"
      Random.fixed Random.fixed Random.fixed
      = (Py.Ok e, Random.fixed) /\
    RandomEnv.nb_states e = 4%Z /\
    RandomEnv.nb_actions e = 2%Z /\
    RandomEnv.max_episode_steps e = 0%Z /\
    RandomEnv.current_step e = 0%Z /\
    (0 <= RandomEnv.state e < 4)%Z.
Proof.
  apply (proj1 (init_checks_sizes_only (L := Gym.checked) 4 2 0 "ansi"
                  Random.fixed Random.fixed Random.fixed));
    [reflexivity|reflexivity|lia].
Defined.

(** A size that the library refuses: the constructor raises what the
    library raises, here for no state and for too many actions. *)
Example init_refused_sizes :
  Py.raises "AssertionError"
    (fst (RandomEnv.__init__ (L := Gym.checked) 0 2 10 "ansi"
            Random.fixed Random.fixed Random.fixed)) /\
  Py.raises "OverflowError"
    (fst (RandomEnv.__init__ (L := Gym.checked) 4 (2 ^ 63) 10 "ansi"
            Random.fixed Random.fixed Random.fixed)).
Proof. split; by eexists. Qed.

(** ** The recorder *)

Lemma dirname_neq (p : OS.path) : p <> [] -> OS.dirname p <> p.
Proof.
  intros Hp Heq. pose proof (app_removelast_last EmptyString Hp) as Hsplit.
  unfold OS.dirname in Heq. rewrite Heq in Hsplit.
  apply (f_equal length) in Hsplit. rewrite length_app in Hsplit.
  simpl in Hsplit. lia.
Qed.

Lemma isdir_root {C} (o : OS.fs C) : OS.isdir o [] = true.
Proof. apply bool_decide_eq_true. by left. Qed.

(** [os.mkdir] changes nothing when it fails, and adds one directory
    when it succeeds. *)
Lemma mkdir_effect {C} (p : OS.path) (o o' : OS.fs C) (r : Py.result unit) :
  OS.mkdir p o = (r, o') ->
  match r with
  | Py.Ok _ =>
      OS.path_exists o p = false /\ OS.isdir o (OS.dirname p) = true /\
      o' = OS.FS (OS.cwd o) ({[ p ]} ∪ OS.dirs o) (OS.files o)
  | Py.Raise e =>
      o' = o /\
      (OS.path_exists o p = false -> OS.path_exists o (OS.dirname p) = false ->
       e = OS.FileNotFoundError)
  end.
Proof.
  unfold OS.mkdir, OS.path_exists.
  destruct (OS.isdir o p || OS.isfile o p) eqn:He.
  { intros [= <- <-]. by split. }
  destruct (OS.isdir o (OS.dirname p)) eqn:Hd.
  { intros [= <- <-]. by repeat split. }
  destruct (OS.isfile o (OS.dirname p)) eqn:Hf; intros [= <- <-]; by split.
Qed.

Section RecorderProperties.

Context {F G : Type}.
Variable shape : F -> list nat.
Variable encode : @GymRecorder.clip_t F -> Z -> Z -> option G * option Py.exc.
Variable unopened : Py.exc -> Py.result unit.

Local Abbreviation world := (@GymRecorder.world F G).
Local Abbreviation make_video_loop :=
  (GymRecorder.make_video_loop shape encode unopened).
Local Abbreviation write_file := (GymRecorder.write_file encode unopened).

Lemma record_frames (frames : list F) (w : world) :
  GymRecorder.record frames w =
    (Py.Ok tt,
     GymRecorder.World
       (GymRecorder.Obj (GymRecorder.metadata (GymRecorder.self w))
                        (GymRecorder._frames (GymRecorder.self w) ++ frames)
                        (GymRecorder.clip (GymRecorder.self w)))
       (GymRecorder.os w)).
Proof.
  unfold GymRecorder.record. do 3 f_equal.
  generalize (GymRecorder._frames (GymRecorder.self w)).
  induction frames as [|x frames IH]; intros acc; simpl.
  - by rewrite app_nil_r.
  - by rewrite IH, <- app_assoc.
Qed.

(** Writing the gif leaves the directories as they are and touches at
    most the file itself, which then holds what the encoder wrote. *)
Lemma write_file_effect (c : GymRecorder.clip_t) (p : OS.path)
    (fps loop : Z) (o o' : OS.fs G) (r : Py.result unit) :
  write_file c p fps loop o = (r, o') ->
  OS.cwd o' = OS.cwd o /\ OS.dirs o' = OS.dirs o /\
  (o' = o \/
   exists g, OS.open_error o p = None /\
             fst (encode c fps loop) = Some g /\
             (forall e, r = Py.Raise e -> snd (encode c fps loop) = Some e) /\
             o' = OS.put p g o).
Proof.
  unfold GymRecorder.write_file.
  destruct (OS.open_error o p) as [e|]; [intros [= <- <-]; by auto|].
  destruct (encode c fps loop) as [[g|] stopped]; intros [= <- <-].
  - repeat split; try done. right. exists g. repeat split; try done.
    intros e. by destruct stopped; intros [= ->].
  - by auto.
Qed.

(** The steps of [make_video] and the state that each failure leaves. *)
Lemma make_video_steps (loop : Z) (filename : OS.filename) (w : world) :
  let r := GymRecorder.self w in
  let md := GymRecorder.metadata r in
  let directory := OS.dirname (OS.abspath (GymRecorder.os w) filename) in
  make_video_loop loop filename w =
    match (if negb (OS.path_exists (GymRecorder.os w) directory)
           then OS.mkdir directory (GymRecorder.os w)
           else (Py.Ok tt, GymRecorder.os w)) with
    | (Py.Raise e, o) => (Py.Raise e, GymRecorder.World r o)
    | (Py.Ok _, o) =>
        match md !! "render_fps" with
        | None => (Py.Raise (Py.Exc "KeyError" "render_fps"),
                   GymRecorder.World r o)
        | Some fps =>
            match GymRecorder.ImageSequenceClip
                    shape (GymRecorder._frames r) fps with
            | Py.Raise e => (Py.Raise e, GymRecorder.World r o)
            | Py.Ok c =>
                let r' := GymRecorder.Obj md (GymRecorder._frames r) (Some c) in
                match write_file c (OS.abspath o filename) fps loop o with
                | (Py.Raise e, o') => (Py.Raise e, GymRecorder.World r' o')
                | (Py.Ok _, o') =>
                    (Py.Ok tt,
                     GymRecorder.World (GymRecorder.Obj md [] (Some c)) o')
                end
            end
        end
    end.
Proof.
  intros r md directory.
  destruct w as [r0 o0]. simpl in r, md, directory. subst r md.
  unfold GymRecorder.make_video_loop.
  unfold Py.bind at 1. unfold Py.get at 1. unfold Py.bind at 1.
  cbn [GymRecorder.os]. fold directory.
  unfold GymRecorder.with_os, Py.ret.
  assert (forall o,
    (let* w := Py.get in
     let frames := GymRecorder._frames (GymRecorder.self w) in
     let* fps := GymRecorder.env_metadata "render_fps" in
     let* c := Py.lift (GymRecorder.ImageSequenceClip shape frames fps) in
     GymRecorder.set_clip c;;
     let* fps := GymRecorder.env_metadata "render_fps" in
     GymRecorder.write_gif encode unopened c filename fps loop;;
     GymRecorder.set_frames []) (GymRecorder.World r0 o) =
    match GymRecorder.metadata r0 !! "render_fps" with
    | None => (Py.Raise (Py.Exc "KeyError" "render_fps"),
               GymRecorder.World r0 o)
    | Some fps =>
        match GymRecorder.ImageSequenceClip
                shape (GymRecorder._frames r0) fps with
        | Py.Raise e => (Py.Raise e, GymRecorder.World r0 o)
        | Py.Ok c =>
            let r' := GymRecorder.Obj (GymRecorder.metadata r0)
                        (GymRecorder._frames r0) (Some c) in
            match write_file c (OS.abspath o filename) fps loop o with
            | (Py.Raise e, o') => (Py.Raise e, GymRecorder.World r' o')
            | (Py.Ok _, o') =>
                (Py.Ok tt,
                 GymRecorder.World
                   (GymRecorder.Obj (GymRecorder.metadata r0) [] (Some c)) o')
            end
        end
    end) as Hrest.
  { intros o.
    unfold GymRecorder.write_gif,
    GymRecorder.env_metadata, GymRecorder.set_clip, GymRecorder.set_frames,
    GymRecorder.with_os, Py.bind, Py.get, Py.ret, Py.lift. simpl.
    destruct (GymRecorder.metadata r0 !! "render_fps") as [fps|] eqn:Hmd;
      simpl; [|done].
    destruct (GymRecorder.ImageSequenceClip _ _ _) as [c|e]; simpl; [|done].
    rewrite Hmd. cbn [GymRecorder.os GymRecorder.self].
    by destruct (GymRecorder.write_file _ _ c _ fps loop o) as [[[]|e] o']. }
  destruct (negb _); simpl.
  - destruct (OS.mkdir directory o0) as [[[]|e] o]; simpl; [|done].
    apply Hrest.
  - apply Hrest.
Qed.

(** X16.  [record] adds the frames of an episode after those already
    recorded and touches nothing else, so that recording two episodes
    one after the other is recording their frames in one call. *)
Theorem record_accumulates (xs ys : list F) (w : world) :
  exists w1 w2,
    GymRecorder.record xs w = (Py.Ok tt, w1) /\
    GymRecorder.record ys w1 = (Py.Ok tt, w2) /\
    GymRecorder.record (xs ++ ys) w = (Py.Ok tt, w2) /\
    GymRecorder._frames (GymRecorder.self w2)
      = GymRecorder._frames (GymRecorder.self w) ++ xs ++ ys /\
    GymRecorder.os w2 = GymRecorder.os w.
Proof.
  eexists _, _. split; [apply record_frames|].
  split; [apply record_frames|]. simpl.
  rewrite record_frames, <- app_assoc. done.
Qed.

Lemma clip_accepts (frames : list F) (fps : Z) :
  frames <> [] ->
  (forall x y, x ∈ frames -> y ∈ frames -> shape x = shape y) ->
  fps <> 0%Z ->
  GymRecorder.ImageSequenceClip shape frames fps
    = Py.Ok (GymRecorder.Clip frames fps).
Proof.
  intros Hne Hshape Hfps. unfold GymRecorder.ImageSequenceClip.
  destruct frames as [|first rest]; [done|].
  rewrite (proj2 (forallb_forall _ _)).
  - simpl. by destruct (Z.eqb_spec fps 0).
  - intros x Hx. apply bool_decide_eq_true, Hshape.
    + by apply list_elem_of_In.
    + apply list_elem_of_here.
Qed.

(** X17.  With frames of one shape recorded, a non-zero frame rate in
    the metadata of the environment, a file name that is not the name
    of a directory, the directory of the file or the parent of that
    directory in place, and an encoder that runs to its end on the
    clip, [make_video] succeeds: it creates the directory if it is
    missing, makes the clip of exactly the recorded frames, in order,
    leaves in the file what the encoder wrote for that clip, and
    empties the recorder. *)
Theorem make_video_writes_recording (loop fps : Z) (filename : OS.filename)
    (w : world) (g : G) :
  let r := GymRecorder.self w in
  let o := GymRecorder.os w in
  let p := OS.abspath o filename in
  let d := OS.dirname p in
  let c := GymRecorder.Clip (GymRecorder._frames r) fps in
  GymRecorder._frames r <> [] ->
  (forall x y,
      x ∈ GymRecorder._frames r -> y ∈ GymRecorder._frames r ->
      shape x = shape y) ->
  GymRecorder.metadata r !! "render_fps" = Some fps ->
  fps <> 0%Z ->
  encode c fps loop = (Some g, None) ->
  OS.isdir o p = false ->
  OS.isdir o d = true \/
  (OS.path_exists o d = false /\ OS.isdir o (OS.dirname d) = true) ->
  exists w',
    make_video_loop loop filename w = (Py.Ok tt, w') /\
    GymRecorder._frames (GymRecorder.self w') = [] /\
    GymRecorder.clip (GymRecorder.self w') = Some c /\
    OS.files (GymRecorder.os w') = <[ p := g ]> (OS.files o) /\
    OS.dirs (GymRecorder.os w')
      = (if OS.isdir o d then OS.dirs o else {[ d ]} ∪ OS.dirs o).
Proof.
  intros r o p d c Hne Hshape Hmd Hfps Henc Hp Hd.
  rewrite make_video_steps. fold r o p d.
  rewrite Hmd, (clip_accepts _ _ Hne Hshape Hfps). fold c.
  assert (p <> []) as Hp0.
  { intros Hnil. rewrite Hnil, isdir_root in Hp. done. }
  unfold OS.path_exists at 1.
  destruct Hd as [Hd|[Hex Hdd]].
  - rewrite Hd. cbn [orb negb]. fold p.
    unfold GymRecorder.write_file, OS.open_error. rewrite Hp. fold d.
    rewrite Hd, Henc. eexists. split; [reflexivity|]. done.
  - unfold OS.path_exists in Hex. rewrite Hex. cbn [negb].
    unfold OS.mkdir, OS.path_exists. rewrite Hex, Hdd.
    apply orb_false_elim in Hex as [Hex _]. rewrite Hex.
    change (OS.abspath (OS.FS (OS.cwd o) ({[d]} ∪ OS.dirs o) (OS.files o))
              filename) with p.
    unfold GymRecorder.write_file, OS.open_error.
    assert (OS.isdir (OS.FS (OS.cwd o) ({[d]} ∪ OS.dirs o) (OS.files o)) p
            = false) as ->.
    { apply bool_decide_eq_false. intros [?|Hin]; [done|].
      cbn [OS.dirs] in Hin. apply elem_of_union in Hin as [Hin|Hin].
      - apply elem_of_singleton in Hin. by apply (dirname_neq p).
      - apply bool_decide_eq_false in Hp. apply Hp. by right. }
    assert (OS.isdir (OS.FS (OS.cwd o) ({[d]} ∪ OS.dirs o) (OS.files o))
              (OS.dirname p) = true) as ->.
    { apply bool_decide_eq_true. right. cbn [OS.dirs].
      apply elem_of_union. left.
      by apply elem_of_singleton. }
    rewrite Henc. eexists. split; [reflexivity|]. done.
Qed.

(** X18.  When [make_video] raises, whatever the reason, the recorded
    frames are still in the recorder and every file other than the
    target is as it was.  The target itself is as it was too, unless
    the failure is the encoder's: it then holds what the encoder had
    written when it stopped. *)
Theorem make_video_failure_keeps_frames (loop : Z) (filename : OS.filename)
    (w w' : world) (e : Py.exc) :
  let p := OS.abspath (GymRecorder.os w) filename in
  make_video_loop loop filename w = (Py.Raise e, w') ->
  GymRecorder._frames (GymRecorder.self w')
    = GymRecorder._frames (GymRecorder.self w) /\
  (forall q, q <> p ->
     OS.files (GymRecorder.os w') !! q = OS.files (GymRecorder.os w) !! q) /\
  (OS.files (GymRecorder.os w') = OS.files (GymRecorder.os w) \/
   exists c fps g,
     GymRecorder.clip (GymRecorder.self w') = Some c /\
     encode c fps loop = (Some g, Some e) /\
     OS.files (GymRecorder.os w') = <[ p := g ]> (OS.files (GymRecorder.os w))).
Proof.
  intros p. rewrite make_video_steps.
  set (o := GymRecorder.os w) in *.
  set (d := OS.dirname (OS.abspath o filename)).
  destruct (if negb _ then _ else _) as [st o1] eqn:Hdir.
  assert (OS.files o1 = OS.files o /\ OS.cwd o1 = OS.cwd o) as [Hfiles Hcwd].
  { destruct (negb _); [|by injection Hdir as _ <-].
    apply mkdir_effect in Hdir.
    destruct st; [by destruct Hdir as (_ & _ & ->)|by destruct Hdir as [-> _]]. }
  assert (forall r0,
             GymRecorder._frames r0 = GymRecorder._frames (GymRecorder.self w) ->
             w' = GymRecorder.World r0 o1 ->
             GymRecorder._frames (GymRecorder.self w')
               = GymRecorder._frames (GymRecorder.self w) /\
             (forall q, q <> p ->
                OS.files (GymRecorder.os w') !! q = OS.files o !! q) /\
             (OS.files (GymRecorder.os w') = OS.files o \/
              exists c fps g,
                GymRecorder.clip (GymRecorder.self w') = Some c /\
                encode c fps loop = (Some g, Some e) /\
                OS.files (GymRecorder.os w') = <[ p := g ]> (OS.files o)))
    as Hearly.
  { intros r0 Hr0 ->. cbn [GymRecorder.self GymRecorder.os].
    rewrite Hfiles. by auto. }
  destruct st as [[]|e1]; [|intros [= _ <-]; by eapply Hearly].
  destruct (_ !! "render_fps") as [fps|]; [|intros [= _ <-]; by eapply Hearly].
  destruct (GymRecorder.ImageSequenceClip _ _ _) as [c|e2];
    [|intros [= _ <-]; by eapply Hearly].
  cbn zeta. clear Hearly.
  destruct (GymRecorder.write_file _ _ c _ fps loop o1)
    as [[[]|e4] o2] eqn:Hw; [done|].
  apply write_file_effect in Hw as (_ & _ & Hw). intros [= -> <-].
  cbn [GymRecorder.self GymRecorder.os GymRecorder._frames GymRecorder.clip].
  assert (OS.abspath o1 filename = p) as Hp
    by (subst p; destruct filename; simpl; congruence).
  rewrite Hp in Hw. split; [done|].
  destruct Hw as [->|(g & _ & Hg & Hstop & ->)];
    [rewrite Hfiles; by auto|].
  cbn [OS.put OS.files]. rewrite Hfiles. split.
  - intros q Hq. by rewrite lookup_insert_ne.
  - right. exists c, fps, g. split; [done|]. split; [|done].
    specialize (Hstop e eq_refl).
    destruct (encode c fps loop) as [wr st]. simpl in Hg, Hstop. congruence.
Qed.

(** X19.  [make_video] creates one level of directory only: when
    neither the directory of the file nor the parent of that directory
    exists, it raises [FileNotFoundError] and leaves the recorder and
    the file system as they were. *)
Theorem make_video_needs_parent (loop : Z) (filename : OS.filename)
    (w : world) :
  let d := OS.dirname (OS.abspath (GymRecorder.os w) filename) in
  OS.path_exists (GymRecorder.os w) d = false ->
  OS.path_exists (GymRecorder.os w) (OS.dirname d) = false ->
  make_video_loop loop filename w = (Py.Raise OS.FileNotFoundError, w).
Proof.
  intros d Hd Hdd. rewrite make_video_steps. fold d. rewrite Hd. cbn [negb].
  unfold OS.mkdir. rewrite Hd.
  apply orb_false_elim in Hdd as [-> ->]. by destruct w.
Qed.

(** X20.  One recording gives one video: right after a successful
    [make_video], a second call for the same file raises [IndexError],
    because no frame is left, and the file written by the first call
    stays as it is. *)
Theorem make_video_twice (loop loop' : Z) (filename : OS.filename)
    (w w1 : world) :
  make_video_loop loop filename w = (Py.Ok tt, w1) ->
  exists w2,
    make_video_loop loop' filename w1 = (Py.Raise Random.IndexError, w2) /\
    GymRecorder.os w2 = GymRecorder.os w1.
Proof.
  rewrite make_video_steps.
  set (o := GymRecorder.os w).
  set (d := OS.dirname (OS.abspath o filename)).
  destruct (if negb _ then _ else _) as [[[]|e1] o1] eqn:Hdir; [|done].
  assert (OS.cwd o1 = OS.cwd o /\ OS.path_exists o1 d = true) as [Hcwd Hd].
  { destruct (negb (OS.path_exists o d)) eqn:Hex.
    - apply mkdir_effect in Hdir. destruct Hdir as (_ & _ & ->).
      split; [done|]. unfold OS.path_exists. apply orb_true_intro. left.
      apply bool_decide_eq_true. right. cbn [OS.dirs].
      apply elem_of_union. left. by apply elem_of_singleton.
    - injection Hdir as <-. split; [done|]. by apply negb_false_iff. }
  destruct (_ !! "render_fps") as [fps|] eqn:Hmd; [|done].
  destruct (GymRecorder.ImageSequenceClip _ _ _) as [c|e2]; [|done].
  cbn zeta.
  destruct (GymRecorder.write_file _ _ c _ fps loop o1)
    as [[[]|e4] o2] eqn:Hw; [|done].
  apply write_file_effect in Hw as (Hcwd2 & Hdirs2 & Hw).
  intros [= <-]. rewrite make_video_steps. cbn [GymRecorder.self GymRecorder.os
    GymRecorder.metadata GymRecorder._frames].
  assert (OS.abspath o2 filename = OS.abspath o filename) as ->
    by (destruct filename; simpl; congruence).
  fold d.
  assert (OS.path_exists o2 d = true) as ->.
  { destruct Hw as [->|(g & _ & _ & _ & ->)]; [done|].
    unfold OS.path_exists in *. apply orb_true_iff in Hd as [Hd|Hd].
    - apply orb_true_intro. by left.
    - apply orb_true_intro. right. unfold OS.isfile in *.
      apply bool_decide_eq_true. apply bool_decide_eq_true in Hd.
      cbn [OS.put OS.files].
      destruct (decide (OS.abspath o1 filename = d)) as [->|Hne].
      + by rewrite lookup_insert_eq.
      + by rewrite lookup_insert_ne. }
  cbn [negb]. rewrite Hmd. cbn [GymRecorder.ImageSequenceClip].
  by eexists.
Qed.

End RecorderProperties.

Lemma make_video_writes_recording_witness :
  exists w',
    GymRecorder.make_video_loop GymRecorder.demo_shape GymRecorder.demo_encode
      GymRecorder.demo_unopened
      0 (OS.Relative ["videos"; "CartPole-v1.gif"]) GymRecorder.demo
      = (Py.Ok tt, w') /\
    GymRecorder._frames (GymRecorder.self w') = [] /\
    GymRecorder.clip (GymRecorder.self w')
      = Some (GymRecorder.Clip [1; 2; 3] 50) /\
    OS.files (GymRecorder.os w')
      = <[ ["home"; "videos"; "CartPole-v1.gif"] := ([1; 2; 3], 50%Z, 0%Z) ]>
          (OS.files GymRecorder.demo_os) /\
    OS.dirs (GymRecorder.os w')
      = {[ ["home"; "videos"] ]} ∪ OS.dirs GymRecorder.demo_os.
Proof.
  apply (make_video_writes_recording GymRecorder.demo_shape
           GymRecorder.demo_encode GymRecorder.demo_unopened 0 50
           (OS.Relative ["videos"; "CartPole-v1.gif"]) GymRecorder.demo
           ([1; 2; 3], 50%Z, 0%Z)).
  - done.
  - reflexivity.
  - reflexivity.
  - lia.
  - reflexivity.
  - vm_compute. reflexivity.
  - right. split; vm_compute; reflexivity.
Defined.

Lemma make_video_failure_keeps_frames_witness :
  exists w',
    GymRecorder.make_video_loop GymRecorder.demo_shape
      GymRecorder.demo_encode_stops GymRecorder.demo_unopened
      0 (OS.Relative ["CartPole-v1.gif"]) GymRecorder.demo
      = (Py.Raise (Py.Exc "ValueError" "image has the wrong mode"), w') /\
    GymRecorder._frames (GymRecorder.self w') = [1; 2; 3] /\
    OS.files (GymRecorder.os w')
      = {[ ["home"; "CartPole-v1.gif"] := ([1], 50%Z, 0%Z) ]}.
Proof.
  eexists. split; [vm_compute; reflexivity|].
  destruct (make_video_failure_keeps_frames GymRecorder.demo_shape
              GymRecorder.demo_encode_stops GymRecorder.demo_unopened 0
              (OS.Relative ["CartPole-v1.gif"])
              GymRecorder.demo _
              (Py.Exc "ValueError" "image has the wrong mode") eq_refl)
    as (Hframes & _ & _).
  split; [exact Hframes|reflexivity].
Defined.

Lemma make_video_needs_parent_witness :
  GymRecorder.make_video_loop GymRecorder.demo_shape GymRecorder.demo_encode
    GymRecorder.demo_unopened
    0 (OS.Relative ["videos"; "dqn"; "CartPole-v1.gif"]) GymRecorder.demo
  = (Py.Raise OS.FileNotFoundError, GymRecorder.demo).
Proof.
  apply (make_video_needs_parent GymRecorder.demo_shape
           GymRecorder.demo_encode GymRecorder.demo_unopened 0
           (OS.Relative ["videos"; "dqn"; "CartPole-v1.gif"])
           GymRecorder.demo); vm_compute; reflexivity.
Defined.

Lemma make_video_twice_witness :
  exists w2,
    GymRecorder.make_video_loop GymRecorder.demo_shape GymRecorder.demo_encode
      GymRecorder.demo_unopened
      1 (OS.Relative ["videos"; "CartPole-v1.gif"])
      (snd (GymRecorder.make_video_loop GymRecorder.demo_shape
              GymRecorder.demo_encode GymRecorder.demo_unopened 0
              (OS.Relative ["videos"; "CartPole-v1.gif"]) GymRecorder.demo))
      = (Py.Raise Random.IndexError, w2) /\
    GymRecorder.os w2
      = GymRecorder.os
          (snd (GymRecorder.make_video_loop GymRecorder.demo_shape
                  GymRecorder.demo_encode GymRecorder.demo_unopened 0
                  (OS.Relative ["videos"; "CartPole-v1.gif"])
                  GymRecorder.demo)).
Proof.
  apply (make_video_twice GymRecorder.demo_shape GymRecorder.demo_encode
           GymRecorder.demo_unopened 0 1
           (OS.Relative ["videos"; "CartPole-v1.gif"]) GymRecorder.demo).
  vm_compute. reflexivity.
Defined.

(** A file name that is the name of a directory: nothing is written,
    and when the library returns in silence the recording is dropped
    all the same. *)
Example make_video_on_directory :
  exists w',
    GymRecorder.make_video_loop GymRecorder.demo_shape GymRecorder.demo_encode
      GymRecorder.demo_unopened
      0 (OS.Absolute ["home"]) GymRecorder.demo = (Py.Ok tt, w') /\
    GymRecorder._frames (GymRecorder.self w') = [] /\
    GymRecorder.os w' = GymRecorder.demo_os.
Proof. eexists. split; [vm_compute; reflexivity|]. by split. Qed.


(** ** The running average *)

Lemma correlate_same_length (a v : list Q) :
  length (Numpy.correlate_same a v) = length a.
Proof. unfold Numpy.correlate_same. by rewrite length_map, length_seq. Qed.

(** X21.  [running_average(x, N)] gives a result exactly for a
    non-empty [x] and [N >= 1], and raises [ValueError] otherwise; the
    result has the length of the longer of [x] and the window, so that
    a window longer than the data gives more values than there are
    data. *)
Theorem running_average_length (x : list Q) (N : Z) :
  (x <> [] /\ (1 <= N)%Z ->
   exists y,
     running_average x N = Py.Ok y /\
     length y = Nat.max (length x) (Z.to_nat N)) /\
  (~ (x <> [] /\ (1 <= N)%Z) ->
   Py.raises "ValueError" (running_average x N)).
Proof.
  unfold running_average, Numpy.ones_over, Numpy.convolve_same.
  destruct (Z.ltb_spec N 0) as [Hneg|Hpos].
  { split; [lia|]. intros _. by eexists. }
  cbn [Py.and_then]. rewrite length_replicate.
  destruct (Nat.ltb_spec (length x) (Z.to_nat N)) as [Hlt|Hge].
  - rewrite length_replicate.
    destruct (Nat.eqb_spec (Z.to_nat N) 0) as [|_]; [lia|].
    destruct (Nat.eqb_spec (length x) 0) as [Hx|Hx].
    + split; [|intros _; by eexists].
      intros [Hne _]. by destruct x.
    + split; [|intros Hn; exfalso; apply Hn; split; [by destruct x|lia]].
      intros _. eexists. split; [reflexivity|].
      rewrite correlate_same_length, length_replicate. lia.
  - destruct (Nat.eqb_spec (length x) 0) as [Hx|Hx].
    { split; [|intros _; by eexists]. intros [Hne _]. by destruct x. }
    rewrite length_replicate.
    destruct (Nat.eqb_spec (Z.to_nat N) 0) as [HN|HN].
    + split; [lia|]. intros _. by eexists.
    + split; [|intros Hn; exfalso; apply Hn; split; [by destruct x|lia]].
      intros _. eexists. split; [reflexivity|].
      rewrite correlate_same_length. lia.
Qed.

Lemma running_average_length_witness :
  exists y,
    running_average [1; 2]%Q 5 = Py.Ok y /\
    length y = Nat.max (length [1; 2]%Q) (Z.to_nat 5).
Proof.
  apply (proj1 (running_average_length [1; 2]%Q 5)). split; [done|lia].
Defined.

(** X22.  A window of one sample changes nothing: the running average
    of a non-empty [x] with [N = 1] is [x] itself. *)
Theorem running_average_one (x : list Q) :
  x <> [] ->
  exists y, running_average x 1 = Py.Ok y /\ Forall2 Qeq y x.
Proof.
  intros Hx. unfold running_average, Numpy.ones_over, Numpy.convolve_same.
  cbn [Z.ltb Z.compare Py.and_then Z.to_nat Pos.to_nat Pos.iter_op replicate
         length].
  destruct x as [|x0 x]; [done|]. cbn [length Nat.ltb Nat.leb Nat.eqb].
  eexists. split; [reflexivity|].
  apply Forall2_same_length_lookup. split.
  { by rewrite correlate_same_length. }
  intros i y z Hy Hz. unfold Numpy.correlate_same in Hy.
  rewrite list_lookup_fmap in Hy.
  destruct (seq 0 (length (x0 :: x)) !! i) as [k|] eqn:Hk; [|done].
  apply lookup_seq in Hk as [-> _]. injection Hy as <-.
  cbn [rev app imap fold_left length Nat.div Nat.divmod fst].
  unfold Numpy.padded.
  replace (Z.of_nat i + Z.of_nat 0 - Z.of_nat 0)%Z with (Z.of_nat i) by lia.
  destruct (Z.ltb_spec (Z.of_nat i) 0); [lia|]. rewrite Nat2Z.id.
  rewrite (nth_lookup_Some _ _ _ _ Hz).
  change (inject_Z 1) with 1%Q. field.
Qed.

Lemma running_average_one_witness :
  exists y, running_average [3; 5; 4]%Q 1 = Py.Ok y /\ Forall2 Qeq y [3; 5; 4]%Q.
Proof. by apply (running_average_one [3; 5; 4]%Q). Defined.

(** ** Sorted datasets and their minibatches *)

#[local] Instance by_target_trans : Transitive Data.by_target.
Proof. unfold Data.by_target. intros a b c. lia. Qed.

#[local] Instance by_target_total : Total Data.by_target.
Proof. unfold Data.by_target. intros a b. lia. Qed.

Lemma for_each_app {A B} (f : A -> Py.result B) (l1 l2 : list A)
    (ys1 ys2 : list B) :
  Data.for_each f l1 = Py.Ok ys1 -> Data.for_each f l2 = Py.Ok ys2 ->
  Data.for_each f (l1 ++ l2) = Py.Ok (ys1 ++ ys2).
Proof.
  revert ys1. induction l1 as [|x l1 IH]; intros ys1; simpl.
  { by intros [= <-]. }
  destruct (f x) as [y|]; [|done]. simpl.
  destruct (Data.for_each f l1) as [ys|]; [|done]. simpl.
  intros [= <-] H2. by rewrite (IH ys eq_refl H2).
Qed.

(** Reading every position of a list in turn is running over the
    list. *)
Lemma for_each_positions {A B} (f : A -> Py.result B) (e : Py.exc)
    (l pre : list A) :
  Data.for_each
    (fun idx => match (pre ++ l) !! idx with
                | None => Py.Raise e
                | Some i => f i
                end)
    (seq (length pre) (length l))
  = Data.for_each f l.
Proof.
  revert pre. induction l as [|x l IH]; intros pre; [done|].
  cbn [length seq Data.for_each].
  rewrite lookup_app_r, Nat.sub_diag by lia. cbn [lookup list_lookup].
  specialize (IH (pre ++ [x])).
  rewrite <- app_assoc, length_app, Nat.add_1_r in IH. cbn [app] in IH.
  by rewrite IH.
Qed.

Section DatasetProperties.

Context {X : Type}.
Implicit Types d : list (X * Z).

(** The positions paired with their targets, in sorted order. *)
Local Abbreviation sorted_pairs d :=
  (merge_sort Data.by_target (zip (seq 0 (length d.*2)) d.*2)).

Lemma pairs_in_dataset d (pre : list (X * Z)) :
  omap (fun p : nat * Z => (pre ++ d) !! p.1)
       (zip (seq (length pre) (length d.*2)) d.*2)
  = d.
Proof.
  revert pre. induction d as [|y d IH]; intros pre; [done|].
  cbn [fmap list_fmap length seq zip zip_with omap list_omap fst].
  rewrite lookup_app_r, Nat.sub_diag by lia. cbn [lookup list_lookup].
  specialize (IH (pre ++ [y])).
  rewrite <- app_assoc, length_app, Nat.add_1_r in IH. cbn [app] in IH.
  by rewrite IH.
Qed.

Lemma pairs_have_targets d :
  Forall (fun p : nat * Z => exists x, d !! p.1 = Some (x, p.2))
         (sorted_pairs d).
Proof.
  rewrite merge_sort_Permutation. apply Forall_lookup. intros i [j t] Hp.
  rewrite lookup_zip_with in Hp.
  destruct (seq 0 (length d.*2) !! i) as [k|] eqn:Hk; [|done].
  apply lookup_seq in Hk as [-> _]. cbn in Hp.
  rewrite list_lookup_fmap in Hp.
  destruct (d !! i) as [[x t']|] eqn:Hd; [|done].
  injection Hp as <- <-. by exists x.
Qed.

(** The items of the sorted dataset, in its order. *)
Lemma sorted_items d :
  let s := Data.sort_dataset_by_labels d in
  let items := omap (fun p : nat * Z => d !! p.1) (sorted_pairs d) in
  Data.for_each (Data.Subset_getitem s) (seq 0 (Data.Subset_len s))
    = Py.Ok items /\
  items ≡ₚ d /\
  StronglySorted Z.le items.*2.
Proof.
  intros s items. split; [|split].
  - unfold Data.Subset_getitem, Data.Subset_len.
    rewrite (for_each_positions
               (fun i => match Data.dataset s !! i with
                         | None => Py.Raise Random.IndexError
                         | Some sample => Py.Ok sample
                         end) _ (Data.indices s) []).
    subst s items. cbn [Data.sort_dataset_by_labels Data.indices Data.dataset].
    unfold Data.argsort. generalize (pairs_have_targets d).
    generalize (sorted_pairs d). intros pairs Hpairs.
    induction Hpairs as [|[i t] pairs [x Hx] _ IH]; [done|].
    cbn [fmap list_fmap Data.for_each omap list_omap fst].
    cbn [fst snd] in Hx. rewrite Hx. cbn [Py.and_then].
    fold (@fmap list _ _ _ (@fst nat Z) pairs). by rewrite IH.
  - subst items. rewrite merge_sort_Permutation.
    pose proof (pairs_in_dataset d []) as Hd. cbn [app length] in Hd.
    by rewrite Hd.
  - assert (items.*2 = (sorted_pairs d).*2) as ->.
    { subst items. generalize (pairs_have_targets d).
      generalize (sorted_pairs d). intros pairs Hpairs.
      induction Hpairs as [|[i t] pairs [x Hx] _ IH]; [done|].
      cbn [fmap list_fmap omap list_omap fst snd] in *. rewrite Hx.
      cbn. f_equal. apply IH. }
    apply (StronglySorted_fmap snd Data.by_target); [done|].
    apply StronglySorted_merge_sort; apply _.
Qed.

(** X23.  [sort_dataset_by_labels] gives the samples of the dataset,
    each once, in an order in which the labels never decrease; every
    item of the sorted dataset can be read. *)
Theorem sort_dataset_by_labels_sorted d :
  let s := Data.sort_dataset_by_labels d in
  exists items,
    Data.for_each (Data.Subset_getitem s) (seq 0 (Data.Subset_len s))
      = Py.Ok items /\
    items ≡ₚ d /\
    StronglySorted Z.le items.*2.
Proof. intros s. eexists. apply sorted_items. Qed.

Lemma batch_sampler_concat (batch_size : nat) (sampler batch : list nat) :
  concat (Data.batch_sampler batch_size batch sampler) = batch ++ sampler.
Proof.
  revert batch. induction sampler as [|idx sampler IH]; intros batch; simpl.
  - destruct batch; simpl; by rewrite ?app_nil_r.
  - destruct (_ =? _)%nat; simpl; rewrite IH, <- ?app_assoc; done.
Qed.

(** Every batch but the last is full, and no batch is empty. *)
Lemma batch_sampler_sizes (batch_size : nat) (sampler batch : list nat) :
  length batch < batch_size ->
  let batches := Data.batch_sampler batch_size batch sampler in
  Forall (fun b => 0 < length b <= batch_size) batches /\
  (forall i b, batches !! i = Some b -> S i < length batches ->
               length b = batch_size).
Proof.
  revert batch. induction sampler as [|idx sampler IH]; intros batch Hlen.
  - cbn [Data.batch_sampler]. destruct (Nat.ltb_spec 0 (length batch)).
    + split; [constructor; [lia|constructor]|].
      intros [|i] b; cbn; [lia|done].
    + split; [constructor|]. by intros i b.
  - cbn [Data.batch_sampler]. rewrite length_app. cbn [length].
    destruct (Nat.eqb_spec (length batch + 1) batch_size) as [Hfull|Hmore].
    + destruct (IH [] ltac:(cbn; lia)) as [Hall Hbut].
      split.
      * constructor; [rewrite length_app; cbn; lia|done].
      * intros [|i] b; cbn [lookup list_lookup length].
        -- intros [= <-] _. rewrite length_app. cbn. lia.
        -- intros Hb Hi. apply (Hbut i b Hb). lia.
    + apply IH. rewrite length_app. cbn. lia.
Qed.

Lemma for_each_batches {A B} (f : A -> Py.result B) (ls : list (list A))
    (ys : list B) :
  Data.for_each f (concat ls) = Py.Ok ys ->
  exists yss,
    Data.for_each (Data.for_each f) ls = Py.Ok yss /\
    concat yss = ys /\
    Forall2 (fun l ys => length ys = length l) ls yss.
Proof.
  revert ys. induction ls as [|l ls IH]; intros ys; cbn.
  { intros [= <-]. by exists []. }
  assert (forall l1 l2 zs,
             Data.for_each f (l1 ++ l2) = Py.Ok zs ->
             exists zs1 zs2,
               Data.for_each f l1 = Py.Ok zs1 /\
               Data.for_each f l2 = Py.Ok zs2 /\
               zs = zs1 ++ zs2 /\ length zs1 = length l1) as Hsplit.
  { clear. induction l1 as [|x l1 IH]; intros l2 zs; cbn.
    { intros H. by exists [], zs. }
    destruct (f x) as [y|]; [|done]. cbn.
    destruct (Data.for_each f (l1 ++ l2)) as [zs'|] eqn:Hrest; [|done].
    cbn. intros [= <-].
    destruct (IH l2 zs' Hrest) as (zs1 & zs2 & -> & -> & -> & Hlen).
    exists (y :: zs1), zs2. cbn. by rewrite Hlen. }
  intros Hall. destruct (Hsplit _ _ _ Hall) as (zs1 & zs2 & -> & H2 & -> & Hlen).
  destruct (IH zs2 H2) as (yss & -> & <- & Hlens). cbn.
  exists (zs1 :: yss). split; [done|]. split; [done|]. by constructor.
Qed.

(** X24.  A data loader without shuffling over a dataset sorted by
    [sort_dataset_by_labels] yields every sample once, in batches
    that are full except possibly the last and never empty, and with
    labels that never decrease from a batch to a later one. *)
Theorem sorted_loader_batches d (batch_size : Z) :
  (0 < batch_size)%Z ->
  exists batches,
    Data.DataLoader (Data.sort_dataset_by_labels d) batch_size
      = Py.Ok batches /\
    concat batches ≡ₚ d /\
    Forall (fun b => 0 < length b <= Z.to_nat batch_size) batches /\
    (forall i b, batches !! i = Some b -> S i < length batches ->
                 length b = Z.to_nat batch_size) /\
    (forall i j bi bj a b,
        i < j -> batches !! i = Some bi -> batches !! j = Some bj ->
        a ∈ bi -> b ∈ bj -> (a.2 <= b.2)%Z).
Proof.
  intros Hb. unfold Data.DataLoader.
  destruct (Z.leb_spec batch_size 0) as [|_]; [lia|].
  set (s := Data.sort_dataset_by_labels d).
  set (bs := Data.batch_sampler (Z.to_nat batch_size) []
               (seq 0 (Data.Subset_len s))).
  destruct (sorted_items d) as (Hitems & Hperm & Hsorted). fold s in Hitems.
  assert (concat bs = seq 0 (Data.Subset_len s)) as Hbs
    by apply (batch_sampler_concat _ _ []).
  rewrite <- Hbs in Hitems.
  apply for_each_batches in Hitems as (batches & Hrun & Hconcat & Hlens).
  fold bs in Hrun, Hlens. exists batches.
  destruct (batch_sampler_sizes (Z.to_nat batch_size)
              (seq 0 (Data.Subset_len s)) []) as [Hall Hbut]; [cbn; lia|].
  fold bs in Hall, Hbut.
  split; [done|]. split; [by rewrite Hconcat|].
  split; [|split].
  - apply Forall_lookup. intros i b Hi.
    destruct (Forall2_lookup_r _ _ _ _ _ Hlens Hi) as (l & Hl & ->).
    by apply (Forall_lookup_1 _ _ _ _ Hall Hl).
  - intros i b Hi Hlast.
    destruct (Forall2_lookup_r _ _ _ _ _ Hlens Hi) as (l & Hl & ->).
    apply (Hbut i l Hl). by rewrite (Forall2_length _ _ _ Hlens).
  - rewrite <- Hconcat in Hsorted. clear -Hsorted.
    intros i j bi bj a b Hij Hi Hj Ha Hb.
    apply take_drop_middle in Hj. rewrite <- Hj in Hsorted.
    rewrite concat_app, fmap_app in Hsorted.
    apply (StronglySorted_app_1_elem_of _ _ _ a.2 b.2 Hsorted).
    + apply list_elem_of_fmap_2, list_elem_of_In, in_concat. exists bi.
      split; [|by apply list_elem_of_In].
      apply list_elem_of_In, elem_of_take. exists i. by split.
    + apply list_elem_of_fmap_2. cbn [concat]. apply elem_of_app. by left.
Qed.

End DatasetProperties.

Lemma sorted_loader_batches_witness :
  exists batches,
    Data.DataLoader
      (Data.sort_dataset_by_labels [("a", 1%Z); ("b", 0%Z); ("c", 1%Z)]) 2
      = Py.Ok batches /\
    concat batches ≡ₚ [("a", 1%Z); ("b", 0%Z); ("c", 1%Z)] /\
    Forall (fun b => 0 < length b <= Z.to_nat 2) batches /\
    (forall i b, batches !! i = Some b -> S i < length batches ->
                 length b = Z.to_nat 2) /\
    (forall i j bi bj (a b : string * Z),
        i < j -> batches !! i = Some bi -> batches !! j = Some bj ->
        a ∈ bi -> b ∈ bj -> (a.2 <= b.2)%Z).
Proof.
  apply (sorted_loader_batches [("a", 1%Z); ("b", 0%Z); ("c", 1%Z)] 2). lia.
Defined.

(** ** The metrics of validation *)

Lemma count_eq_le (pred : list nat) (target : list Z) :
  Metrics.count_eq pred target <= length target.
Proof.
  unfold Metrics.count_eq.
  etransitivity; [apply length_filter|].
  rewrite length_zip_with. lia.
Qed.

Lemma for_each_argmax (rows : list (list Q)) :
  Forall (fun row => row <> []) rows ->
  exists pred, Data.for_each Agent.argmax rows = Py.Ok pred.
Proof.
  induction 1 as [|row rows Hrow _ [pred IH]]; [by eexists|].
  cbn. destruct row; [done|]. cbn. rewrite IH. by eexists.
Qed.

Section ValidateProperties.

Context {X : Type}.
Variable model : X -> list Q.
Variable loss_function : list (list Q) -> list Z -> float.
Hypothesis model_scores : forall x, model x <> [].

Local Abbreviation minibatches := (Metrics.minibatches model loss_function).
Local Abbreviation validate := (Metrics.validate model loss_function).

Lemma minibatches_counts (todo : list (list (X * Z))) :
  forall (test_loss : float) (correct total : nat),
    correct <= total ->
    exists test_loss' correct',
      minibatches todo test_loss correct total
        = Py.Ok (test_loss', correct', total + length (concat todo)) /\
      correct' <= total + length (concat todo).
Proof.
  induction todo as [|batch todo IH]; intros test_loss correct total Hle.
  { eexists _, _. cbn. rewrite Nat.add_0_r. by split. }
  cbn [Metrics.minibatches].
  destruct (for_each_argmax (model <$> batch.*1)) as [pred ->].
  { apply Forall_fmap, Forall_forall. intros x _. apply model_scores. }
  cbn [Py.and_then].
  pose proof (count_eq_le pred batch.*2) as Hcount.
  destruct (IH (test_loss
                + loss_function (model <$> batch.*1) batch.*2
                  * Metrics.float_of_nat (length batch.*1))%float
              (correct + Metrics.count_eq pred batch.*2)
              (total + length batch.*2))
    as (test_loss' & correct' & -> & Hle'); [lia|].
  rewrite !length_fmap in *. cbn [concat]. rewrite length_app.
  rewrite Nat.add_assoc. eexists _, _. by split.
Qed.

(** X25.  For a model that gives every sample at least one score,
    [validate] returns exactly when the dataset of the loader is not
    empty and the loader yields at least one sample, and raises
    [ZeroDivisionError] otherwise; the accuracy it returns lies between
    0 and 100. *)
Theorem validate_accuracy_bounds (test_loader : Metrics.loader) :
  (Metrics.dataset test_loader <> [] /\
   concat (Metrics.batches test_loader) <> [] ->
   exists test_loss accuracy,
     validate test_loader = Py.Ok (test_loss, accuracy) /\
     (0 <= accuracy)%Q /\ (accuracy <= 100)%Q) /\
  (Metrics.dataset test_loader = [] \/
   concat (Metrics.batches test_loader) = [] ->
   Py.raises "ZeroDivisionError" (validate test_loader)).
Proof.
  unfold Metrics.validate.
  destruct (minibatches_counts (Metrics.batches test_loader) 0%float 0 0)
    as (test_loss & correct & -> & Hle); [done|].
  cbn [Py.and_then]. rewrite Nat.add_0_l in *.
  destruct (Nat.eqb_spec (length (Metrics.dataset test_loader)) 0) as [Hd|Hd].
  { split; [|intros _; by eexists].
    intros [Hne _]. by destruct (Metrics.dataset test_loader). }
  destruct (Nat.eqb_spec (length (concat (Metrics.batches test_loader))) 0)
    as [Hb|Hb].
  { split; [|intros _; by eexists].
    intros [_ Hne]. by destruct (concat (Metrics.batches test_loader)). }
  split.
  - intros _. eexists _, _. split; [reflexivity|].
    set (total := length (concat (Metrics.batches test_loader))) in *.
    assert (0 < inject_Z (Z.of_nat total))%Q as Hpos.
    { change 0%Q with (inject_Z 0). rewrite <- Zlt_Qlt. lia. }
    split.
    + apply Qle_shift_div_l; [done|]. rewrite Qmult_0_l.
      change 100%Q with (inject_Z 100). rewrite <- inject_Z_mult.
      change 0%Q with (inject_Z 0). rewrite <- Zle_Qle. lia.
    + apply Qle_shift_div_r; [done|].
      change 100%Q with (inject_Z 100). rewrite <- !inject_Z_mult.
      rewrite <- Zle_Qle. lia.
  - intros [Hnil|Hnil]; rewrite Hnil in *; done.
Qed.

End ValidateProperties.

Lemma validate_accuracy_bounds_witness :
  exists test_loss accuracy,
    Metrics.validate Metrics.demo_model Metrics.demo_loss Metrics.demo_loader
      = Py.Ok (test_loss, accuracy) /\
    (0 <= accuracy)%Q /\ (accuracy <= 100)%Q.
Proof.
  apply (validate_accuracy_bounds Metrics.demo_model Metrics.demo_loss
           ltac:(done) Metrics.demo_loader).
  split; done.
Defined.

(** X26.  The loss that [validate] returns depends on the order in
    which the loader yields its minibatches, the losses being added
    up on binary64 numbers from the first minibatch on: two loaders
    over one dataset that yield the same three minibatches, one of
    them first or last, get different losses and the same accuracy. *)
Theorem validate_loss_order_matters :
  Metrics.dataset Metrics.demo_by_one
    = Metrics.dataset Metrics.demo_reordered /\
  Metrics.batches Metrics.demo_by_one
    ≡ₚ Metrics.batches Metrics.demo_reordered /\
  exists loss1 loss2 accuracy,
    Metrics.validate Metrics.demo_model Metrics.demo_loss Metrics.demo_by_one
      = Py.Ok (loss1, accuracy) /\
    Metrics.validate Metrics.demo_model Metrics.demo_loss
      Metrics.demo_reordered = Py.Ok (loss2, accuracy) /\
    PrimFloat.eqb loss1 loss2 = false.
Proof.
  split; [reflexivity|]. split.
  - apply (Permutation_cons_append
             [[(0.2, 1%Z)]; [(0.3, 1%Z)]]%Q [(0.9, 0%Z)]%Q).
  - eexists _, _, _. split; [vm_compute; reflexivity|].
    split; [vm_compute; reflexivity|]. vm_compute. reflexivity.
Qed.
